(** * The Discourse plugin of Metagov: a shallow embedding and its properties

    Source: [metagov/plugins/discourse/models.py], classes [Discourse]
    (the plugin: remote client, actions, webhook receiver) and
    [DiscoursePoll] (the governance process: start, update, close and the
    outcome reconciliation).

    Conventions of the embedding.
    - A Python [str] or [bytes] value is a [string]: a sequence of
      characters with code points 0..255 (the range of a header decoded by
      the web server, and of a byte).
    - A JSON value is a [json]; Python's [None] is [JNull].
    - A method is a computation in the monad [M]: it threads the [World]
      (the fields of [self], the caller's dictionary, the log of effects)
      and either returns or raises; what was mutated before an exception
      stays mutated.
    - Calls of [logger] are left out: they change neither the control flow
      nor any state the methods read.
    - [DiscoursePoll] has [update], [close] and the reconciliation on
      responses of the shape Discourse gives them; [Wire] has the same
      three on a response of any shape, with the exceptions of the
      subscripts and the in-place writes of the loop, and
      [wire_update_close_agree] relates the two. *)

From Stdlib Require Import ZArith String Ascii List Lia Bool DecimalString.
From stdpp Require Import base option list gmap strings.

Set Warnings "-register-all".

Local Open Scope Z_scope.
Local Open Scope string_scope.

(** ** Python values and the parts of the runtime the plugin calls *)

Module Py.

(** JSON values as [json.loads] and [Response.json] build them.  An object
    keeps its items in insertion order. *)
Inductive json : Type :=
| JNull
| JBool (b : bool)
| JInt (n : Z)
| JStr (s : string)
| JList (l : list json)
| JObj (items : list (string * json)).

(** The exceptions the plugin can raise or let through.
    [PluginErrorInternal] is the error class of [metagov.core.errors],
    raised with one message; the others are Python's own
    ([JSONDecodeError] stands for the [ValueError] a failed decoding
    raises). *)
Inductive exn : Type :=
| PluginErrorInternal (detail : string)
| KeyError
| TypeError
| AttributeError
| IndexError
| JSONDecodeError.

Inductive Result (A : Type) : Type :=
| Ok (a : A)
| Raise (e : exn).
Arguments Ok {A} a.
Arguments Raise {A} e.

(** Truth value of an object: [bool(x)]. *)
Definition truthy (j : json) : bool :=
  match j with
  | JNull => false
  | JBool b => b
  | JInt n => negb (n =? 0)%Z
  | JStr s => negb (String.eqb s "")
  | JList l => match l with [] => false | _ => true end
  | JObj items => match items with [] => false | _ => true end
  end.

(** [d.get(key)] on a dict given by its items. *)
Fixpoint assoc (key : string) (items : list (string * json)) : option json :=
  match items with
  | [] => None
  | (k, v) :: rest => if String.eqb k key then Some v else assoc key rest
  end.

(** [x.get(key)]: only a dict has the method. *)
Definition dict_get (x : json) (key : string) : Result json :=
  match x with
  | JObj items => Ok (default JNull (assoc key items))
  | _ => Raise AttributeError
  end.

(** [x[key]] with a string key. *)
Definition getitem (x : json) (key : string) : Result json :=
  match x with
  | JObj items =>
      match assoc key items with
      | Some v => Ok v
      | None => Raise KeyError
      end
  | _ => Raise TypeError
  end.

(** [str(n)] for an integer. *)
Definition str_of_int (n : Z) : string := NilZero.string_of_int (Z.to_int n).

Section Str.
(** [repr] of a list or a dict; it depends on the runtime's table of
    printable characters and is left as a parameter. *)
Variable py_repr : json -> string.

(** [str(x)], the conversion an f-string applies. *)
Definition py_str (j : json) : string :=
  match j with
  | JNull => "None"
  | JBool true => "True"
  | JBool false => "False"
  | JInt n => str_of_int n
  | JStr s => s
  | _ => py_repr j
  end.
End Str.

(** The characters of a string, each as a string of length one. *)
Fixpoint chars (s : string) : list string :=
  match s with
  | EmptyString => []
  | String c rest => String c EmptyString :: chars rest
  end.

Fixpoint join_strs (sep : string) (l : list string) : string :=
  match l with
  | [] => ""
  | [x] => x
  | x :: rest => x ++ sep ++ join_strs sep rest
  end.

Fixpoint all_strs (l : list json) : option (list string) :=
  match l with
  | [] => Some []
  | JStr s :: rest => cons s <$> all_strs rest
  | _ :: _ => None
  end.

(** [sep.join(x)]: [x] must be an iterable of strings.  A string iterates
    over its characters and a dict over its keys. *)
Definition str_join (sep : string) (x : json) : Result string :=
  match x with
  | JList l =>
      match all_strs l with
      | Some ss => Ok (join_strs sep ss)
      | None => Raise TypeError
      end
  | JStr s => Ok (join_strs sep (chars s))
  | JObj items => Ok (join_strs sep (map fst items))
  | _ => Raise TypeError
  end.

(** [s.isascii()]. *)
Fixpoint is_ascii (s : string) : bool :=
  match s with
  | EmptyString => true
  | String c rest => (N_of_ascii c <? 128)%N && is_ascii rest
  end.

(** [bytes(s, "utf-8")] for code points below 256. *)
Fixpoint utf8 (s : string) : string :=
  match s with
  | EmptyString => EmptyString
  | String c rest =>
      let n := N_of_ascii c in
      if (n <? 128)%N then String c (utf8 rest)
      else String (ascii_of_N (192 + N.shiftr n 6))
             (String (ascii_of_N (128 + N.land n 63)) (utf8 rest))
  end.

End Py.

(** ** [hashlib.sha256] and [hmac]

    SHA-256 (FIPS 180-4) on 32-bit words held in [Z], and HMAC (RFC 2104)
    over it.  A digest is a list of bytes, each a [Z] in 0..255. *)

Module Hashlib.

Local Open Scope list_scope.

Definition mask32 : Z := 0xFFFFFFFF.
Definition add32 (x y : Z) : Z := Z.land (x + y) mask32.
Definition rotr (n x : Z) : Z :=
  Z.lor (Z.shiftr x n) (Z.land (Z.shiftl x (32 - n)) mask32).
Definition not32 (x : Z) : Z := Z.lxor x mask32.

Definition ch (x y z : Z) : Z := Z.lxor (Z.land x y) (Z.land (not32 x) z).
Definition maj (x y z : Z) : Z :=
  Z.lxor (Z.lxor (Z.land x y) (Z.land x z)) (Z.land y z).
Definition big_sigma0 (x : Z) : Z := Z.lxor (Z.lxor (rotr 2 x) (rotr 13 x)) (rotr 22 x).
Definition big_sigma1 (x : Z) : Z := Z.lxor (Z.lxor (rotr 6 x) (rotr 11 x)) (rotr 25 x).
Definition small_sigma0 (x : Z) : Z := Z.lxor (Z.lxor (rotr 7 x) (rotr 18 x)) (Z.shiftr x 3).
Definition small_sigma1 (x : Z) : Z := Z.lxor (Z.lxor (rotr 17 x) (rotr 19 x)) (Z.shiftr x 10).

(** The primes below [bound], in order. *)
Definition is_prime (n : Z) : bool :=
  (1 <? n)%Z
  && forallb (fun d => negb (n mod Z.of_nat d =? 0)%Z) (seq 2 (Z.to_nat n - 2)).

Definition primes_below (bound : nat) : list Z :=
  List.filter is_prime (map Z.of_nat (seq 0 bound)).

(** The integer cube root, found bit by bit from bit [bits - 1] down. *)
Fixpoint cube_root (bits : nat) (x root : Z) : Z :=
  match bits with
  | O => root
  | S k =>
      let candidate := root + Z.shiftl 1 (Z.of_nat k) in
      cube_root k x (if (candidate * candidate * candidate <=? x)%Z then candidate else root)
  end.

(** The first 32 bits of the fractional part of the cube root of each of
    the first 64 primes (FIPS 180-4, 4.2.2). *)
Definition round_constants : list Z :=
  Eval vm_compute in
    map (fun p => Z.land (cube_root 40 (Z.shiftl p 96) 0) mask32) (primes_below 312).

(** The first 32 bits of the fractional part of the square root of each
    of the first 8 primes (FIPS 180-4, 5.3.3). *)
Definition initial_hash : list Z :=
  Eval vm_compute in
    map (fun p => Z.land (Z.sqrt (Z.shiftl p 64)) mask32) (primes_below 20).

Definition bytes_of_string (s : string) : list Z :=
  map (fun c => Z.of_N (N_of_ascii c)) (list_ascii_of_string s).

(** Big-endian bytes of a word of [n] bytes. *)
Fixpoint be_bytes (n : nat) (x : Z) : list Z :=
  match n with
  | O => []
  | S k => Z.land (Z.shiftr x (8 * Z.of_nat k)) 255 :: be_bytes k x
  end.

Definition be_word (bs : list Z) : Z :=
  fold_left (fun acc b => Z.lor (Z.shiftl acc 8) b) bs 0.

(** The message followed by the bit 1, zeros, and its length in bits on 64
    bits, a multiple of 64 bytes in all. *)
Definition pad (msg : list Z) : list Z :=
  let len := Z.of_nat (length msg) in
  msg ++ [128] ++ repeat 0 (Z.to_nat ((55 - len) mod 64)) ++ be_bytes 8 (8 * len).

Fixpoint chunks (fuel size : nat) (bs : list Z) : list (list Z) :=
  match fuel, bs with
  | O, _ | _, [] => []
  | S k, _ => firstn size bs :: chunks k size (skipn size bs)
  end.

(** The message schedule, from a window of the last 16 words. *)
Fixpoint schedule (n : nat) (window : list Z) : list Z :=
  match n with
  | O => []
  | S k =>
      let w i := nth i window 0 in
      let next := add32 (add32 (small_sigma1 (w 14%nat)) (w 9%nat))
                        (add32 (small_sigma0 (w 1%nat)) (w 0%nat)) in
      w 0%nat :: schedule k (tl window ++ [next])
  end.

Definition round (h : list Z) (kw : Z * Z) : list Z :=
  match h with
  | [a; b; c; d; e; f; g; hh] =>
      let t1 := add32 (add32 (add32 hh (big_sigma1 e)) (ch e f g))
                      (add32 (fst kw) (snd kw)) in
      let t2 := add32 (big_sigma0 a) (maj a b c) in
      [add32 t1 t2; a; b; c; add32 d t1; e; f; g]
  | _ => h
  end.

Definition zip_add (h1 h2 : list Z) : list Z :=
  map (fun p => add32 (fst p) (snd p)) (combine h1 h2).

Definition compress (h : list Z) (block : list Z) : list Z :=
  let words := map be_word (chunks 16 4 block) in
  zip_add h (fold_left round (combine round_constants (schedule 64 words)) h).

Definition sha256 (msg : list Z) : list Z :=
  let padded := pad msg in
  flat_map (be_bytes 4)
    (fold_left compress (chunks (length padded) 64 padded) initial_hash).

Definition hex_digit (n : Z) : ascii :=
  ascii_of_N (Z.to_N (if (n <? 10)%Z then 48 + n else 87 + n)).

(** [hexdigest]: two lower-case digits for each byte. *)
Fixpoint hex (bs : list Z) : string :=
  match bs with
  | [] => EmptyString
  | b :: rest =>
      String (hex_digit (Z.land (Z.shiftr b 4) 15))
        (String (hex_digit (Z.land b 15)) (hex rest))
  end.

(** [hmac.new(key, msg, hashlib.sha256).digest()]. *)
Definition hmac_sha256 (key msg : list Z) : list Z :=
  let k := if (64 <? Z.of_nat (length key))%Z then sha256 key else key in
  let block := k ++ repeat 0 (64 - length k)%nat in
  let inner := sha256 (map (Z.lxor 0x36) block ++ msg) in
  sha256 (map (Z.lxor 0x5c) block ++ inner).

(** [hmac.new(key, msg, hashlib.sha256).hexdigest()]. *)
Definition hmac_hexdigest (key msg : string) : string :=
  hex (hmac_sha256 (bytes_of_string key) (bytes_of_string msg)).

(** [hmac.compare_digest(a, b)] on two [str] values: both must be ASCII. *)
Definition compare_digest (a b : string) : Py.Result bool :=
  if Py.is_ascii a && Py.is_ascii b then Py.Ok (String.eqb a b)
  else Py.Raise Py.TypeError.

End Hashlib.

(** ** [requests]: what the plugin sends and what it gets back *)

Module Requests.
Import Py.

(** A call of [requests.request]: [kw_json] and [kw_data] are the keyword
    arguments [json] and [data]. *)
Record Request : Type := {
  method : string;
  url : string;
  headers : gmap string json;
  kw_json : option (gmap string json);
  kw_data : option (gmap string json)
}.

(** A response, with its body already given in the three forms the plugin
    reads: [content] (bytes), [text] (decoded) and [decoded], the value of
    [.json()], [None] when the body is not JSON of the expected shape. *)
Record Response (B : Type) : Type := {
  status_code : Z;
  reason : string;
  content : string;
  text : string;
  decoded : option B
}.
Arguments status_code {B} _.
Arguments reason {B} _.
Arguments content {B} _.
Arguments text {B} _.
Arguments decoded {B} _.

(** [Response.ok]: [raise_for_status] raises for 400 <= status < 600. *)
Definition ok {B} (r : Response B) : bool :=
  negb ((400 <=? status_code r)%Z && (status_code r <? 600)%Z).

(** [Response.json()]. *)
Definition json_of {B} (r : Response B) : Result B :=
  match decoded r with
  | Some b => Ok b
  | None => Raise JSONDecodeError
  end.

End Requests.

(** ** The framework the plugin runs in ([metagov.core]) *)

Module Core.
Import Py.

(** Modelled from the spec: [ProcessStatus] of [metagov.core.models],
    whose values are the literal strings [created], [pending] and
    [completed]; the migration of the process table has the same three as
    the choices of its status column. *)
Inductive ProcessStatus : Type := CREATED | PENDING | COMPLETED.

Definition value (s : ProcessStatus) : string :=
  match s with
  | CREATED => "created"
  | PENDING => "pending"
  | COMPLETED => "completed"
  end.

(** The [outcome] of a poll: a dict with at most the keys ["poll_url"] and
    ["votes"], the latter a dict from option label to count. *)
Record Outcome : Type := {
  poll_url : option string;
  votes : option (gmap string Z)
}.

(** The plugin's [config], valid for its [config_schema]. *)
Record Config : Type := {
  server_url : string;
  api_key : string;
  webhook_secret : string
}.

(** What a method does to the outside, in the order it does it. *)
Inductive Effect : Type :=
| HttpCall (r : Requests.Request)
| StateSet (key : string) (v : json)
| Saved (status : string) (outcome : Outcome)
| EventSent (event_type : string) (initiator : json) (data : json).

(** The objects a method can reach: the fields of [self] ([status] and
    [outcome] of a process, the [state] datastore), the dictionary the
    caller passed as [parameters], and the effects so far. *)
Record World : Type := {
  status : string;
  outcome : Outcome;
  state : gmap string json;
  parameters : gmap string json;
  effects : list Effect
}.

Definition M (A : Type) : Type := World -> Result A * World.

Definition ret {A} (a : A) : M A := fun w => (Ok a, w).
Definition raise {A} (e : exn) : M A := fun w => (Raise e, w).
Definition bind {A B} (m : M A) (k : A -> M B) : M B :=
  fun w =>
    match m w with
    | (Ok a, w') => k a w'
    | (Raise e, w') => (Raise e, w')
    end.
Definition lift {A} (r : Result A) : M A := fun w => (r, w).

Definition emit (e : Effect) : M unit :=
  fun w => (Ok tt,
            {| status := status w; outcome := outcome w; state := state w;
               parameters := parameters w; effects := effects w ++ [e] |}).

Definition set_status (s : string) : M unit :=
  fun w => (Ok tt,
            {| status := s; outcome := outcome w; state := state w;
               parameters := parameters w; effects := effects w |}).

Definition set_outcome (o : Outcome) : M unit :=
  fun w => (Ok tt,
            {| status := status w; outcome := o; state := state w;
               parameters := parameters w; effects := effects w |}).

Definition set_parameters (p : gmap string json) : M unit :=
  fun w => (Ok tt,
            {| status := status w; outcome := outcome w; state := state w;
               parameters := p; effects := effects w |}).

Definition get_outcome : M Outcome := fun w => (Ok (outcome w), w).
Definition get_parameters : M (gmap string json) := fun w => (Ok (parameters w), w).

(** [requests.request(...)]: the call leaves the process and [remote]
    answers it. *)
Definition request {B} (remote : Requests.Request -> Requests.Response B)
    (r : Requests.Request) : M (Requests.Response B) :=
  fun w =>
    match emit (HttpCall r) w with
    | (_, w') => (Ok (remote r), w')
    end.

(** Modelled from the spec: [DataStore.get] and [DataStore.set] of
    [metagov.core.models]; the datastore is a key/value store whose [get]
    gives the value or absent ([None]) and whose [set] stores the value
    and persists it. *)
Definition state_get (key : string) : M json :=
  fun w => (Ok (default JNull (state w !! key)), w).

Definition state_set (key : string) (v : json) : M unit :=
  fun w =>
    emit (StateSet key v)
      {| status := status w; outcome := outcome w;
         state := <[key := v]> (state w);
         parameters := parameters w; effects := effects w |}.

(** Modelled from the spec: [GovernanceProcess.save] of
    [metagov.core.models]; it persists the process record, that is the
    [status] and the [outcome] the instance has at that moment. *)
Definition save : M unit :=
  fun w => emit (Saved (status w) (outcome w)) w.

(** Modelled from the spec: [Plugin.send_event_to_driver] of
    [metagov.core.models]; it forwards the triple of event type, initiator
    and data to the host. *)
Definition send_event_to_driver (event_type : string) (initiator data : json) : M unit :=
  emit (EventSent event_type initiator data).

(** [parameters.pop(key, default)] and [parameters.pop(key)]. *)
Definition pop_default (key : string) (d : json) : M json :=
  fun w =>
    match parameters w !! key with
    | Some v => (Ok v, snd (set_parameters (delete key (parameters w)) w))
    | None => (Ok d, w)
    end.

Definition pop (key : string) : M json :=
  fun w =>
    match parameters w !! key with
    | Some v => (Ok v, snd (set_parameters (delete key (parameters w)) w))
    | None => (Raise KeyError, w)
    end.

(** [parameters[key] = v]. *)
Definition setitem (key : string) (v : json) : M unit :=
  fun w => set_parameters (<[key := v]> (parameters w)) w.

End Core.

Declare Scope py_scope.
Delimit Scope py_scope with py.
Notation "'let*' x ':=' m 'in' k" := (Core.bind m (fun x => k))
  (at level 10, x name, m at level 100, k at level 200) : py_scope.
Notation "'run' m 'then' k" := (Core.bind m (fun _ => k))
  (at level 10, m at level 100, k at level 200) : py_scope.

(** ** class [Discourse(Plugin)] *)

Module Discourse.
Import Py Requests Core.
Local Open Scope py_scope.

Definition EVENT_POST_CREATED : string := "post_created".
Definition EVENT_TOPIC_CREATED : string := "topic_created".

(** The inbound request of the web framework, as [receive_webhook] reads
    it: [headers] (looked up by the names the code uses), the raw [body],
    and [loaded], the value of [json.loads(request.body)], [None] when
    that call raises. *)
Record WebRequest : Type := {
  req_headers : gmap string string;
  body : string;
  loaded : option json
}.

Section Methods.
Variable py_repr : json -> string.
Variable config : Config.

Local Abbreviation str := (py_str py_repr).

Definition construct_post_url (post : json) : Result string :=
  match getitem post "topic_slug", getitem post "topic_id", getitem post "post_number" with
  | Ok slug, Ok tid, Ok num =>
      Ok (server_url config ++ "/t/" ++ str slug ++ "/" ++ str tid ++ "/" ++ str num)
  | Raise e, _, _ | Ok _, Raise e, _ | Ok _, Ok _, Raise e => Raise e
  end.

Definition construct_topic_url (topic : json) : Result string :=
  match getitem topic "slug", getitem topic "id" with
  | Ok slug, Ok tid => Ok (server_url config ++ "/t/" ++ str slug ++ "/" ++ str tid)
  | Raise e, _ | Ok _, Raise e => Raise e
  end.

Definition construct_post_response (post : json) : Result json :=
  match construct_post_url post, getitem post "topic_id", getitem post "id" with
  | Ok u, Ok tid, Ok pid =>
      Ok (JObj [("url", JStr u); ("topic_id", tid); ("post_id", pid)])
  | Raise e, _, _ | Ok _, Raise e, _ | Ok _, Ok _, Raise e => Raise e
  end.

(** The call [discourse_request] makes. *)
Definition api_call (method route : string) (username : json)
    (json data : option (gmap string Py.json)) : Request :=
  let url := server_url config ++ "/" ++ route in
  let headers : gmap string Py.json :=
    <["Api-Username" := username]> (<["Api-Key" := JStr (api_key config)]> ∅) in
  {| Requests.method := method; Requests.url := url;
     Requests.headers := headers; kw_json := json; kw_data := data |}.

Section Remote.
Variable remote : Request -> Response json.

Definition discourse_request (method route : string) (username : json)
    (json data : option (gmap string Py.json)) : M Py.json :=
  let* resp := request remote (api_call method route username json data) in
  if negb (ok resp) then raise (PluginErrorInternal (text resp))
  else if negb (String.eqb (content resp) "") then lift (json_of resp)
  else ret JNull.

Definition create_message : M json :=
  let* username := pop_default "initiator" (JStr "system") in
  let* usernames := pop "target_usernames" in
  let* recipients := lift (str_join "," usernames) in
  run setitem "target_recipients" (JStr recipients) then
  run setitem "archetype" (JStr "private_message") then
  let* parameters := get_parameters in
  let* post := discourse_request "POST" "posts.json" username (Some parameters) None in
  lift (construct_post_response post).

Definition create_post : M json :=
  let* username := pop_default "initiator" (JStr "system") in
  let* parameters := get_parameters in
  let* post := discourse_request "POST" "posts.json" username (Some parameters) None in
  lift (construct_post_response post).

Definition create_topic : M json :=
  let* username := pop_default "initiator" (JStr "system") in
  let* parameters := get_parameters in
  let* post := discourse_request "POST" "posts.json" username (Some parameters) None in
  lift (construct_post_response post).
End Remote.

Definition validate_request_signature (request : WebRequest) : Result unit :=
  match req_headers request !! "X-Discourse-Event-Signature" with
  | None => Raise (PluginErrorInternal "Missing event signature")
  | Some event_signature =>
      if String.eqb event_signature "" then
        Raise (PluginErrorInternal "Missing event signature")
      else
        let key := utf8 (webhook_secret config) in
        let string_signature := Hashlib.hmac_hexdigest key (body request) in
        let expected_signature := "sha256=" ++ string_signature in
        match Hashlib.compare_digest event_signature expected_signature with
        | Raise e => Raise e
        | Ok false => Raise (PluginErrorInternal "Invalid signature header")
        | Ok true =>
            match req_headers request !! "X-Discourse-Instance" with
            | None => Raise KeyError
            | Some instance =>
                if negb (String.eqb instance (server_url config)) then
                  Raise (PluginErrorInternal "Unexpected X-Discourse-Instance")
                else Ok tt
            end
        end
  end.

(** The [data] and [initiator] of a [post_created] event. *)
Definition post_created_event (body : json) : Result (json * json) :=
  match dict_get body "post" with
  | Raise e => Raise e
  | Ok post =>
      match getitem post "raw", getitem post "topic_id", getitem post "id",
            construct_post_url post, getitem post "username" with
      | Ok raw, Ok tid, Ok pid, Ok u, Ok user =>
          Ok (JObj [("raw", raw); ("topic_id", tid); ("id", pid); ("url", JStr u)],
              JObj [("user_id", user); ("provider", JStr "discourse")])
      | Raise e, _, _, _, _ | Ok _, Raise e, _, _, _ | Ok _, Ok _, Raise e, _, _
      | Ok _, Ok _, Ok _, Raise e, _ | Ok _, Ok _, Ok _, Ok _, Raise e => Raise e
      end
  end.

(** The [data] and [initiator] of a [topic_created] event. *)
Definition topic_created_event (body : json) : Result (json * json) :=
  match dict_get body "topic" with
  | Raise e => Raise e
  | Ok topic =>
      match getitem topic "title", getitem topic "id", getitem topic "tags",
            getitem topic "category_id", construct_topic_url topic with
      | Ok title, Ok tid, Ok tags, Ok cat, Ok u =>
          match getitem topic "created_by" with
          | Raise e => Raise e
          | Ok creator =>
              match getitem creator "username" with
              | Raise e => Raise e
              | Ok user =>
                  Ok (JObj [("title", title); ("id", tid); ("tags", tags);
                            ("category", cat); ("url", JStr u)],
                      JObj [("user_id", user); ("provider", JStr "discourse")])
              end
          end
      | Raise e, _, _, _, _ | Ok _, Raise e, _, _, _ | Ok _, Ok _, Raise e, _, _
      | Ok _, Ok _, Ok _, Raise e, _ | Ok _, Ok _, Ok _, Ok _, Raise e => Raise e
      end
  end.

Definition receive_webhook (request : WebRequest) : M unit :=
  run lift (validate_request_signature request) then
  let event := req_headers request !! "X-Discourse-Event" in
  let* body := lift (match loaded request with
                     | Some j => Ok j
                     | None => Raise JSONDecodeError
                     end) in
  if bool_decide (event = Some "post_created") then
    let* ev := lift (post_created_event body) in
    send_event_to_driver EVENT_POST_CREATED (snd ev) (fst ev)
  else if bool_decide (event = Some "topic_created") then
    let* ev := lift (topic_created_event body) in
    send_event_to_driver EVENT_TOPIC_CREATED (snd ev) (fst ev)
  else ret tt.
End Methods.

End Discourse.

(** ** class [DiscoursePoll(GovernanceProcess)] *)

Module DiscoursePoll.
Import Py Requests Core.
Local Open Scope py_scope.

(** [parameters] of [start], valid for [input_schema]: [title] and
    [options] are required, the other keys may be absent. *)
Record Parameters : Type := {
  title : string;
  options : list string;
  details : option string;
  category : option Z;
  closing_at : option string
}.

(** A poll as Discourse reports it: [poll["options"]], each option with
    [opt["html"]] and [opt["votes"]], and [poll["status"]]. *)
Record PollOption : Type := {
  opt_html : string;
  opt_votes : Z
}.

Record Poll : Type := {
  poll_options : list PollOption;
  poll_status : string
}.

(** The body of [GET /t/<id>.json], as far as [update] reads it:
    [response["post_stream"]["posts"]], each post with its ["polls"]. *)
Record Post : Type := { polls : list Poll }.
Record PostStream : Type := { posts : list Post }.
Record TopicView : Type := { post_stream : PostStream }.

(** The body of [PUT /polls/toggle_status]: [resp.json()["poll"]]. *)
Record Toggled : Type := { poll : Poll }.

Definition newline : string := String "010"%char EmptyString.

(** [x[0]] on a list. *)
Definition first {A} (l : list A) : Result A :=
  match l with
  | x :: _ => Ok x
  | [] => Raise IndexError
  end.

(** The loop of [update_outcome_from_discourse_poll] over
    [poll["options"]]: the [votes] dict and the [dirty] flag after it. *)
Definition merge_option (acc : gmap string Z * bool) (opt : PollOption)
    : gmap string Z * bool :=
  let key := opt_html opt in
  let val := opt_votes opt in
  if negb (bool_decide (fst acc !! key = Some val))
  then (<[key := val]> (fst acc), true)
  else acc.

Definition merge_options (opts : list PollOption) (acc : gmap string Z * bool)
    : gmap string Z * bool :=
  fold_left merge_option opts acc.

(** [update_outcome_from_discourse_poll].  When the outcome has a
    ["votes"] dict, the loop mutates that very dict; [dirty] is set at
    each mutation and the dict is stored back under ["votes"] when
    [dirty], so the write below gives the outcome the code ends with. *)
Definition update_outcome_from_discourse_poll (poll : Poll) : M unit :=
  let* outcome := get_outcome in
  let result := merge_options (poll_options poll) (default ∅ (votes outcome), false) in
  let votes := fst result in
  let dirty := snd result in
  let closed := String.eqb (poll_status poll) "closed" in
  run (if closed then set_status (value COMPLETED) else ret tt) then
  let dirty := dirty || closed in
  if dirty then
    run set_outcome {| poll_url := poll_url outcome; Core.votes := Some votes |} then
    save
  else ret tt.

Section Methods.
Variable py_repr : json -> string.
Variable config : Config.

Local Abbreviation str := (py_str py_repr).

(** The text of the post that carries the poll. *)
Definition poll_raw (parameters : Parameters) : string :=
  let closes_at :=
    match closing_at parameters with
    | Some c => if negb (String.eqb c "") then "close=" ++ c else ""
    | None => ""
    end in
  let options :=
    String.concat "" (map (fun opt => "* " ++ opt ++ newline) (options parameters)) in
  newline ++ default "" (details parameters) ++ newline
  ++ "[poll type=regular results=always chartType=bar " ++ closes_at ++ "]" ++ newline
  ++ "# " ++ title parameters ++ newline
  ++ options ++ newline
  ++ "[/poll]" ++ newline
  ++ "        ".

(** The call [start] makes. *)
Definition start_call (parameters : Parameters) : Request :=
  let discourse_server_url := server_url config in
  let url := discourse_server_url ++ "/posts.json" in
  let raw := poll_raw parameters in
  let payload : gmap string json :=
    <["title" := JStr (title parameters)]> (<["raw" := JStr raw]> ∅) in
  let payload :=
    match category parameters with
    | Some c => if negb (c =? 0)%Z then <["category" := JInt c]> payload else payload
    | None => payload
    end in
  let headers : gmap string json :=
    <["Api-Username" := JStr "system"]> (<["Api-Key" := JStr (api_key config)]> ∅) in
  {| method := "POST"; url := url; headers := headers;
     kw_json := None; kw_data := Some payload |}.

Definition start (remote : Request -> Response json) (parameters : Parameters) : M unit :=
  let discourse_server_url := server_url config in
  let* resp := request remote (start_call parameters) in
  if negb (ok resp) then
    raise (PluginErrorInternal (if String.eqb (text resp) "" then "unknown error"
                                else text resp))
  else
    let* response := lift (json_of resp) in
    let* errors := lift (dict_get response "errors") in
    if truthy errors then raise (PluginErrorInternal (str errors))
    else
      let* topic_slug := lift (dict_get response "topic_slug") in
      let* topic_id := lift (dict_get response "topic_id") in
      let poll_url := discourse_server_url ++ "/t/" ++ str topic_slug ++ "/" ++ str topic_id in
      let* post_id := lift (dict_get response "id") in
      run state_set "post_id" post_id then
      run state_set "topic_id" topic_id then
      run state_set "topic_slug" topic_slug then
      run set_outcome {| Core.poll_url := Some poll_url; votes := None |} then
      run set_status (value PENDING) then
      save.

(** The call [update] makes. *)
Definition update_call (topic_id : json) : Request :=
  let headers : gmap string json :=
    <["Api-Key" := JStr (api_key config)]> (<["Api-Username" := JStr "system"]> ∅) in
  {| method := "GET";
     url := server_url config ++ "/t/" ++ str topic_id ++ ".json";
     headers := headers; kw_json := None; kw_data := None |}.

Definition update (remote : Request -> Response TopicView) : M unit :=
  let* topic_id := state_get "topic_id" in
  let* resp := request remote (update_call topic_id) in
  if negb (ok resp) then raise (PluginErrorInternal (text resp))
  else
    let* response := lift (json_of resp) in
    let* topic_post := lift (first (posts (post_stream response))) in
    let* poll := lift (first (polls topic_post)) in
    update_outcome_from_discourse_poll poll.

(** The call [close] makes. *)
Definition close_call (post_id : json) : Request :=
  let url := server_url config ++ "/polls/toggle_status" in
  let data : gmap string json :=
    <["status" := JStr "closed"]>
      (<["poll_name" := JStr "poll"]> (<["post_id" := post_id]> ∅)) in
  let headers : gmap string json :=
    <["Api-Key" := JStr (api_key config)]>
      (<["Api-Username" := JStr "system"]>
         (<["Content-Type" := JStr "application/x-www-form-urlencoded"]> ∅)) in
  {| method := "PUT"; url := url; headers := headers;
     kw_json := None; kw_data := Some data |}.

Definition close (remote : Request -> Response Toggled) : M unit :=
  let* post_id := state_get "post_id" in
  let* resp := request remote (close_call post_id) in
  if negb (ok resp) then raise (PluginErrorInternal (text resp))
  else
    let* toggled := lift (json_of resp) in
    update_outcome_from_discourse_poll (poll toggled).
End Methods.

End DiscoursePoll.

(** ** Observations the properties are stated with *)

Module Observe.
Import Py Requests Core DiscoursePoll.

(** The counts a snapshot reports, by label; the last report of a label
    stands. *)
Definition observed (opts : list PollOption) : gmap string Z :=
  list_to_map (reverse (map (fun opt => (opt_html opt, opt_votes opt)) opts)).

Definition labels (opts : list PollOption) : list string := map opt_html opts.

Definition is_saved (e : Effect) : bool :=
  match e with Saved _ _ => true | _ => false end.

(** The number of times the record was persisted. *)
Definition writes (w : World) : nat := length (List.filter is_saved (effects w)).

(** The world [w] after one more effect. *)
Definition logged (e : Effect) (w : World) : World :=
  {| status := status w; outcome := outcome w; state := state w;
     parameters := parameters w; effects := effects w ++ [e] |}.

(** The signature the plugin expects for a request. *)
Definition expected_signature (config : Config) (request : Discourse.WebRequest) : string :=
  "sha256=" ++ Hashlib.hmac_hexdigest (utf8 (webhook_secret config)) (Discourse.body request).

(** The same request with another result of [json.loads] on its body. *)
Definition reparsed (loaded : option json) (request : Discourse.WebRequest)
    : Discourse.WebRequest :=
  {| Discourse.req_headers := Discourse.req_headers request;
     Discourse.body := Discourse.body request;
     Discourse.loaded := loaded |}.

End Observe.

(** ** Sample inputs for the examples *)

Module Samples.
Import Py Requests Core DiscoursePoll.

Definition forum : Config :=
  {| server_url := "https://forum.example";
     api_key := "k3y";
     webhook_secret := "s3cret" |}.

Definition red (n : Z) : PollOption := {| opt_html := "red"; opt_votes := n |}.
Definition blue (n : Z) : PollOption := {| opt_html := "blue"; opt_votes := n |}.

(** A process whose stored outcome has red at 3. *)
Definition tracked (st : ProcessStatus) : World :=
  {| status := value st;
     outcome := {| poll_url := Some "https://forum.example/t/pick-a-color/7";
                   votes := Some (<["red" := 3]> ∅) |};
     state := <["topic_slug" := JStr "pick-a-color"]>
                (<["topic_id" := JInt 7]> (<["post_id" := JInt 19]> ∅));
     parameters := ∅;
     effects := [] |}.

Definition closed_red3 : Poll := {| poll_options := [red 3]; poll_status := "closed" |}.
Definition open_red3 : Poll := {| poll_options := [red 3]; poll_status := "open" |}.
Definition open_red4 : Poll := {| poll_options := [red 4]; poll_status := "open" |}.
Definition open_red1_red3 : Poll := {| poll_options := [red 1; red 3]; poll_status := "open" |}.

(** The examples format integers and strings only, on which [str] never
    calls [repr]. *)
Definition repr_unused : json -> string := fun _ => "".

(** A remote that answers every call with 500. *)
Definition failing {B : Type} : Request -> Response B := fun _ =>
  {| status_code := 500; reason := "Internal Server Error";
     content := "upstream down"; text := "upstream down"; decoded := None |}.

(** A remote that answers with a topic whose first post carries [p]. *)
Definition topic_with (p : Poll) : Request -> Response TopicView := fun _ =>
  {| status_code := 200; reason := "OK";
     content := "{...}"; text := "{...}";
     decoded := Some {| post_stream := {| posts := [ {| polls := [p] |} ] |} |} |}.

(** A remote that answers the toggle with the poll [p]. *)
Definition toggled_with (p : Poll) : Request -> Response Toggled := fun _ =>
  {| status_code := 200; reason := "OK";
     content := "{...}"; text := "{...}";
     decoded := Some {| poll := p |} |}.

(** A process that [start] has not yet run on. *)
Definition fresh : World :=
  {| status := value CREATED;
     outcome := {| poll_url := None; votes := None |};
     state := ∅; parameters := ∅; effects := [] |}.

Definition pick_a_color : Parameters :=
  {| title := "Pick a color"; options := ["red"; "blue"];
     details := None; category := None; closing_at := None |}.

(** A remote that creates the post and reports its identifiers. *)
Definition created : Request -> Response json := fun _ =>
  {| status_code := 200; reason := "OK";
     content := "{...}"; text := "{...}";
     decoded := Some (JObj [("id", JInt 19); ("topic_id", JInt 7);
                            ("topic_slug", JStr "pick-a-color")]) |}.

(** A remote that answers every call with the status [code] and the body
    [body], which is not JSON. *)
Definition answering (code : Z) (body : string) : Request -> Response json := fun _ =>
  {| status_code := code; reason := ""; content := body; text := body;
     decoded := None |}.

(** A remote that creates a post and answers with it. *)
Definition posted : Request -> Response json := fun _ =>
  {| status_code := 200; reason := "OK";
     content := "{...}"; text := "{...}";
     decoded := Some (JObj [("id", JInt 19); ("topic_id", JInt 7);
                            ("topic_slug", JStr "hello"); ("post_number", JInt 1)]) |}.

(** The caller's dictionary for [create_message]. *)
Definition message_for_bob_and_carol : World :=
  {| status := value CREATED;
     outcome := {| poll_url := None; votes := None |};
     state := ∅;
     parameters :=
       <["initiator" := JStr "alice"]>
         (<["target_usernames" := JList [JStr "bob"; JStr "carol"]]>
            (<["title" := JStr "hello"]> (<["raw" := JStr "hi there"]> ∅)));
     effects := [] |}.

(** The signature the forum computes for a body. *)
Definition signature (body : string) : string :=
  "sha256=" ++ Hashlib.hmac_hexdigest (utf8 (webhook_secret forum)) body.

(** A delivery of the forum: signed, with the origin and an event type. *)
Definition delivery (event body : string) (loaded : option json) : Discourse.WebRequest :=
  {| Discourse.req_headers :=
       <["X-Discourse-Event" := event]>
         (<["X-Discourse-Instance" := server_url forum]>
            (<["X-Discourse-Event-Signature" := signature body]> ∅));
     Discourse.body := body;
     Discourse.loaded := loaded |}.

(** A signed delivery that does not name its origin. *)
Definition delivery_without_instance (event body : string) (loaded : option json)
    : Discourse.WebRequest :=
  {| Discourse.req_headers :=
       <["X-Discourse-Event" := event]>
         (<["X-Discourse-Event-Signature" := signature body]> ∅);
     Discourse.body := body;
     Discourse.loaded := loaded |}.

(** A request whose signature header has the character U+00E9 in it. *)
Definition forged : Discourse.WebRequest :=
  {| Discourse.req_headers :=
       <["X-Discourse-Event" := "post_created"]>
         (<["X-Discourse-Instance" := server_url forum]>
            (<["X-Discourse-Event-Signature" := "sha256=" ++ String (ascii_of_nat 233) ""]> ∅));
     Discourse.body := "{}";
     Discourse.loaded := Some (JObj []) |}.

End Samples.

(** ** class [Discourse(Plugin)]: [initialize] and the actions on a post
       or topic given by its id *)

Module DiscourseActions.
Import Py Requests Core Discourse.
Local Open Scope py_scope.

Section Methods.
Variable py_repr : json -> string.
(** [json.dumps] of a string, a list or a dict; its escapes are left as a
    parameter. *)
Variable json_dumps : json -> string.
Variable config : Config.
Variable remote : Request -> Response json.

Local Abbreviation str := (py_str py_repr).

(** [json.dumps(x)]. *)
Definition dumps (j : json) : string :=
  match j with
  | JNull => "null"
  | JBool true => "true"
  | JBool false => "false"
  | JInt n => str_of_int n
  | _ => json_dumps j
  end.

(** [parameters[key]]. *)
Definition parameter (key : string) : M json :=
  fun w =>
    match parameters w !! key with
    | Some v => (Ok v, w)
    | None => (Raise KeyError, w)
    end.

(** The call [initialize] makes: [requests.get] with the URL alone. *)
Definition about_call : Request :=
  {| method := "GET"; url := server_url config ++ "/about.json";
     headers := ∅; kw_json := None; kw_data := None |}.

Definition initialize : M unit :=
  let* resp := request remote about_call in
  let* response := lift (json_of resp) in
  let* about := lift (dict_get response "about") in
  let* community_name := lift (dict_get about "title") in
  state_set "community_name" community_name.

Definition delete_post : M json :=
  let* id := parameter "id" in
  run discourse_request config remote "DELETE" ("posts/" ++ str id)
        (JStr "system") None None then
  ret (JObj []).

Definition delete_topic : M json :=
  let* id := parameter "id" in
  run discourse_request config remote "DELETE" ("t/" ++ str id ++ ".json")
        (JStr "system") None None then
  ret (JObj []).

Definition recover_post : M json :=
  let* id := parameter "id" in
  run discourse_request config remote "PUT" ("posts/" ++ str id ++ "/recover")
        (JStr "system") None None then
  ret (JObj []).

Definition recover_topic : M json :=
  let* id := parameter "id" in
  run discourse_request config remote "PUT" ("t/" ++ str id ++ "/recover")
        (JStr "system") None None then
  ret (JObj []).

Definition lock_post : M json :=
  let* post_id := parameter "id" in
  let* locked := parameter "locked" in
  let data : gmap string json := <["locked" := JStr (dumps locked)]> ∅ in
  discourse_request config remote "PUT" ("posts/" ++ str post_id ++ "/locked")
    (JStr "system") None (Some data).
End Methods.

End DiscourseActions.

(** ** Further observations *)

Module Invariants.
Import Py Requests Core DiscoursePoll Observe.

(** The record as it was last persisted, if it ever was. *)
Definition last_saved (es : list Effect) : option (string * Outcome) :=
  fold_left (fun acc e => match e with Saved s o => Some (s, o) | _ => acc end) es None.

(** What is persisted is what the instance holds. *)
Definition in_sync (w : World) : Prop :=
  last_saved (effects w) = Some (status w, outcome w).

Definition is_closed (p : Poll) : bool := String.eqb (poll_status p) "closed".

(** One reconciliation after the other. *)
Definition reconcile_all (polls : list Poll) (w : World) : World :=
  fold_left (fun w p => snd (update_outcome_from_discourse_poll p w)) polls w.

(** All the [keys] are among the [items] of a dict. *)
Definition has_keys (keys : list string) (items : list (string * json)) : bool :=
  forallb (fun k => match assoc k items with Some _ => true | None => false end) keys.

(** The keys [receive_webhook] reads in the post of a [post_created]
    event, and in the topic of a [topic_created] event. *)
Definition post_keys : list string :=
  ["raw"; "topic_id"; "id"; "topic_slug"; "post_number"; "username"].

Definition topic_keys : list string :=
  ["title"; "id"; "tags"; "category_id"; "slug"; "created_by"].

(** The value under [key], [None] when it is not there. *)
Definition field (key : string) (items : list (string * json)) : json :=
  default JNull (assoc key items).

(** The keys [construct_post_response] reads in the created post. *)
Definition response_keys : list string :=
  ["topic_slug"; "topic_id"; "post_number"; "id"].

(** What an action on the post or topic [parameters["id"]] does.  Without
    an ["id"] it raises [KeyError] and sends nothing.  With one it sends
    one request, by [method] to [route id] as user ["system"] and without
    payload, and changes nothing else; it returns the empty dict whenever
    the remote call returns, whatever it returns, and raises what the
    remote call raises otherwise. *)
Definition acts_on_id (config : Config) (remote : Request -> Response json)
    (method : string) (route : json -> string) (action : M json) : Prop :=
  forall w : World,
    match parameters w !! "id" with
    | None => action w = (Raise KeyError, w)
    | Some id =>
        let call := Discourse.api_call config method (route id) (JStr "system") None None in
        let resp := remote call in
        action w =
        (if negb (ok resp) then Raise (PluginErrorInternal (text resp))
         else if negb (String.eqb (content resp) "") then
           match decoded resp with
           | Some _ => Ok (JObj [])
           | None => Raise JSONDecodeError
           end
         else Ok (JObj []),
         logged (HttpCall call) w)
    end.

End Invariants.

(** ** [update], [close] and the reconciliation on a response of any shape

    The methods of [DiscoursePoll] above read a response that has the
    shape Discourse gives it.  Here are the same three methods on what
    [resp.json()] returns whatever its shape: each subscript raises as
    Python's does, and the ["votes"] dict of the outcome is the object it
    is in the code, written in place by the loop before anything is
    saved. *)

Module Wire.
Import Py Requests.

(** [a == b] on values that come from JSON. *)
Fixpoint py_eq (a b : json) {struct a} : bool :=
  match a, b with
  | JNull, JNull => true
  | JBool x, JBool y => Bool.eqb x y
  | JBool x, JInt n => (n =? Z.b2z x)%Z
  | JInt n, JBool y => (n =? Z.b2z y)%Z
  | JInt n, JInt m => (n =? m)%Z
  | JStr s, JStr t => String.eqb s t
  | JList l, JList l' =>
      (fix all2 (l l' : list json) : bool :=
         match l, l' with
         | [], [] => true
         | x :: xs, y :: ys => py_eq x y && all2 xs ys
         | _, _ => false
         end) l l'
  | JObj items, JObj items' =>
      (length items =? length items')%nat
      && (fix all (items : list (string * json)) : bool :=
            match items with
            | [] => true
            | (k, v) :: rest =>
                match assoc k items' with
                | Some v' => py_eq v v'
                | None => false
                end && all rest
            end) items
  | _, _ => false
  end.

(** A dict in memory, its items in insertion order.  A key is a hashable
    value: [None], a boolean, an integer or a string. *)
Abbreviation Dict := (list (json * json)).

Definition hashable (key : json) : bool :=
  match key with
  | JList _ | JObj _ => false
  | _ => true
  end.

Fixpoint find (d : Dict) (key : json) : option json :=
  match d with
  | [] => None
  | (k, v) :: rest => if py_eq k key then Some v else find rest key
  end.

(** [d.get(key)]: hashing the key raises for a list or a dict. *)
Definition get (d : Dict) (key : json) : Result json :=
  if hashable key then Ok (default JNull (find d key)) else Raise TypeError.

(** [d[key] = val] for a hashable key: the value of the item with that
    key is replaced, or a new item comes last. *)
Fixpoint setitem (d : Dict) (key val : json) : Dict :=
  match d with
  | [] => [(key, val)]
  | (k, v) :: rest =>
      if py_eq k key then (k, val) :: rest else (k, v) :: setitem rest key val
  end.

(** [x[0]]. *)
Definition getitem0 (x : json) : Result json :=
  match x with
  | JList (y :: _) => Ok y
  | JList [] => Raise IndexError
  | JStr (String c _) => Ok (JStr (String c EmptyString))
  | JStr EmptyString => Raise IndexError
  | JObj _ => Raise KeyError
  | _ => Raise TypeError
  end.

(** What [for opt in x] goes through: the elements of a list, the keys of
    a dict, the characters of a string. *)
Definition iter (x : json) : Result (list json) :=
  match x with
  | JList l => Ok l
  | JObj items => Ok (map (fun item => JStr (fst item)) items)
  | JStr s => Ok (map JStr (chars s))
  | _ => Raise TypeError
  end.

(** The [outcome] dict: ["poll_url"] and ["votes"], each there or not. *)
Record Outcome : Type := {
  poll_url : option string;
  votes : option Dict
}.

Inductive Effect : Type :=
| HttpCall (r : Request)
| Saved (status : string) (outcome : Outcome).

(** The fields of [self] that [update] and [close] reach, and the
    effects so far. *)
Record World : Type := {
  status : string;
  outcome : Outcome;
  state : gmap string json;
  effects : list Effect
}.

Definition M (A : Type) : Type := World -> Result A * World.

Definition ret {A} (a : A) : M A := fun w => (Ok a, w).
Definition raise {A} (e : exn) : M A := fun w => (Raise e, w).
Definition bind {A B} (m : M A) (k : A -> M B) : M B :=
  fun w =>
    match m w with
    | (Ok a, w') => k a w'
    | (Raise e, w') => (Raise e, w')
    end.
Definition lift {A} (r : Result A) : M A := fun w => (r, w).

Declare Scope wire_scope.
Local Notation "'let*' x ':=' m 'in' k" := (bind m (fun x => k))
  (at level 10, x name, m at level 100, k at level 200) : wire_scope.
Local Notation "'run' m 'then' k" := (bind m (fun _ => k))
  (at level 10, m at level 100, k at level 200) : wire_scope.
Local Open Scope wire_scope.

Definition emit (e : Effect) : M unit :=
  fun w => (Ok tt,
            {| status := status w; outcome := outcome w; state := state w;
               effects := effects w ++ [e] |}).

Definition set_status (s : string) : M unit :=
  fun w => (Ok tt,
            {| status := s; outcome := outcome w; state := state w;
               effects := effects w |}).

(** The outcome's ["votes"] becomes [d]. *)
Definition set_votes (d : Dict) : M unit :=
  fun w => (Ok tt,
            {| status := status w;
               outcome := {| poll_url := poll_url (outcome w); votes := Some d |};
               state := state w; effects := effects w |}).

Definition get_outcome : M Outcome := fun w => (Ok (outcome w), w).

Definition request (remote : Request -> Response json) (r : Request) : M (Response json) :=
  fun w =>
    match emit (HttpCall r) w with
    | (_, w') => (Ok (remote r), w')
    end.

Definition state_get (key : string) : M json :=
  fun w => (Ok (default JNull (state w !! key)), w).

Definition save : M unit :=
  fun w => emit (Saved (status w) (outcome w)) w.

(** One turn of the loop of [update_outcome_from_discourse_poll].
    [aliased] tells that [votes] is the dict of the outcome itself, not a
    new one: then [votes[key] = val] is a write into the outcome. *)
Definition merge_option (aliased : bool) (acc : Dict * bool) (opt : json)
    : M (Dict * bool) :=
  let* key := lift (getitem opt "html") in
  let* val := lift (getitem opt "votes") in
  let* stored := lift (get (fst acc) key) in
  if negb (py_eq stored val) then
    let votes := setitem (fst acc) key val in
    run (if aliased then set_votes votes else ret tt) then
    ret (votes, true)
  else ret acc.

Fixpoint merge_options (aliased : bool) (opts : list json) (acc : Dict * bool)
    : M (Dict * bool) :=
  match opts with
  | [] => ret acc
  | opt :: rest =>
      let* acc := merge_option aliased acc opt in
      merge_options aliased rest acc
  end.

Definition update_outcome_from_discourse_poll (poll : json) : M unit :=
  let* outcome := get_outcome in
  let aliased := match votes outcome with Some _ => true | None => false end in
  let votes := default [] (votes outcome) in
  let* options := lift (getitem poll "options") in
  let* opts := lift (iter options) in
  let* result := merge_options aliased opts (votes, false) in
  let* status := lift (getitem poll "status") in
  let closed := py_eq status (JStr "closed") in
  run (if closed then set_status (Core.value Core.COMPLETED) else ret tt) then
  if snd result || closed then
    run set_votes (fst result) then
    save
  else ret tt.

Section Methods.
Variable py_repr : json -> string.
Variable config : Core.Config.

Definition update (remote : Request -> Response json) : M unit :=
  let* topic_id := state_get "topic_id" in
  let* resp := request remote (DiscoursePoll.update_call py_repr config topic_id) in
  if negb (ok resp) then raise (PluginErrorInternal (text resp))
  else
    let* response := lift (json_of resp) in
    let* post_stream := lift (getitem response "post_stream") in
    let* posts := lift (getitem post_stream "posts") in
    let* topic_post := lift (getitem0 posts) in
    let* polls := lift (getitem topic_post "polls") in
    let* poll := lift (getitem0 polls) in
    update_outcome_from_discourse_poll poll.

Definition close (remote : Request -> Response json) : M unit :=
  let* post_id := state_get "post_id" in
  let* resp := request remote (DiscoursePoll.close_call config post_id) in
  if negb (ok resp) then raise (PluginErrorInternal (text resp))
  else
    let* body := lift (json_of resp) in
    let* poll := lift (getitem body "poll") in
    update_outcome_from_discourse_poll poll.
End Methods.

(** *** Observations *)

Definition is_saved (e : Effect) : bool :=
  match e with Saved _ _ => true | _ => false end.

(** The number of times the record was persisted. *)
Definition writes (w : World) : nat := length (List.filter is_saved (effects w)).

(** The world [w] after the request [call]. *)
Definition logged (call : Request) (w : World) : World :=
  {| status := status w; outcome := outcome w; state := state w;
     effects := effects w ++ [HttpCall call] |}.

(** The world [w] with its ["votes"] dict holding [d]. *)
Definition with_votes (d : Dict) (w : World) : World :=
  {| status := status w;
     outcome := {| poll_url := poll_url (outcome w); votes := Some d |};
     state := state w; effects := effects w |}.

(** The record as it was last persisted, if it ever was. *)
Definition last_saved (es : list Effect) : option (string * Outcome) :=
  fold_left (fun acc e => match e with Saved s o => Some (s, o) | _ => acc end) es None.

(** What is persisted is what the instance holds. *)
Definition in_sync (w : World) : Prop :=
  last_saved (effects w) = Some (status w, outcome w).

(** One turn of the loop as a function of the dict and the flag: what
    they are after it, or the exception it raises. *)
Definition turn (acc : Dict * bool) (opt : json) : Result (Dict * bool) :=
  match getitem opt "html" with
  | Raise e => Raise e
  | Ok key =>
      match getitem opt "votes" with
      | Raise e => Raise e
      | Ok val =>
          match get (fst acc) key with
          | Raise e => Raise e
          | Ok stored =>
              Ok (if negb (py_eq stored val) then (setitem (fst acc) key val, true)
                  else acc)
          end
      end
  end.

(** The loop as far as it gets: the dict and the flag where it ends or
    raises, and the exception if it raises. *)
Fixpoint turns (opts : list json) (acc : Dict * bool) : (Dict * bool) * option exn :=
  match opts with
  | [] => (acc, None)
  | opt :: rest =>
      match turn acc opt with
      | Ok acc' => turns rest acc'
      | Raise e => (acc, Some e)
      end
  end.

(** [response["post_stream"]["posts"][0]["polls"][0]], the poll that
    [update] reconciles with. *)
Definition topic_poll (response : json) : Result json :=
  match getitem response "post_stream" with
  | Raise e => Raise e
  | Ok post_stream =>
      match getitem post_stream "posts" with
      | Raise e => Raise e
      | Ok posts =>
          match getitem0 posts with
          | Raise e => Raise e
          | Ok topic_post =>
              match getitem topic_post "polls" with
              | Raise e => Raise e
              | Ok polls => getitem0 polls
              end
          end
      end
  end.

(** *** Responses of the shape Discourse gives them, as JSON *)

Definition option_json (opt : DiscoursePoll.PollOption) : json :=
  JObj [("html", JStr (DiscoursePoll.opt_html opt));
        ("votes", JInt (DiscoursePoll.opt_votes opt))].

Definition poll_json (p : DiscoursePoll.Poll) : json :=
  JObj [("options", JList (map option_json (DiscoursePoll.poll_options p)));
        ("status", JStr (DiscoursePoll.poll_status p))].

Definition post_json (post : DiscoursePoll.Post) : json :=
  JObj [("polls", JList (map poll_json (DiscoursePoll.polls post)))].

Definition topic_json (topic : DiscoursePoll.TopicView) : json :=
  JObj [("post_stream",
         JObj [("posts",
                JList (map post_json
                         (DiscoursePoll.posts (DiscoursePoll.post_stream topic))))])].

Definition toggled_json (toggled : DiscoursePoll.Toggled) : json :=
  JObj [("poll", poll_json (DiscoursePoll.poll toggled))].

(** The response [resp] with its body as JSON. *)
Definition as_json {B} (encode : B -> json) (resp : Response B) : Response json :=
  {| status_code := status_code resp; reason := reason resp;
     content := content resp; text := text resp;
     decoded := encode <$> decoded resp |}.

(** The dict [d] holds the counts [m]: under each label its count, and
    no other string key. *)
Definition holds (d : Dict) (m : gmap string Z) : Prop :=
  forall label : string, find d (JStr label) = JInt <$> (m !! label).

(** The world [w] shows what the world [t] of the methods of
    [DiscoursePoll] has: the same status, poll URL and datastore, the
    same counts, and as many writes. *)
Definition shows (w : World) (t : Core.World) : Prop :=
  status w = Core.status t
  /\ poll_url (outcome w) = Core.poll_url (Core.outcome t)
  /\ match votes (outcome w), Core.votes (Core.outcome t) with
     | Some d, Some m => holds d m
     | None, None => True
     | _, _ => False
     end
  /\ state w = Core.state t
  /\ writes w = Observe.writes t.

End Wire.

(** ** Further sample inputs *)

Module MoreSamples.
Import Py Requests Core Discourse DiscoursePoll.

Definition dumps_unused : json -> string := fun _ => "".

(** A remote whose answer to everything is 500 with a JSON body that
    describes the forum. *)
Definition degraded : Request -> Response json := fun _ =>
  {| status_code := 500; reason := "Internal Server Error";
     content := "{...}"; text := "{...}";
     decoded := Some (JObj [("about", JObj [("title", JStr "Example Forum")])]) |}.

(** A remote that answers 200 with an empty body. *)
Definition silent : Request -> Response json := fun _ =>
  {| status_code := 200; reason := "OK"; content := ""; text := ""; decoded := None |}.

(** The caller's dictionary for the actions on post 19. *)
Definition about_post_19 : World :=
  {| status := value CREATED;
     outcome := {| poll_url := None; votes := None |};
     state := ∅;
     parameters := <["locked" := JBool true]> (<["id" := JInt 19]> ∅);
     effects := [] |}.

(** The caller's dictionary for [create_post]. *)
Definition reply_by_alice : World :=
  {| status := value CREATED;
     outcome := {| poll_url := None; votes := None |};
     state := ∅;
     parameters := <["initiator" := JStr "alice"]>
                     (<["topic_id" := JInt 7]> (<["raw" := JStr "hi there"]> ∅));
     effects := [] |}.

Definition post_19 : list (string * json) :=
  [("id", JInt 19); ("topic_id", JInt 7); ("topic_slug", JStr "hello");
   ("post_number", JInt 2); ("raw", JStr "hi there"); ("username", JStr "alice")].

Definition topic_7 : list (string * json) :=
  [("id", JInt 7); ("title", JStr "Hello"); ("slug", JStr "hello");
   ("tags", JList [JStr "intro"]); ("category_id", JInt 3);
   ("created_by", JObj [("username", JStr "alice")])].

(** The same process on the wire: red at 3, saved as it stands. *)
Definition tracked_on_wire : Wire.World :=
  let o := {| Wire.poll_url := Some "https://forum.example/t/pick-a-color/7";
              Wire.votes := Some [(JStr "red", JInt 3)] |} in
  {| Wire.status := value PENDING; Wire.outcome := o;
     Wire.state := <["topic_slug" := JStr "pick-a-color"]>
                     (<["topic_id" := JInt 7]> (<["post_id" := JInt 19]> ∅));
     Wire.effects := [Wire.Saved (value PENDING) o] |}.

(** An open poll that reports red at 4 and a second option without its
    count. *)
Definition red4_then_no_count : json :=
  JObj [("options", JList [JObj [("html", JStr "red"); ("votes", JInt 4)];
                           JObj [("html", JStr "blue")]]);
        ("status", JStr "open")].

(** A remote that answers 200 with the body [body]. *)
Definition replying (body : json) : Request -> Response json := fun _ =>
  {| status_code := 200; reason := "OK"; content := "{...}"; text := "{...}";
     decoded := Some body |}.

(** A topic whose first post has no ["polls"]. *)
Definition topic_without_polls : json :=
  JObj [("post_stream", JObj [("posts", JList [JObj [("id", JInt 19)]])])].

End MoreSamples.

(** * Properties *)

Import Py Requests Core Observe.

(** ** The outcome reconciliation *)

Section Reconciliation.
Import DiscoursePoll.

Implicit Types (m : gmap string Z) (opts : list PollOption) (opt : PollOption).

Lemma merge_option_votes m d opt :
  fst (merge_option (m, d) opt) = <[opt_html opt := opt_votes opt]> m.
Proof.
  unfold merge_option; simpl. case_bool_decide as H; simpl; [ | done].
  by rewrite insert_id.
Qed.

Lemma merge_options_votes opts m d :
  fst (merge_options opts (m, d)) =
  fold_left (fun m opt => <[opt_html opt := opt_votes opt]> m) opts m.
Proof.
  revert m d. induction opts as [ | opt opts IH]; intros m d; [done | ].
  unfold merge_options in *. simpl.
  destruct (merge_option (m, d) opt) as [m' d'] eqn:E.
  rewrite IH. f_equal.
  change m' with (fst (m', d')). rewrite <- E. apply merge_option_votes.
Qed.

Lemma fold_insert_union opts m :
  fold_left (fun m opt => <[opt_html opt := opt_votes opt]> m) opts m
  = observed opts ∪ m.
Proof.
  unfold observed. revert m. induction opts as [ | opt opts IH]; intros m; simpl.
  - by rewrite (left_id_L ∅ (∪)).
  - rewrite IH, reverse_cons, list_to_map_app. simpl.
    apply map_eq; intros k.
    rewrite !lookup_union, !lookup_insert.
    case_decide as Hk; rewrite ?lookup_empty;
      destruct (list_to_map _ !! k); simpl; destruct (m !! k); done.
Qed.

Lemma merge_options_dirty_stays opts m :
  snd (merge_options opts (m, true)) = true.
Proof.
  revert m. induction opts as [ | opt opts IH]; intros m; [done | ].
  unfold merge_options in *. simpl. unfold merge_option at 2. simpl.
  case_bool_decide; simpl; apply IH.
Qed.

(** A pass that raises no flag has changed nothing. *)
Lemma merge_options_clean opts m :
  snd (merge_options opts (m, false)) = false ->
  fst (merge_options opts (m, false)) = m.
Proof.
  revert m. induction opts as [ | opt opts IH]; intros m; [done | ].
  unfold merge_options in *. simpl. unfold merge_option at 2 4. simpl.
  case_bool_decide; simpl; [apply IH | ].
  intros Hd. pose proof (merge_options_dirty_stays opts (<[opt_html opt:=opt_votes opt]> m)) as Ht.
  unfold merge_options in Ht. congruence.
Qed.

(** A snapshot that agrees with the stored counts raises no flag. *)
Lemma merge_options_agree opts m d :
  (forall opt, opt ∈ opts -> m !! opt_html opt = Some (opt_votes opt)) ->
  merge_options opts (m, d) = (m, d).
Proof.
  induction opts as [ | opt opts IH]; intros Hall; [done | ].
  unfold merge_options in *. simpl. unfold merge_option at 2. simpl.
  rewrite bool_decide_eq_true_2 by (apply Hall; left). simpl.
  apply IH. intros o Ho. apply Hall. by right.
Qed.

Lemma labels_fmap opts :
  (reverse (map (fun opt => (opt_html opt, opt_votes opt)) opts)).*1
  ≡ₚ labels opts.
Proof.
  unfold labels. rewrite fmap_reverse, reverse_Permutation.
  induction opts as [ | o opts IH]; [done | ]. simpl. by rewrite IH.
Qed.

Lemma observed_lookup opts opt :
  NoDup (labels opts) -> opt ∈ opts ->
  observed opts !! opt_html opt = Some (opt_votes opt).
Proof.
  unfold observed. intros Hnd Hin.
  apply elem_of_list_to_map_1.
  - by rewrite labels_fmap.
  - rewrite elem_of_reverse. apply list_elem_of_In, in_map_iff.
    exists opt. split; [done | ]. by apply list_elem_of_In.
Qed.

Lemma observed_lookup_None opts k :
  k ∉ labels opts -> observed opts !! k = None.
Proof.
  unfold observed. intros Hk.
  apply not_elem_of_list_to_map_1. by rewrite labels_fmap.
Qed.

Lemma observed_lookup_Some opts k c :
  observed opts !! k = Some c ->
  exists opt, opt ∈ opts /\ opt_html opt = k /\ opt_votes opt = c.
Proof.
  unfold observed. intros H. apply elem_of_list_to_map_2 in H.
  apply elem_of_reverse, list_elem_of_In, in_map_iff in H as [o [E Ho]].
  exists o. apply list_elem_of_In in Ho. by inversion E.
Qed.

(** With distinct labels, the flag is raised exactly when a stored count
    differs from the reported one. *)
Lemma merge_options_dirty opts m :
  NoDup (labels opts) ->
  snd (merge_options opts (m, false)) = true <->
  exists opt, opt ∈ opts /\ m !! opt_html opt <> Some (opt_votes opt).
Proof.
  intros Hnd. split.
  - intros Hd.
    destruct (decide (Forall (fun opt => m !! opt_html opt = Some (opt_votes opt)) opts))
      as [Hall | Hex].
    + rewrite merge_options_agree in Hd; [done | ].
      intros o Ho. by eapply Forall_forall in Hall.
    + apply not_Forall_Exists in Hex; [ | intros o; apply _].
      apply Exists_exists in Hex as [o [Ho Hne]]. by exists o.
  - intros [o [Ho Hne]].
    destruct (snd (merge_options opts (m, false))) eqn:Hd; [done | exfalso].
    apply Hne. rewrite <- (merge_options_clean opts m Hd) at 1.
    rewrite merge_options_votes, fold_insert_union, lookup_union.
    by rewrite (observed_lookup opts o Hnd Ho); destruct (m !! opt_html o).
Qed.

(** What one reconciliation does, in one equation. *)
Lemma reconcile_unfold poll w :
  update_outcome_from_discourse_poll poll w =
  let result := merge_options (poll_options poll) (default ∅ (votes (outcome w)), false) in
  let closed := String.eqb (poll_status poll) "closed" in
  if snd result || closed then
    let status' := if closed then value COMPLETED else status w in
    let outcome' := {| poll_url := poll_url (outcome w); votes := Some (fst result) |} in
    (Ok tt, {| status := status'; outcome := outcome'; state := state w;
               parameters := parameters w;
               effects := effects w ++ [Saved status' outcome'] |})
  else (Ok tt, w).
Proof.
  unfold update_outcome_from_discourse_poll, bind, get_outcome. simpl.
  destruct (String.eqb (poll_status poll) "closed"); simpl;
    destruct (snd (merge_options _ _)); reflexivity.
Qed.

Lemma reconcile_frame poll w :
  let r := update_outcome_from_discourse_poll poll w in
  fst r = Ok tt
  /\ poll_url (outcome (snd r)) = poll_url (outcome w)
  /\ status (snd r) =
       (if String.eqb (poll_status poll) "closed" then value COMPLETED else status w)
  /\ state (snd r) = state w
  /\ parameters (snd r) = parameters w.
Proof.
  cbv zeta. rewrite reconcile_unfold. cbv zeta.
  destruct (snd (merge_options _ _)), (String.eqb (poll_status poll) "closed"); done.
Qed.

Lemma reconcile_votes poll w :
  default ∅ (votes (outcome (snd (update_outcome_from_discourse_poll poll w))))
  = observed (poll_options poll) ∪ default ∅ (votes (outcome w)).
Proof.
  rewrite reconcile_unfold. cbv zeta.
  destruct (snd (merge_options _ _) || _) eqn:Hd; simpl.
  - by rewrite merge_options_votes, fold_insert_union.
  - apply orb_false_elim in Hd as [Hd _].
    apply merge_options_clean in Hd.
    by rewrite merge_options_votes, fold_insert_union in Hd.
Qed.

(** C5.  Reconciliation is a merge.  For every world and every poll
    snapshot, [update_outcome_from_discourse_poll] returns, and afterwards
    the votes of the outcome are the stored votes overlaid with the counts
    the snapshot reports: a stored entry that no option of the snapshot
    contradicts is kept, ["poll_url"] is kept, the datastore and the
    caller's dictionary are untouched, and the status is ["completed"]
    when the snapshot's status is ["closed"] and what it was otherwise.
    When no reported count differs from the stored one and the poll is
    not closed, nothing at all is changed.  On the example of the
    specification (red 3, blue 5 observed while pending) the outcome
    becomes the poll URL with votes red 3 and blue 5, and the status
    stays ["pending"]. *)
Theorem reconciliation_is_a_merge :
  (forall (poll : Poll) (w : World),
     let r := update_outcome_from_discourse_poll poll w in
     let stored := default ∅ (votes (outcome w)) in
     let merged := default ∅ (votes (outcome (snd r))) in
     fst r = Ok tt
     /\ merged = observed (poll_options poll) ∪ stored
     /\ (forall k c, stored !! k = Some c ->
           (forall opt, opt ∈ poll_options poll -> opt_html opt = k -> opt_votes opt = c) ->
           merged !! k = Some c)
     /\ (forall k, k ∉ labels (poll_options poll) -> merged !! k = stored !! k)
     /\ poll_url (outcome (snd r)) = poll_url (outcome w)
     /\ status (snd r) =
          (if String.eqb (poll_status poll) "closed" then value COMPLETED else status w)
     /\ state (snd r) = state w
     /\ parameters (snd r) = parameters w
     /\ ((forall opt, opt ∈ poll_options poll ->
            stored !! opt_html opt = Some (opt_votes opt)) ->
         String.eqb (poll_status poll) "closed" = false ->
         snd r = w))
  /\ (forall (u : string) (st pr : gmap string json) (es : list Effect),
        let w := {| status := value PENDING;
                    outcome := {| poll_url := Some u; votes := None |};
                    state := st; parameters := pr; effects := es |} in
        let poll := {| poll_options := [ {| opt_html := "red"; opt_votes := 3 |};
                                         {| opt_html := "blue"; opt_votes := 5 |} ];
                       poll_status := "open" |} in
        let w' := snd (update_outcome_from_discourse_poll poll w) in
        outcome w' = {| poll_url := Some u;
                        votes := Some (<["red" := 3]> (<["blue" := 5]> ∅)) |}
        /\ status w' = "pending").
Proof.
  split.
  - intros poll w r stored merged.
    pose proof (reconcile_votes poll w) as Hm. fold r stored merged in Hm.
    destruct (reconcile_frame poll w) as (Hr & Hurl & Hst & Hstate & Hpar).
    repeat split; try done.
    + intros k c Hk Hagree. rewrite Hm, lookup_union, Hk.
      destruct (observed (poll_options poll) !! k) as [c' | ] eqn:Ho; [ | done].
      apply observed_lookup_Some in Ho as [o [Ho [Hl Hc]]].
      by rewrite <- Hc, (Hagree o Ho Hl).
    + intros k Hk. rewrite Hm, lookup_union, observed_lookup_None by done.
      by destruct (stored !! k).
    + intros Hall Hopen. subst r. rewrite reconcile_unfold. cbv zeta.
      fold stored. by rewrite Hopen, merge_options_agree.
  - intros u st pr es w poll w'. subst w'. rewrite reconcile_unfold.
    split; [ | done]. by vm_compute.
Qed.

Lemma reconcile_settled opts m opt :
  NoDup (labels opts) -> opt ∈ opts ->
  (observed opts ∪ m) !! opt_html opt = Some (opt_votes opt).
Proof.
  intros Hnd Hin. apply lookup_union_Some_l. by apply observed_lookup.
Qed.

(** C1, as the code has it.  For every world and every poll snapshot
    whose option labels are pairwise distinct, the first reconciliation
    leaves the stored votes overlaid with the reported counts, and a
    second reconciliation with the same snapshot leaves status, outcome,
    datastore and the caller's dictionary as the first one left them.
    When the snapshot is not closed, the second reconciliation changes
    nothing at all and writes nothing, and what the first one does is
    decided by the counts: if some reported count differs from the stored
    one (a label that is not stored differs), it persists the record
    once, with the status as it was and the merged votes, and the outcome
    is no longer what it was; if no reported count differs, it changes
    nothing and writes nothing.  So the first reconciliation writes
    exactly when a count differed, which is exactly when it changed the
    outcome. *)
Theorem reconciliation_idempotent (poll : Poll) (w : World) :
  NoDup (labels (poll_options poll)) ->
  let stored := default ∅ (votes (outcome w)) in
  let differs :=
    exists opt, opt ∈ poll_options poll /\ stored !! opt_html opt <> Some (opt_votes opt) in
  let merged :=
    {| poll_url := poll_url (outcome w);
       votes := Some (observed (poll_options poll) ∪ stored) |} in
  let w1 := snd (update_outcome_from_discourse_poll poll w) in
  let w2 := snd (update_outcome_from_discourse_poll poll w1) in
  (status w2 = status w1 /\ outcome w2 = outcome w1
   /\ state w2 = state w1 /\ parameters w2 = parameters w1)
  /\ default ∅ (votes (outcome w1)) = observed (poll_options poll) ∪ stored
  /\ (String.eqb (poll_status poll) "closed" = false ->
      w2 = w1
      /\ writes w2 = writes w1
      /\ (writes w1 = writes w \/ writes w1 = S (writes w))
      /\ (writes w1 = S (writes w) <-> outcome w1 <> outcome w)
      /\ (outcome w1 = outcome w -> w1 = w)
      /\ (writes w1 = S (writes w) <-> differs)
      /\ (differs ->
          w1 = {| status := status w; outcome := merged; state := state w;
                  parameters := parameters w;
                  effects := effects w ++ [Saved (status w) merged] |})
      /\ (~ differs -> w1 = w)).
Proof.
  intros Hnd stored differs merged w1 w2.
  set (opts := poll_options poll) in *.
  assert (Hagree : forall m, merge_options opts (observed opts ∪ m, false)
                             = (observed opts ∪ m, false)).
  { intros m. apply merge_options_agree. intros o Ho. by apply reconcile_settled. }
  assert (Hw2 : w2 = snd (update_outcome_from_discourse_poll poll w1)) by done.
  rewrite reconcile_unfold in Hw2. cbv zeta in Hw2. fold opts in Hw2.
  assert (Hv1 : default ∅ (votes (outcome w1)) = observed opts ∪ stored)
    by apply reconcile_votes.
  rewrite Hv1, Hagree in Hw2. simpl in Hw2.
  assert (Hw1 : w1 = snd (update_outcome_from_discourse_poll poll w)) by done.
  rewrite reconcile_unfold in Hw1. cbv zeta in Hw1. fold opts stored in Hw1.
  rewrite (surjective_pairing (merge_options opts (stored, false))) in Hw1.
  rewrite merge_options_votes, fold_insert_union in Hw1. simpl in Hw1.
  fold merged in Hw1.
  pose proof (merge_options_dirty opts stored Hnd) as Hdirty. fold differs in Hdirty.
  destruct (String.eqb (poll_status poll) "closed") eqn:Hc.
  - rewrite orb_true_r in Hw1. simpl in Hw1, Hw2.
    split; [ | by split]. rewrite Hw2. simpl. rewrite Hw1. simpl. done.
  - rewrite orb_false_r in Hw1. simpl in Hw2.
    split; [by rewrite Hw2 | ]. split; [done | intros _].
    split; [done | ]. split; [by rewrite Hw2 | ].
    destruct (snd (merge_options opts (stored, false))) eqn:Hd; simpl in Hw1.
    + assert (Hdiff : differs) by (by apply Hdirty).
      assert (Hne : outcome w1 <> outcome w).
      { destruct Hdiff as [o [Ho Hdiff]].
        intros E. apply Hdiff. unfold stored. rewrite <- E, Hv1.
        by apply reconcile_settled. }
      assert (Hwr : writes w1 = S (writes w)).
      { rewrite Hw1. unfold writes. simpl.
        rewrite List.filter_app, length_app. simpl. lia. }
      split; [by right | ]. split; [done | ]. split; [done | ].
      split; [done | ]. split; [done | ]. by intros Hno.
    + assert (Hsame : ~ differs) by (intros Hdiff; apply Hdirty in Hdiff; congruence).
      rewrite Hw1.
      split; [by left | ]. split; [split; [lia | done] | ]. split; [done | ].
      split; [split; [lia | done] | ]. split; [done | done].
Qed.

(** A world that stores red at 3 and an open snapshot that reports red
    at 4, for [reconciliation_idempotent]: the first reconciliation saves
    once, the second not at all. *)
Lemma reconciliation_idempotent_witness :
  let w := Samples.tracked PENDING in
  let w1 := snd (update_outcome_from_discourse_poll Samples.open_red4 w) in
  let w2 := snd (update_outcome_from_discourse_poll Samples.open_red4 w1) in
  NoDup (labels (poll_options Samples.open_red4))
  /\ writes w1 = 1%nat
  /\ w2 = w1
  /\ writes w2 = writes w1
  /\ (writes w1 = S (writes w) <-> outcome w1 <> outcome w).
Proof.
  assert (Hnd : NoDup (labels (poll_options Samples.open_red4))).
  { apply NoDup_cons. split; [apply not_elem_of_nil | apply NoDup_nil_2]. }
  destruct (reconciliation_idempotent Samples.open_red4 (Samples.tracked PENDING) Hnd)
    as (_ & _ & Hopen).
  destruct (Hopen eq_refl) as (Hsame & Hwrites & _ & Hiff & _ & Hcount & _).
  assert (Hdiffers : exists opt, opt ∈ poll_options Samples.open_red4
                       /\ default ∅ (votes (outcome (Samples.tracked PENDING)))
                            !! opt_html opt <> Some (opt_votes opt)).
  { exists (Samples.red 4). split; [apply list_elem_of_here | discriminate]. }
  split; [exact Hnd | ]. split; [exact (proj2 Hcount Hdiffers) | ].
  split; [exact Hsame | ]. split; [exact Hwrites | exact Hiff].
Defined.

(** C1, as stated, fails: two reconciliations with the same snapshot do
    not always persist the record exactly once.  With a closed snapshot
    that reports the stored counts, each of the two persists it; with an
    open snapshot that reports the stored counts, neither does; with an
    open snapshot that reports one label twice with different counts,
    each of the two does. *)
Lemma reconciliation_writes_counterexample :
  let twice poll w :=
    snd (update_outcome_from_discourse_poll poll
           (snd (update_outcome_from_discourse_poll poll w))) in
  writes (snd (update_outcome_from_discourse_poll Samples.closed_red3
                 (Samples.tracked PENDING))) = 1%nat
  /\ writes (twice Samples.closed_red3 (Samples.tracked PENDING)) = 2%nat
  /\ writes (twice Samples.open_red3 (Samples.tracked PENDING)) = 0%nat
  /\ writes (twice Samples.open_red1_red3 (Samples.tracked PENDING)) = 2%nat.
Proof. cbv zeta. repeat split; vm_compute; reflexivity. Qed.

End Reconciliation.

(** ** The life cycle of a poll: [start], [update], [close] *)

Section Lifecycle.
Import DiscoursePoll.
Variable py_repr : json -> string.
Variable config : Config.

Lemma update_unfold (remote : Request -> Response TopicView) (w : World) :
  let call := update_call py_repr config (default JNull (state w !! "topic_id")) in
  let resp := remote call in
  update py_repr config remote w =
  if negb (ok resp) then (Raise (PluginErrorInternal (text resp)), logged (HttpCall call) w)
  else match decoded resp with
       | None => (Raise JSONDecodeError, logged (HttpCall call) w)
       | Some response =>
           match posts (post_stream response) with
           | [] => (Raise IndexError, logged (HttpCall call) w)
           | topic_post :: _ =>
               match polls topic_post with
               | [] => (Raise IndexError, logged (HttpCall call) w)
               | poll :: _ =>
                   update_outcome_from_discourse_poll poll (logged (HttpCall call) w)
               end
           end
       end.
Proof.
  cbv zeta. unfold update, bind, state_get, request, emit, logged. simpl.
  destruct (ok _); simpl; [ | done].
  unfold lift, json_of. destruct (decoded _) as [response | ]; [ | done].
  destruct (posts _) as [ | topic_post ?]; [done | ]. simpl.
  destruct (polls _); done.
Qed.

Lemma close_unfold (remote : Request -> Response Toggled) (w : World) :
  let call := close_call config (default JNull (state w !! "post_id")) in
  let resp := remote call in
  close config remote w =
  if negb (ok resp) then (Raise (PluginErrorInternal (text resp)), logged (HttpCall call) w)
  else match decoded resp with
       | None => (Raise JSONDecodeError, logged (HttpCall call) w)
       | Some toggled =>
           update_outcome_from_discourse_poll (poll toggled) (logged (HttpCall call) w)
       end.
Proof.
  cbv zeta. unfold close, bind, state_get, request, emit, logged. simpl.
  destruct (ok _); simpl; [ | done].
  unfold lift, json_of. destruct (decoded _); done.
Qed.

Lemma reconcile_effects poll w :
  exists es, effects (snd (update_outcome_from_discourse_poll poll w))
             = (effects w ++ es)%list.
Proof.
  rewrite reconcile_unfold. cbv zeta.
  destruct (snd _ || _); simpl; [by eexists | exists []; by rewrite app_nil_r].
Qed.

(** C2, as the code has it.  For every process whose status is
    ["completed"], [update] and [close] still send their request to the
    remote, whatever the status; the status stays ["completed"] and the
    datastore is untouched whatever the remote answers.  When the remote
    answers with a non-success status they raise [PluginErrorInternal]
    with the text of the response and leave the process as it was; when
    it answers with a poll they reconcile the outcome with that poll, as
    for a pending process. *)
Theorem completed_update_close (w : World) :
  status w = value COMPLETED ->
  (forall remote : Request -> Response TopicView,
     let call := update_call py_repr config (default JNull (state w !! "topic_id")) in
     let r := update py_repr config remote w in
     (exists es, effects (snd r) = (effects w ++ HttpCall call :: es)%list)
     /\ status (snd r) = value COMPLETED
     /\ state (snd r) = state w
     /\ (ok (remote call) = false ->
         r = (Raise (PluginErrorInternal (text (remote call))), logged (HttpCall call) w))
     /\ (forall response topic_post ps poll pls,
           ok (remote call) = true ->
           decoded (remote call) = Some response ->
           posts (post_stream response) = topic_post :: ps ->
           polls topic_post = poll :: pls ->
           r = update_outcome_from_discourse_poll poll (logged (HttpCall call) w)))
  /\ (forall remote : Request -> Response Toggled,
       let call := close_call config (default JNull (state w !! "post_id")) in
       let r := close config remote w in
       (exists es, effects (snd r) = (effects w ++ HttpCall call :: es)%list)
       /\ status (snd r) = value COMPLETED
       /\ state (snd r) = state w
       /\ (ok (remote call) = false ->
           r = (Raise (PluginErrorInternal (text (remote call))), logged (HttpCall call) w))
       /\ (forall toggled,
             ok (remote call) = true ->
             decoded (remote call) = Some toggled ->
             r = update_outcome_from_discourse_poll (poll toggled)
                   (logged (HttpCall call) w))).
Proof.
  intros Hdone.
  assert (Hrec : forall p call,
    (exists es, effects (snd (update_outcome_from_discourse_poll p (logged (HttpCall call) w)))
                = (effects w ++ HttpCall call :: es)%list)
    /\ status (snd (update_outcome_from_discourse_poll p (logged (HttpCall call) w)))
       = value COMPLETED
    /\ state (snd (update_outcome_from_discourse_poll p (logged (HttpCall call) w)))
       = state w).
  { intros p call.
    destruct (reconcile_frame p (logged (HttpCall call) w)) as (_ & _ & Hst & Hstate & _).
    destruct (reconcile_effects p (logged (HttpCall call) w)) as [es Hes].
    split; [ | split].
    - exists es. rewrite Hes. simpl. by rewrite <- app_assoc.
    - rewrite Hst. simpl. rewrite Hdone. by destruct (String.eqb _ _).
    - by rewrite Hstate. }
  assert (Hlog : forall call,
    (exists es, effects (logged (HttpCall call) w) = (effects w ++ HttpCall call :: es)%list)
    /\ status (logged (HttpCall call) w) = value COMPLETED
    /\ state (logged (HttpCall call) w) = state w).
  { intros call. split; [by exists [] | done]. }
  split.
  - intros remote call r. subst r. rewrite update_unfold. cbv zeta. fold call.
    destruct (ok (remote call)) eqn:Hok; simpl.
    + destruct (decoded (remote call)) as [response | ] eqn:Hbody.
      * destruct (posts (post_stream response)) as [ | topic_post ps] eqn:Hposts;
          [ | destruct (polls topic_post) as [ | p pls] eqn:Hpolls ].
        all: first [ destruct (Hrec p call) as (? & ? & ?)
                   | destruct (Hlog call) as (? & ? & ?) ].
        all: repeat split; try done.
        all: intros; simplify_eq; congruence.
      * destruct (Hlog call) as (? & ? & ?). repeat split; try done.
    + destruct (Hlog call) as (? & ? & ?). repeat split; try done.
  - intros remote call r. subst r. rewrite close_unfold. cbv zeta. fold call.
    destruct (ok (remote call)) eqn:Hok; simpl.
    + destruct (decoded (remote call)) as [toggled | ] eqn:Hbody.
      * destruct (Hrec (poll toggled) call) as (? & ? & ?). repeat split; try done.
        intros; simplify_eq; congruence.
      * destruct (Hlog call) as (? & ? & ?). repeat split; try done.
    + destruct (Hlog call) as (? & ? & ?). repeat split; try done.
Qed.

Lemma start_unfold (remote : Request -> Response json) (parameters : Parameters)
    (w : World) :
  let call := start_call config parameters in
  let resp := remote call in
  let w0 := logged (HttpCall call) w in
  start py_repr config remote parameters w =
  if negb (ok resp) then
    (Raise (PluginErrorInternal
              (if String.eqb (text resp) "" then "unknown error" else text resp)), w0)
  else match decoded resp with
       | None => (Raise JSONDecodeError, w0)
       | Some (JObj items) =>
           let get key := default JNull (assoc key items) in
           if truthy (get "errors") then
             (Raise (PluginErrorInternal (py_str py_repr (get "errors"))), w0)
           else
             let url := server_url config ++ "/t/" ++ py_str py_repr (get "topic_slug")
                        ++ "/" ++ py_str py_repr (get "topic_id") in
             let o := {| poll_url := Some url; votes := None |} in
             (Ok tt,
              {| status := value PENDING; outcome := o;
                 state := <["topic_slug" := get "topic_slug"]>
                            (<["topic_id" := get "topic_id"]>
                               (<["post_id" := get "id"]> (state w)));
                 parameters := Core.parameters w;
                 effects := (effects w ++
                             [HttpCall call;
                              StateSet "post_id" (get "id");
                              StateSet "topic_id" (get "topic_id");
                              StateSet "topic_slug" (get "topic_slug");
                              Saved (value PENDING) o])%list |})
       | Some _ => (Raise AttributeError, w0)
       end.
Proof.
  cbv zeta. unfold start, bind, request, emit, logged. simpl.
  destruct (ok _); simpl; [ | done].
  unfold lift, json_of. destruct (decoded _) as [response | ]; [ | done].
  destruct response; try done. simpl.
  destruct (truthy _); [done | ]. simpl.
  unfold state_set, emit, set_outcome, set_status, save, emit. simpl.
  by rewrite <- !app_assoc.
Qed.

(** C3.  Whenever the remote create fails, that is the response to the
    call of [start] has a non-success status, or has a success status and
    a body that is a JSON object with a true ["errors"] value, [start]
    raises [PluginErrorInternal] and the process is as before: the only
    effect is the call itself, so the status (["created"] if it was) and
    the outcome are unchanged, nothing is written to the datastore and
    the record is not saved. *)
Theorem start_failure_leaves_process (remote : Request -> Response json)
    (parameters : Parameters) (w : World) :
  let call := start_call config parameters in
  let resp := remote call in
  (ok resp = false
   \/ exists response errors,
        ok resp = true /\ decoded resp = Some response
        /\ dict_get response "errors" = Ok errors /\ truthy errors = true) ->
  let r := start py_repr config remote parameters w in
  (exists detail, fst r = Raise (PluginErrorInternal detail))
  /\ snd r = logged (HttpCall call) w
  /\ (status w = value CREATED -> status (snd r) = value CREATED)
  /\ outcome (snd r) = outcome w
  /\ state (snd r) = state w
  /\ writes (snd r) = writes w
  /\ (forall key v, StateSet key v ∈ effects (snd r) -> StateSet key v ∈ effects w).
Proof.
  intros call resp Hfail r.
  assert (Hr : (exists detail, fst r = Raise (PluginErrorInternal detail))
               /\ snd r = logged (HttpCall call) w).
  { subst r. rewrite start_unfold. cbv zeta. fold call resp.
    destruct Hfail as [Hok | (response & errors & Hok & Hbody & Herr & Htrue)];
      rewrite Hok; simpl.
    - split; [by eexists | done].
    - rewrite Hbody. destruct response; try done.
      simpl in Herr. injection Herr as ->. rewrite Htrue.
      split; [by eexists | done]. }
  destruct Hr as [Hraise Hw]. rewrite Hw.
  repeat split; try done.
  - unfold writes, logged. simpl. rewrite List.filter_app, length_app. simpl. lia.
  - intros key v. simpl. rewrite elem_of_app, list_elem_of_singleton. by intros [ | ].
Qed.

(** C6.  Whenever the remote create succeeds, that is the response to
    the call of [start] has a success status and a body that is a JSON
    object without a true ["errors"] value, [start] returns; it stores
    the ["id"], ["topic_id"] and ["topic_slug"] of the response in the
    datastore under ["post_id"], ["topic_id"] and ["topic_slug"], sets
    the outcome to exactly the poll URL built from the server URL, the
    topic slug and the topic id, sets the status to ["pending"], and
    saves the record with that status and outcome. *)
Theorem start_success (remote : Request -> Response json)
    (parameters : Parameters) (w : World) (items : list (string * json)) :
  let call := start_call config parameters in
  let resp := remote call in
  ok resp = true ->
  decoded resp = Some (JObj items) ->
  truthy (default JNull (assoc "errors" items)) = false ->
  let get key := default JNull (assoc key items) in
  let url := server_url config ++ "/t/" ++ py_str py_repr (get "topic_slug")
             ++ "/" ++ py_str py_repr (get "topic_id") in
  let r := start py_repr config remote parameters w in
  fst r = Ok tt
  /\ state (snd r) = <["topic_slug" := get "topic_slug"]>
                       (<["topic_id" := get "topic_id"]>
                          (<["post_id" := get "id"]> (state w)))
  /\ outcome (snd r) = {| poll_url := Some url; votes := None |}
  /\ status (snd r) = "pending"
  /\ effects (snd r) =
       (effects w ++
        [HttpCall call;
         StateSet "post_id" (get "id");
         StateSet "topic_id" (get "topic_id");
         StateSet "topic_slug" (get "topic_slug");
         Saved "pending" {| poll_url := Some url; votes := None |}])%list
  /\ Core.parameters (snd r) = Core.parameters w.
Proof.
  intros call resp Hok Hbody Herr get url r. subst r.
  rewrite start_unfold. cbv zeta. fold call resp.
  rewrite Hok, Hbody. simpl. rewrite Herr. done.
Qed.
End Lifecycle.

(** A failing remote, for [start_failure_leaves_process]. *)
Lemma start_failure_leaves_process_witness :
  let call := DiscoursePoll.start_call Samples.forum Samples.pick_a_color in
  ok (Samples.failing (B := json) call) = false
  /\ snd (DiscoursePoll.start Samples.repr_unused Samples.forum Samples.failing
            Samples.pick_a_color Samples.fresh)
     = logged (HttpCall call) Samples.fresh.
Proof.
  split; [reflexivity | ].
  destruct (start_failure_leaves_process Samples.repr_unused Samples.forum
              Samples.failing Samples.pick_a_color Samples.fresh
              (or_introl eq_refl)) as (_ & H & _).
  exact H.
Defined.

(** A remote that creates the post, for [start_success]. *)
Lemma start_success_witness :
  let call := DiscoursePoll.start_call Samples.forum Samples.pick_a_color in
  let r := DiscoursePoll.start Samples.repr_unused Samples.forum Samples.created
             Samples.pick_a_color Samples.fresh in
  ok (Samples.created call) = true
  /\ fst r = Ok tt
  /\ outcome (snd r) = {| poll_url := Some "https://forum.example/t/pick-a-color/7";
                          votes := None |}
  /\ status (snd r) = "pending".
Proof.
  split; [reflexivity | ].
  destruct (start_success Samples.repr_unused Samples.forum Samples.created
              Samples.pick_a_color Samples.fresh _ eq_refl eq_refl eq_refl)
    as (H1 & _ & H3 & H4 & _).
  split; [exact H1 | ]. split; [exact H3 | exact H4].
Defined.

(** A completed process, for [completed_update_close]. *)
Lemma completed_update_close_witness :
  status (Samples.tracked COMPLETED) = value COMPLETED
  /\ status (snd (DiscoursePoll.update Samples.repr_unused Samples.forum
                    (Samples.topic_with Samples.open_red4)
                    (Samples.tracked COMPLETED))) = value COMPLETED.
Proof.
  split; [reflexivity | ].
  destruct (completed_update_close Samples.repr_unused Samples.forum
              (Samples.tracked COMPLETED) eq_refl) as [Hupdate _].
  destruct (Hupdate (Samples.topic_with Samples.open_red4)) as (_ & H & _).
  exact H.
Defined.

(** C2, as stated, fails: on a completed process [update] and [close] are
    not no-ops.  Both send their request; when the remote answers 500 both
    raise; when the remote answers with a poll that reports red at 4, both
    overwrite the stored count 3 and save the record. *)
Lemma completed_update_close_counterexample :
  let w := Samples.tracked COMPLETED in
  let update := DiscoursePoll.update Samples.repr_unused Samples.forum in
  let close := DiscoursePoll.close Samples.forum in
  fst (update Samples.failing w) = Raise (PluginErrorInternal "upstream down")
  /\ effects (snd (update Samples.failing w))
     = [HttpCall (DiscoursePoll.update_call Samples.repr_unused Samples.forum (JInt 7))]
  /\ votes (outcome (snd (update (Samples.topic_with Samples.open_red4) w)))
     = Some (<["red" := 4]> ∅)
  /\ writes (snd (update (Samples.topic_with Samples.open_red4) w)) = 1%nat
  /\ fst (close Samples.failing w) = Raise (PluginErrorInternal "upstream down")
  /\ effects (snd (close Samples.failing w))
     = [HttpCall (DiscoursePoll.close_call Samples.forum (JInt 19))]
  /\ votes (outcome (snd (close (Samples.toggled_with Samples.open_red4) w)))
     = Some (<["red" := 4]> ∅)
  /\ writes (snd (close (Samples.toggled_with Samples.open_red4) w)) = 1%nat.
Proof. cbv zeta. repeat split; vm_compute; reflexivity. Qed.

(** ** The remote client and the actions *)

Section Client.
Import Discourse.
Variable py_repr : json -> string.
Variable config : Config.

Lemma discourse_request_unfold (remote : Request -> Response json)
    (method route : string) (username : json)
    (json data : option (gmap string Py.json)) (w : World) :
  let call := api_call config method route username json data in
  let resp := remote call in
  discourse_request config remote method route username json data w =
  (if negb (ok resp) then Raise (PluginErrorInternal (text resp))
   else if negb (String.eqb (content resp) "") then json_of resp
   else Ok JNull,
   logged (HttpCall call) w).
Proof.
  cbv zeta. unfold discourse_request, bind, request, emit, logged. simpl.
  destruct (ok _); simpl; [ | done].
  destruct (String.eqb _ _); done.
Qed.

(** C7, as the code has it.  Every call of [discourse_request] sends one
    request.  When the response has a non-success status, it raises
    [PluginErrorInternal] with the text of the response body, and with
    nothing else: not the status code.  When the status is a success
    and the body is empty, it returns [None].  When the status is a
    success and the body is not empty, it returns what [resp.json()]
    returns, the parsed body, and raises as [resp.json()] does when the
    body is not JSON. *)
Theorem discourse_request_result (remote : Request -> Response json)
    (method route : string) (username : json)
    (json data : option (gmap string Py.json)) (w : World) :
  let call := api_call config method route username json data in
  let resp := remote call in
  let r := discourse_request config remote method route username json data w in
  snd r = logged (HttpCall call) w
  /\ (ok resp = false -> fst r = Raise (PluginErrorInternal (text resp)))
  /\ (ok resp = true -> content resp = "" -> fst r = Ok JNull)
  /\ (ok resp = true -> content resp <> "" ->
      forall parsed, decoded resp = Some parsed -> fst r = Ok parsed)
  /\ (ok resp = true -> content resp <> "" ->
      decoded resp = None -> fst r = Raise JSONDecodeError).
Proof.
  intros call resp r. subst r. rewrite discourse_request_unfold. cbv zeta.
  fold call resp. simpl. split; [done | ].
  split; [by intros -> | ].
  split; [by intros -> -> | ].
  split.
  - intros -> Hne parsed Hp. simpl.
    apply String.eqb_neq in Hne. rewrite Hne. simpl.
    unfold json_of. by rewrite Hp.
  - intros -> Hne Hp. simpl.
    apply String.eqb_neq in Hne. rewrite Hne. simpl.
    unfold json_of. by rewrite Hp.
Qed.

Lemma bind_lift_snd {A B} (m : M A) (f : A -> Result B) (w : World) :
  snd (bind m (fun a => lift (f a)) w) = snd (m w).
Proof. unfold bind, lift. by destruct (m w) as [[a | e] w']. Qed.

(** The parameters dictionary [create_message] sends, from the one it
    was given. *)
Lemma create_message_unfold (remote : Request -> Response json) (w : World) :
  let p0 := delete "initiator" (parameters w) in
  let username := default (JStr "system") (parameters w !! "initiator") in
  snd (create_message py_repr config remote w) =
  match parameters w !! "target_usernames" with
  | None => snd (set_parameters p0 w)
  | Some usernames =>
      let p1 := delete "target_usernames" p0 in
      match str_join "," usernames with
      | Raise _ => snd (set_parameters p1 w)
      | Ok recipients =>
          let p3 := <["archetype" := JStr "private_message"]>
                      (<["target_recipients" := JStr recipients]> p1) in
          logged (HttpCall (api_call config "POST" "posts.json" username (Some p3) None))
                 (snd (set_parameters p3 w))
      end
  end.
Proof.
  cbv zeta. destruct w as [st o s p es]. simpl.
  unfold create_message, bind, pop_default, pop, lift, setitem, get_parameters,
    set_parameters. simpl.
  assert (Hsent : forall username (p' : gmap string json) (es' : list Effect),
            snd (let (r, w') := discourse_request config remote "POST" "posts.json"
                                  username (Some p') None
                                  {| status := st; outcome := o; state := s;
                                     parameters := p'; effects := es' |} in
                 match r with
                 | Ok post => (construct_post_response py_repr config post, w')
                 | Raise e => (Raise e, w')
                 end)
            = logged (HttpCall (api_call config "POST" "posts.json" username (Some p') None))
                {| status := st; outcome := o; state := s;
                   parameters := p'; effects := es' |}).
  { intros. rewrite discourse_request_unfold. cbv zeta.
    by destruct (if negb _ then _ else _). }
  destruct (p !! "initiator") as [u | ] eqn:Hu; simpl.
  - rewrite lookup_delete_ne by done.
    destruct (p !! "target_usernames") as [usernames | ]; simpl; [ | done].
    destruct (str_join "," usernames); simpl; [ | done]. apply Hsent.
  - rewrite (delete_id p "initiator") by done.
    destruct (p !! "target_usernames") as [usernames | ]; simpl; [ | done].
    destruct (str_join "," usernames); simpl; [ | done]. apply Hsent.
Qed.
Lemma create_post_unfold (remote : Request -> Response json) (w : World) :
  let p0 := delete "initiator" (parameters w) in
  let username := default (JStr "system") (parameters w !! "initiator") in
  snd (create_post py_repr config remote w) =
  logged (HttpCall (api_call config "POST" "posts.json" username (Some p0) None))
         (snd (set_parameters p0 w)).
Proof.
  cbv zeta. unfold create_post.
  unfold bind at 1. unfold pop_default.
  destruct (parameters w !! "initiator") as [u | ] eqn:Hu; simpl.
  - unfold bind at 1. unfold get_parameters at 1. simpl.
    by rewrite bind_lift_snd, discourse_request_unfold.
  - unfold bind at 1. unfold get_parameters at 1. simpl.
    rewrite bind_lift_snd, discourse_request_unfold. simpl.
    rewrite (delete_id (parameters w) "initiator") by done.
    by destruct w.
Qed.

Lemma create_topic_unfold (remote : Request -> Response json) (w : World) :
  let p0 := delete "initiator" (parameters w) in
  let username := default (JStr "system") (parameters w !! "initiator") in
  snd (create_topic py_repr config remote w) =
  logged (HttpCall (api_call config "POST" "posts.json" username (Some p0) None))
         (snd (set_parameters p0 w)).
Proof. apply create_post_unfold. Qed.

(** C9.  The three handlers change the dictionary the caller passed.
    After [create_post] and after [create_topic] that dictionary is the
    one given without ["initiator"], and it is what the one request they
    make carries.  After [create_message] it has neither ["initiator"]
    nor ["target_usernames"]; whenever ["target_usernames"] was there and
    could be joined, it has ["target_recipients"] with the joined names
    and ["archetype"] with ["private_message"] besides, and it is in that
    form that the one request carries it; otherwise no request is made. *)
Theorem actions_mutate_parameters (remote : Request -> Response json) (w : World) :
  let username := default (JStr "system") (parameters w !! "initiator") in
  let p0 := delete "initiator" (parameters w) in
  let sent p := HttpCall (api_call config "POST" "posts.json" username (Some p) None) in
  (let w' := snd (create_post py_repr config remote w) in
   parameters w' = p0 /\ effects w' = (effects w ++ [sent p0])%list)
  /\ (let w' := snd (create_topic py_repr config remote w) in
      parameters w' = p0 /\ effects w' = (effects w ++ [sent p0])%list)
  /\ (let w' := snd (create_message py_repr config remote w) in
      parameters w' !! "initiator" = None
      /\ parameters w' !! "target_usernames" = None
      /\ (forall usernames recipients,
            parameters w !! "target_usernames" = Some usernames ->
            str_join "," usernames = Ok recipients ->
            let p3 := <["archetype" := JStr "private_message"]>
                        (<["target_recipients" := JStr recipients]>
                           (delete "target_usernames" p0)) in
            parameters w' = p3
            /\ effects w' = (effects w ++ [sent p3])%list
            /\ parameters w' !! "target_recipients" = Some (JStr recipients)
            /\ parameters w' !! "archetype" = Some (JStr "private_message"))
      /\ ((parameters w !! "target_usernames" = None
           \/ exists usernames e,
                parameters w !! "target_usernames" = Some usernames
                /\ str_join "," usernames = Raise e) ->
          effects w' = effects w)).
Proof.
  intros username p0 sent.
  split; [ | split].
  - cbv zeta. by rewrite create_post_unfold.
  - cbv zeta. by rewrite create_topic_unfold.
  - intros w'. subst w'. rewrite create_message_unfold. cbv zeta. fold p0 username.
    assert (Hp0 : p0 !! "target_usernames" = parameters w !! "target_usernames")
      by (unfold p0; by rewrite lookup_delete_ne).
    destruct (parameters w !! "target_usernames") as [usernames | ] eqn:Hu.
    + destruct (str_join "," usernames) as [recipients | e] eqn:Hj; simpl.
      * split; [ | split; [ | split]].
        -- rewrite !lookup_insert_ne, lookup_delete_ne by done. apply lookup_delete_eq.
        -- rewrite !lookup_insert_ne by done. apply lookup_delete_eq.
        -- intros u' r' [= <-] Hj'. rewrite Hj in Hj'. injection Hj' as <-.
           split; [done | ]. split; [done | ].
           split; [ | apply lookup_insert_eq].
           rewrite lookup_insert_ne by done. apply lookup_insert_eq.
        -- intros [ | (u' & e' & [= <-] & ?)]; congruence.
      * split; [ | split; [ | split]].
        -- rewrite lookup_delete_ne by done. apply lookup_delete_eq.
        -- apply lookup_delete_eq.
        -- intros u' r' [= <-] Hj'. congruence.
        -- done.
    + simpl. split; [ | split; [ | split]].
      * apply lookup_delete_eq.
      * by rewrite Hp0.
      * intros u' r' Hu'. congruence.
      * done.
Qed.
End Client.

(** The status code is not in the error, for [discourse_request_result]:
    a 404 and a 500 with the same body raise the same error. *)
Lemma discourse_request_error_counterexample :
  let result code :=
    fst (Discourse.discourse_request Samples.forum (Samples.answering code "gone")
           "DELETE" "posts/19" (JStr "system") None None Samples.fresh) in
  result 404 = Raise (PluginErrorInternal "gone")
  /\ result 500 = Raise (PluginErrorInternal "gone").
Proof. cbv zeta. repeat split; vm_compute; reflexivity. Qed.

(** A message to two users, for [actions_mutate_parameters]. *)
Lemma actions_mutate_parameters_witness :
  let w' := snd (Discourse.create_message Samples.repr_unused Samples.forum
                   Samples.posted Samples.message_for_bob_and_carol) in
  parameters w' !! "initiator" = None
  /\ parameters w' !! "target_usernames" = None
  /\ parameters w' !! "target_recipients" = Some (JStr "bob,carol")
  /\ parameters w' !! "archetype" = Some (JStr "private_message").
Proof.
  destruct (actions_mutate_parameters Samples.repr_unused Samples.forum
              Samples.posted Samples.message_for_bob_and_carol)
    as (_ & _ & H1 & H2 & H3 & _).
  destruct (H3 (JList [JStr "bob"; JStr "carol"]) "bob,carol" eq_refl eq_refl)
    as (_ & _ & H4 & H5).
  split; [exact H1 | ]. split; [exact H2 | ]. split; [exact H4 | exact H5].
Defined.

(** ** The webhook receiver *)

Section Webhook.
Import Discourse.
Variable py_repr : json -> string.
Variable config : Config.

Lemma hex_digit_ascii (n : Z) :
  (0 <= n < 16)%Z -> (N_of_ascii (Hashlib.hex_digit n) <? 128)%N = true.
Proof.
  intros H.
  assert (Hall : forallb (fun k => (N_of_ascii (Hashlib.hex_digit (Z.of_nat k)) <? 128)%N)
                   (seq 0 16) = true) by reflexivity.
  rewrite forallb_forall in Hall.
  rewrite <- (Z2Nat.id n) by lia. apply Hall, in_seq. lia.
Qed.

Lemma land_15_bounds (b : Z) : (0 <= Z.land b 15 < 16)%Z.
Proof.
  change 15%Z with (Z.ones 4). rewrite Z.land_ones by lia.
  apply Z.mod_pos_bound. lia.
Qed.

Lemma hex_is_ascii (bs : list Z) : is_ascii (Hashlib.hex bs) = true.
Proof.
  induction bs as [ | b bs IH]; [done | ]. simpl.
  rewrite !hex_digit_ascii by apply land_15_bounds. by rewrite IH.
Qed.

Lemma is_ascii_app (a b : string) : is_ascii (a ++ b) = is_ascii a && is_ascii b.
Proof.
  induction a as [ | c a IH]; [done | ]. simpl. rewrite IH. by rewrite andb_assoc.
Qed.

Lemma expected_signature_ascii (request : WebRequest) :
  is_ascii (expected_signature config request) = true.
Proof.
  unfold expected_signature, Hashlib.hmac_hexdigest.
  by rewrite is_ascii_app, hex_is_ascii.
Qed.
Lemma compare_digest_expected (request : WebRequest) (s : string) :
  is_ascii s = true ->
  Hashlib.compare_digest s (expected_signature config request)
  = Ok (String.eqb s (expected_signature config request)).
Proof.
  intros Hs. unfold Hashlib.compare_digest.
  by rewrite Hs, expected_signature_ascii.
Qed.

Lemma expected_signature_not_empty (request : WebRequest) :
  String.eqb (expected_signature config request) "" = false.
Proof. done. Qed.

(** A request that fails the verification is turned away as it came:
    nothing is parsed, sent or changed. *)
Lemma receive_webhook_rejected (request : WebRequest) (w : World) (e : exn) :
  validate_request_signature config request = Raise e ->
  forall loaded,
    receive_webhook py_repr config (reparsed loaded request) w = (Raise e, w).
Proof.
  intros Hv loaded. unfold receive_webhook, bind, lift.
  change (validate_request_signature config (reparsed loaded request))
    with (validate_request_signature config request).
  by rewrite Hv.
Qed.

(** The three rejections of [validate_request_signature] that the code
    spells out: a missing or empty signature header, an ASCII signature
    that is not the expected one, and an origin that is not the configured
    server.  Each raises [PluginErrorInternal] and leaves the world as it
    was, whatever the body would parse to. *)
Lemma webhook_rejects_unauthenticated (request : WebRequest) (w : World) :
  let given := req_headers request !! "X-Discourse-Event-Signature" in
  let origin := req_headers request !! "X-Discourse-Instance" in
  let receive loaded := receive_webhook py_repr config (reparsed loaded request) w in
  (given = None \/ given = Some "" ->
   forall loaded,
     receive loaded = (Raise (PluginErrorInternal "Missing event signature"), w))
  /\ (forall s, given = Some s -> is_ascii s = true ->
       s <> "" -> s <> expected_signature config request ->
       forall loaded,
         receive loaded = (Raise (PluginErrorInternal "Invalid signature header"), w))
  /\ (forall i, given = Some (expected_signature config request) ->
       origin = Some i -> i <> server_url config ->
       forall loaded,
         receive loaded = (Raise (PluginErrorInternal "Unexpected X-Discourse-Instance"), w)).
Proof.
  intros given origin receive. subst receive. cbv beta.
  split; [ | split].
  - intros Hg loaded. apply receive_webhook_rejected.
    unfold validate_request_signature. fold given.
    by destruct Hg as [-> | ->].
  - intros s Hg Hs Hne Hdiff loaded. apply receive_webhook_rejected.
    unfold validate_request_signature. fold given. rewrite Hg.
    apply String.eqb_neq in Hne. rewrite Hne.
    fold (expected_signature config request).
    rewrite compare_digest_expected by done.
    apply String.eqb_neq in Hdiff. by rewrite Hdiff.
  - intros i Hg Ho Hne loaded. apply receive_webhook_rejected.
    unfold validate_request_signature. fold given origin. rewrite Hg, Ho.
    fold (expected_signature config request).
    rewrite expected_signature_not_empty.
    rewrite compare_digest_expected by apply expected_signature_ascii.
    rewrite String.eqb_refl.
    apply String.eqb_neq in Hne. by rewrite Hne.
Qed.

(** C8, as the code has it.  For every request that passes the
    verification of signature and origin, whose body is valid JSON, and
    whose event type is neither ["post_created"] nor ["topic_created"]
    (or is absent), [receive_webhook] returns without raising and leaves
    the world as it was: no event is sent to the host. *)
Theorem unrecognized_event_ignored (request : WebRequest) (w : World) (parsed : json) :
  validate_request_signature config request = Ok tt ->
  loaded request = Some parsed ->
  req_headers request !! "X-Discourse-Event" <> Some "post_created" ->
  req_headers request !! "X-Discourse-Event" <> Some "topic_created" ->
  receive_webhook py_repr config request w = (Ok tt, w).
Proof.
  intros Hv Hl Hpost Htopic. unfold receive_webhook, bind, lift.
  rewrite Hv, Hl. by rewrite !bool_decide_eq_false_2.
Qed.

(** C10.  For every request whose signature header is the expected
    signature of its body and which has no [X-Discourse-Instance] header,
    [receive_webhook] raises [KeyError], which is not a
    [PluginErrorInternal]; the world is as it was, so no event is sent,
    and the outcome is the same whatever the body would parse to: the
    body is not parsed. *)
Theorem missing_instance_header_raises_key_error (request : WebRequest) (w : World) :
  req_headers request !! "X-Discourse-Event-Signature"
  = Some (expected_signature config request) ->
  req_headers request !! "X-Discourse-Instance" = None ->
  receive_webhook py_repr config request w = (Raise KeyError, w)
  /\ (forall detail, KeyError <> PluginErrorInternal detail)
  /\ (forall loaded,
        receive_webhook py_repr config (reparsed loaded request) w = (Raise KeyError, w)).
Proof.
  intros Hg Ho.
  assert (Hv : validate_request_signature config request = Raise KeyError).
  { unfold validate_request_signature. rewrite Hg, Ho.
    fold (expected_signature config request).
    rewrite expected_signature_not_empty.
    rewrite compare_digest_expected by apply expected_signature_ascii.
    by rewrite String.eqb_refl. }
  split; [ | split; [done | ]].
  - pose proof (receive_webhook_rejected request w KeyError Hv (loaded request)) as H.
    by destruct request.
  - by apply receive_webhook_rejected.
Qed.
End Webhook.

(** A signed delivery of an event the plugin does not know, for
    [unrecognized_event_ignored]. *)
Lemma unrecognized_event_ignored_witness :
  let request := Samples.delivery "user_created" "{}" (Some (JObj [])) in
  Discourse.validate_request_signature Samples.forum request = Ok tt
  /\ Discourse.receive_webhook Samples.repr_unused Samples.forum request Samples.fresh
     = (Ok tt, Samples.fresh).
Proof.
  assert (Hv : Discourse.validate_request_signature Samples.forum
                 (Samples.delivery "user_created" "{}" (Some (JObj []))) = Ok tt)
    by (vm_compute; reflexivity).
  split; [exact Hv | ].
  apply (unrecognized_event_ignored Samples.repr_unused Samples.forum
           (Samples.delivery "user_created" "{}" (Some (JObj [])))
           Samples.fresh (JObj []) Hv eq_refl); vm_compute; congruence.
Defined.

(** C8, as stated, fails: a request that passes the verification and has
    an event type the plugin does not know, but a body that is not JSON,
    makes [receive_webhook] raise. *)
Lemma unrecognized_event_counterexample :
  let request := Samples.delivery "user_created" "not json" None in
  Discourse.validate_request_signature Samples.forum request = Ok tt
  /\ Discourse.req_headers request !! "X-Discourse-Event" = Some "user_created"
  /\ Discourse.receive_webhook Samples.repr_unused Samples.forum request Samples.fresh
     = (Raise JSONDecodeError, Samples.fresh).
Proof. cbv zeta. repeat split; vm_compute; reflexivity. Qed.

(** A signed delivery without the origin header, for
    [missing_instance_header_raises_key_error]. *)
Lemma missing_instance_header_witness :
  let request := Samples.delivery_without_instance "post_created" "{}" (Some (JObj [])) in
  Discourse.req_headers request !! "X-Discourse-Event-Signature"
  = Some (expected_signature Samples.forum request)
  /\ Discourse.req_headers request !! "X-Discourse-Instance" = None
  /\ Discourse.receive_webhook Samples.repr_unused Samples.forum request Samples.fresh
     = (Raise KeyError, Samples.fresh).
Proof.
  assert (Hg : Discourse.req_headers
                 (Samples.delivery_without_instance "post_created" "{}" (Some (JObj [])))
               !! "X-Discourse-Event-Signature"
               = Some (expected_signature Samples.forum
                         (Samples.delivery_without_instance "post_created" "{}"
                            (Some (JObj [])))))
    by (vm_compute; reflexivity).
  assert (Ho : Discourse.req_headers
                 (Samples.delivery_without_instance "post_created" "{}" (Some (JObj [])))
               !! "X-Discourse-Instance" = None)
    by (vm_compute; reflexivity).
  split; [exact Hg | ]. split; [exact Ho | ].
  exact (proj1 (missing_instance_header_raises_key_error Samples.repr_unused Samples.forum
                  _ Samples.fresh Hg Ho)).
Defined.

(** C4 at a signature header that is not ASCII: [compare_digest] raises
    [TypeError], and that, not a [PluginErrorInternal], is what
    [receive_webhook] raises.  The request is still turned away with the
    world as it was. *)
Lemma forged_signature_raises_type_error :
  Discourse.req_headers Samples.forged !! "X-Discourse-Event-Signature"
  <> Some (expected_signature Samples.forum Samples.forged)
  /\ Discourse.receive_webhook Samples.repr_unused Samples.forum Samples.forged
       Samples.fresh
     = (Raise TypeError, Samples.fresh).
Proof. split; [vm_compute; congruence | vm_compute; reflexivity]. Qed.

(** ** More on the webhook receiver: what is accepted and what is sent *)

Section WebhookEvents.
Import Discourse Invariants.
Variable py_repr : json -> string.
Variable config : Config.

(** A request passes [validate_request_signature] exactly when its
    signature header is the expected signature of its body and its
    [X-Discourse-Instance] header is the configured server URL. *)
Theorem signature_accepted_iff (request : WebRequest) :
  validate_request_signature config request = Ok tt
  <-> (req_headers request !! "X-Discourse-Event-Signature"
       = Some (expected_signature config request)
       /\ req_headers request !! "X-Discourse-Instance" = Some (server_url config)).
Proof.
  unfold validate_request_signature. fold (expected_signature config request).
  split.
  - destruct (req_headers request !! "X-Discourse-Event-Signature") as [s | ]; [ | done].
    destruct (String.eqb s ""); [done | ].
    unfold Hashlib.compare_digest.
    destruct (is_ascii s && is_ascii _); [ | done].
    destruct (String.eqb s _) eqn:Hs; [ | done].
    apply String.eqb_eq in Hs. subst s.
    destruct (req_headers request !! "X-Discourse-Instance") as [i | ]; [ | done].
    destruct (String.eqb i (server_url config)) eqn:Hi; [ | done].
    apply String.eqb_eq in Hi. by subst i.
  - intros [-> ->].
    rewrite expected_signature_not_empty.
    rewrite compare_digest_expected by apply expected_signature_ascii.
    by rewrite !String.eqb_refl.
Qed.

(** [receive_webhook] sends at most one event and does nothing else: it
    either leaves the world exactly as it was, or returns after sending
    one event, and then the request passed the verification, its body was
    parsed, and the type sent is the recognized type its event header
    names.  A call that raises has changed nothing. *)
Theorem webhook_sends_at_most_one_event (request : WebRequest) (w : World) :
  let r := receive_webhook py_repr config request w in
  (snd r = w
   \/ exists ty initiator data,
        r = (Ok tt, logged (EventSent ty initiator data) w)
        /\ validate_request_signature config request = Ok tt
        /\ req_headers request !! "X-Discourse-Event" = Some ty
        /\ (ty = "post_created" \/ ty = "topic_created")
        /\ exists body, loaded request = Some body)
  /\ (forall e, fst r = Raise e -> snd r = w).
Proof.
  cbv zeta. unfold receive_webhook, bind, lift.
  destruct (validate_request_signature config request) as [[] | e]; [ | by split; [left | ]].
  destruct (loaded request) as [body | ]; [ | by split; [left | ]].
  case_bool_decide as Hpost.
  - destruct (post_created_event py_repr config body) as [[data initiator] | e];
      [ | by split; [left | ]].
    split; [right | done]. exists "post_created", initiator, data.
    repeat split; eauto.
  - case_bool_decide as Htopic; [ | by split; [left | ]].
    destruct (topic_created_event py_repr config body) as [[data initiator] | e];
      [ | by split; [left | ]].
    split; [right | done]. exists "topic_created", initiator, data.
    repeat split; eauto.
Qed.
Lemma has_keys_cons (k : string) (keys : list string) (items : list (string * json)) :
  has_keys (k :: keys) items = true <->
  (exists v, assoc k items = Some v) /\ has_keys keys items = true.
Proof.
  unfold has_keys. simpl. rewrite andb_true_iff.
  destruct (assoc k items) as [v | ]; split; intros [H1 H2]; try done.
  - split; [by exists v | done].
  - by destruct H1.
Qed.

Lemma getitem_field (key : string) (items : list (string * json)) (v : json) :
  assoc key items = Some v ->
  getitem (JObj items) key = Ok (field key items).
Proof. intros H. unfold getitem, field. by rewrite H. Qed.

(** A verified [post_created] request whose body is an object with a
    ["post"] object that has the six keys the code reads is forwarded to
    the host as one [post_created] event: the initiator is the post's
    ["username"] with provider ["discourse"], and the data are the post's
    ["raw"], ["topic_id"] and ["id"] and the URL of the post, built from
    the server URL, the topic slug, the topic id and the post number. *)
Theorem post_created_forwarded (request : WebRequest) (w : World)
    (items post : list (string * json)) :
  validate_request_signature config request = Ok tt ->
  req_headers request !! "X-Discourse-Event" = Some "post_created" ->
  loaded request = Some (JObj items) ->
  assoc "post" items = Some (JObj post) ->
  has_keys post_keys post = true ->
  receive_webhook py_repr config request w =
  (Ok tt,
   logged
     (EventSent "post_created"
        (JObj [("user_id", field "username" post); ("provider", JStr "discourse")])
        (JObj [("raw", field "raw" post);
               ("topic_id", field "topic_id" post);
               ("id", field "id" post);
               ("url", JStr (server_url config ++ "/t/"
                             ++ py_str py_repr (field "topic_slug" post) ++ "/"
                             ++ py_str py_repr (field "topic_id" post) ++ "/"
                             ++ py_str py_repr (field "post_number" post)))]))
     w).
Proof.
  intros Hv He Hl Hp Hk.
  unfold post_keys in Hk.
  repeat (apply has_keys_cons in Hk as [[? ?] Hk]).
  unfold receive_webhook, bind, lift. rewrite Hv, He, Hl.
  rewrite bool_decide_eq_true_2 by done.
  unfold post_created_event, dict_get. rewrite Hp.
  change (default JNull (Some (JObj post))) with (JObj post).
  unfold construct_post_url.
  by erewrite !getitem_field by eassumption.
Qed.

(** The same for [topic_created]: the topic must have the six keys the
    code reads, and its ["created_by"] must be an object with a
    ["username"].  The data are the topic's ["title"], ["id"], ["tags"],
    its ["category_id"] under the name ["category"], and the URL of the
    topic, built from the server URL, the slug and the id. *)
Theorem topic_created_forwarded (request : WebRequest) (w : World)
    (items topic creator : list (string * json)) (user : json) :
  validate_request_signature config request = Ok tt ->
  req_headers request !! "X-Discourse-Event" = Some "topic_created" ->
  loaded request = Some (JObj items) ->
  assoc "topic" items = Some (JObj topic) ->
  has_keys topic_keys topic = true ->
  assoc "created_by" topic = Some (JObj creator) ->
  assoc "username" creator = Some user ->
  receive_webhook py_repr config request w =
  (Ok tt,
   logged
     (EventSent "topic_created"
        (JObj [("user_id", user); ("provider", JStr "discourse")])
        (JObj [("title", field "title" topic);
               ("id", field "id" topic);
               ("tags", field "tags" topic);
               ("category", field "category_id" topic);
               ("url", JStr (server_url config ++ "/t/"
                             ++ py_str py_repr (field "slug" topic) ++ "/"
                             ++ py_str py_repr (field "id" topic)))]))
     w).
Proof.
  intros Hv He Hl Ht Hk Hc Hu.
  unfold topic_keys in Hk.
  repeat (apply has_keys_cons in Hk as [[? ?] Hk]).
  unfold receive_webhook, bind, lift. rewrite Hv, He, Hl.
  rewrite bool_decide_eq_false_2 by done.
  rewrite bool_decide_eq_true_2 by done.
  unfold topic_created_event, dict_get. rewrite Ht.
  change (default JNull (Some (JObj topic))) with (JObj topic).
  unfold construct_topic_url.
  erewrite !getitem_field by eassumption.
  replace (field "created_by" topic) with (JObj creator)
    by (unfold field; by rewrite Hc).
  unfold getitem. by rewrite Hu.
Qed.
(** A verified request of a recognized type whose body does not have
    the shape the code reads makes [receive_webhook] raise, and which
    exception tells what is wrong: [AttributeError] when the body is not
    an object, [TypeError] when its ["post"] (or ["topic"]) is absent or
    not an object, and also when the ["created_by"] of a topic that has
    all its keys is not an object, [KeyError] when the post (or topic)
    lacks one of the keys read, and also when the ["created_by"] object
    has no ["username"].  In each of these cases nothing is sent and
    nothing is changed. *)
Theorem malformed_event_raises (request : WebRequest) (w : World) (body : json) :
  validate_request_signature config request = Ok tt ->
  loaded request = Some body ->
  let received := receive_webhook py_repr config request w in
  (req_headers request !! "X-Discourse-Event" = Some "post_created" ->
   ((forall items, body <> JObj items) -> received = (Raise AttributeError, w))
   /\ (forall items, body = JObj items ->
        (forall post, assoc "post" items <> Some (JObj post)) ->
        received = (Raise TypeError, w))
   /\ (forall items post, body = JObj items ->
        assoc "post" items = Some (JObj post) ->
        has_keys post_keys post = false ->
        received = (Raise KeyError, w)))
  /\ (req_headers request !! "X-Discourse-Event" = Some "topic_created" ->
      ((forall items, body <> JObj items) -> received = (Raise AttributeError, w))
      /\ (forall items, body = JObj items ->
           (forall topic, assoc "topic" items <> Some (JObj topic)) ->
           received = (Raise TypeError, w))
      /\ (forall items topic, body = JObj items ->
           assoc "topic" items = Some (JObj topic) ->
           has_keys topic_keys topic = false ->
           received = (Raise KeyError, w))
      /\ (forall items topic, body = JObj items ->
           assoc "topic" items = Some (JObj topic) ->
           has_keys topic_keys topic = true ->
           (forall creator, assoc "created_by" topic <> Some (JObj creator)) ->
           received = (Raise TypeError, w))
      /\ (forall items topic creator, body = JObj items ->
           assoc "topic" items = Some (JObj topic) ->
           has_keys topic_keys topic = true ->
           assoc "created_by" topic = Some (JObj creator) ->
           assoc "username" creator = None ->
           received = (Raise KeyError, w))).
Proof.
  intros Hv Hl received. subst received.
  unfold receive_webhook, bind, lift. rewrite Hv, Hl.
  split; intros He; rewrite He.
  - rewrite bool_decide_eq_true_2 by done.
    unfold post_created_event, construct_post_url, dict_get.
    split; [ | split].
    + intros Hb. destruct body; try done. by destruct (Hb items).
    + intros items -> Hp.
      destruct (assoc "post" items) as [[ | | | | | post] | ]; try done.
      by destruct (Hp post).
    + intros items post -> Hp Hk. rewrite Hp.
      change (default JNull (Some (JObj post))) with (JObj post).
      unfold has_keys, post_keys in Hk. simpl in Hk. unfold getitem.
      destruct (assoc "raw" post), (assoc "topic_id" post), (assoc "id" post),
        (assoc "topic_slug" post), (assoc "post_number" post),
        (assoc "username" post); done.
  - rewrite bool_decide_eq_false_2 by done.
    rewrite bool_decide_eq_true_2 by done.
    unfold topic_created_event, construct_topic_url, dict_get.
    split; [ | split; [ | split; [ | split]]].
    + intros Hb. destruct body; try done. by destruct (Hb items).
    + intros items -> Hp.
      destruct (assoc "topic" items) as [[ | | | | | topic] | ]; try done.
      by destruct (Hp topic).
    + intros items topic -> Hp Hk. rewrite Hp.
      change (default JNull (Some (JObj topic))) with (JObj topic).
      unfold has_keys, topic_keys in Hk. simpl in Hk. unfold getitem.
      destruct (assoc "title" topic), (assoc "id" topic), (assoc "tags" topic),
        (assoc "category_id" topic), (assoc "slug" topic),
        (assoc "created_by" topic); done.
    + intros items topic -> Hp Hk Hc. rewrite Hp.
      change (default JNull (Some (JObj topic))) with (JObj topic).
      unfold topic_keys in Hk.
      repeat (apply has_keys_cons in Hk as [[? ?] Hk]).
      erewrite !getitem_field by eassumption.
      unfold field at 1.
      destruct (assoc "created_by" topic) as [[ | | | | | creator] | ]; try done.
      by destruct (Hc creator).
    + intros items topic creator -> Hp Hk Hc Hu. rewrite Hp.
      change (default JNull (Some (JObj topic))) with (JObj topic).
      unfold topic_keys in Hk.
      repeat (apply has_keys_cons in Hk as [[? ?] Hk]).
      erewrite !getitem_field by eassumption.
      unfold field at 1. rewrite Hc. simpl. by rewrite Hu.
Qed.
End WebhookEvents.

(** A delivery of a new post, for [post_created_forwarded]. *)
Lemma post_created_forwarded_witness :
  let request := Samples.delivery "post_created" "{...}"
                   (Some (JObj [("post", JObj MoreSamples.post_19)])) in
  Discourse.validate_request_signature Samples.forum request = Ok tt
  /\ Invariants.has_keys Invariants.post_keys MoreSamples.post_19 = true
  /\ effects (snd (Discourse.receive_webhook Samples.repr_unused Samples.forum request
                     Samples.fresh))
     = [EventSent "post_created"
          (JObj [("user_id", JStr "alice"); ("provider", JStr "discourse")])
          (JObj [("raw", JStr "hi there"); ("topic_id", JInt 7); ("id", JInt 19);
                 ("url", JStr "https://forum.example/t/hello/7/2")])].
Proof.
  assert (Hv : Discourse.validate_request_signature Samples.forum
                 (Samples.delivery "post_created" "{...}"
                    (Some (JObj [("post", JObj MoreSamples.post_19)]))) = Ok tt)
    by (vm_compute; reflexivity).
  split; [exact Hv | ]. split; [reflexivity | ].
  rewrite (post_created_forwarded Samples.repr_unused Samples.forum _ Samples.fresh
             [("post", JObj MoreSamples.post_19)] MoreSamples.post_19
             Hv eq_refl eq_refl eq_refl eq_refl).
  reflexivity.
Defined.

(** A delivery of a new topic, for [topic_created_forwarded]. *)
Lemma topic_created_forwarded_witness :
  let request := Samples.delivery "topic_created" "{...}"
                   (Some (JObj [("topic", JObj MoreSamples.topic_7)])) in
  Discourse.validate_request_signature Samples.forum request = Ok tt
  /\ Invariants.has_keys Invariants.topic_keys MoreSamples.topic_7 = true
  /\ effects (snd (Discourse.receive_webhook Samples.repr_unused Samples.forum request
                     Samples.fresh))
     = [EventSent "topic_created"
          (JObj [("user_id", JStr "alice"); ("provider", JStr "discourse")])
          (JObj [("title", JStr "Hello"); ("id", JInt 7);
                 ("tags", JList [JStr "intro"]); ("category", JInt 3);
                 ("url", JStr "https://forum.example/t/hello/7")])].
Proof.
  assert (Hv : Discourse.validate_request_signature Samples.forum
                 (Samples.delivery "topic_created" "{...}"
                    (Some (JObj [("topic", JObj MoreSamples.topic_7)]))) = Ok tt)
    by (vm_compute; reflexivity).
  split; [exact Hv | ]. split; [reflexivity | ].
  rewrite (topic_created_forwarded Samples.repr_unused Samples.forum _ Samples.fresh
             [("topic", JObj MoreSamples.topic_7)] MoreSamples.topic_7
             [("username", JStr "alice")] (JStr "alice")
             Hv eq_refl eq_refl eq_refl eq_refl eq_refl eq_refl).
  reflexivity.
Defined.

(** A delivery of a post without its text, for [malformed_event_raises]. *)
Lemma malformed_event_raises_witness :
  let post := [("id", JInt 19); ("topic_id", JInt 7)] in
  let request := Samples.delivery "post_created" "{...}"
                   (Some (JObj [("post", JObj post)])) in
  Discourse.validate_request_signature Samples.forum request = Ok tt
  /\ Discourse.receive_webhook Samples.repr_unused Samples.forum request Samples.fresh
     = (Raise KeyError, Samples.fresh).
Proof.
  assert (Hv : Discourse.validate_request_signature Samples.forum
                 (Samples.delivery "post_created" "{...}"
                    (Some (JObj [("post", JObj [("id", JInt 19); ("topic_id", JInt 7)])])))
               = Ok tt)
    by (vm_compute; reflexivity).
  split; [exact Hv | ].
  destruct (malformed_event_raises Samples.repr_unused Samples.forum _ Samples.fresh _
              Hv eq_refl) as [Hpost _].
  destruct (Hpost eq_refl) as (_ & _ & Hkeys).
  exact (Hkeys _ _ eq_refl eq_refl eq_refl).
Defined.

(** ** More on the reconciliation: labels, sequences, what is persisted *)

Section ReconciliationMore.
Import DiscoursePoll Invariants.

Implicit Types (opts : list PollOption) (poll : Poll) (w : World).

Lemma observed_is_Some opts (k : string) :
  is_Some (observed opts !! k) <-> k ∈ labels opts.
Proof.
  split.
  - intros [c Hc]. apply observed_lookup_Some in Hc as (o & Ho & <- & _).
    unfold labels. apply list_elem_of_In, in_map. by apply list_elem_of_In.
  - intros Hk. apply not_eq_None_Some. intros Hn.
    unfold observed in Hn. apply not_elem_of_list_to_map in Hn.
    by rewrite labels_fmap in Hn.
Qed.

(** Reconciliation never drops a label: after it the labels of the votes
    are the stored labels together with the labels of the snapshot.  An
    option that the remote poll no longer has keeps its last count. *)
Theorem reconciliation_keeps_labels poll w :
  let stored := default ∅ (votes (outcome w)) in
  let merged :=
    default ∅ (votes (outcome (snd (update_outcome_from_discourse_poll poll w)))) in
  (forall k, is_Some (merged !! k)
             <-> is_Some (stored !! k) \/ k ∈ labels (poll_options poll))
  /\ (forall k c, stored !! k = Some c -> k ∉ labels (poll_options poll) ->
        merged !! k = Some c).
Proof.
  intros stored merged. subst merged. rewrite reconcile_votes. fold stored.
  split.
  - intros k. rewrite lookup_union_is_Some, observed_is_Some. tauto.
  - intros k c Hk Hn. rewrite lookup_union_r; [done | ].
    by apply observed_lookup_None.
Qed.

Lemma reconcile_writes poll w :
  let w' := snd (update_outcome_from_discourse_poll poll w) in
  (writes w <= writes w' <= S (writes w))%nat.
Proof.
  cbv zeta. rewrite reconcile_unfold. cbv zeta.
  destruct (snd _ || _); simpl; [ | lia].
  unfold writes. simpl. rewrite List.filter_app, length_app. simpl. lia.
Qed.

Lemma reconcile_all_cons poll (polls : list Poll) w :
  reconcile_all (poll :: polls) w
  = reconcile_all polls (snd (update_outcome_from_discourse_poll poll w)).
Proof. done. Qed.

(** Reconciliations one after the other.  After any sequence of
    snapshots the status is ["completed"] if one of them was closed and
    what it was before otherwise, so a closed poll stays completed
    whatever is observed later; the votes are the stored votes overlaid
    with each snapshot in turn; the poll URL, the datastore and the
    caller's dictionary are as before; and the record was persisted at
    most once for each snapshot. *)
Theorem reconcile_all_result (polls : list Poll) w :
  let w' := reconcile_all polls w in
  status w' = (if existsb is_closed polls then value COMPLETED else status w)
  /\ default ∅ (votes (outcome w'))
     = fold_left (fun m p => observed (poll_options p) ∪ m) polls
         (default ∅ (votes (outcome w)))
  /\ poll_url (outcome w') = poll_url (outcome w)
  /\ state w' = state w
  /\ parameters w' = parameters w
  /\ (writes w <= writes w' <= writes w + length polls)%nat.
Proof.
  revert w. induction polls as [ | p polls IH]; intros w.
  - cbn. repeat split; lia.
  - cbv zeta. rewrite reconcile_all_cons.
    destruct (IH (snd (update_outcome_from_discourse_poll p w)))
      as (Hs & Hv & Hu & Hst & Hp & Hw).
    destruct (reconcile_frame p w) as (_ & Hu1 & Hs1 & Hst1 & Hp1).
    pose proof (reconcile_writes p w) as Hw1. cbv zeta in Hw1.
    rewrite Hs, Hv, Hu, Hst, Hp, Hs1, Hu1, Hst1, Hp1, reconcile_votes.
    repeat split; simpl; try lia.
    unfold is_closed at 2.
    by destruct (existsb is_closed polls), (String.eqb (poll_status p) "closed").
Qed.

Lemma last_saved_snoc (es : list Effect) (e : Effect) :
  last_saved (es ++ [e])
  = match e with Saved s o => Some (s, o) | _ => last_saved es end.
Proof. unfold last_saved. by rewrite fold_left_app. Qed.

Lemma in_sync_logged_call w (call : Request) :
  in_sync w -> in_sync (logged (HttpCall call) w).
Proof. unfold in_sync, logged. simpl. by rewrite last_saved_snoc. Qed.

End ReconciliationMore.

(** ** More on the life cycle: failures, frames and how the methods compose *)

Section LifecycleMore.
Import DiscoursePoll Invariants.
Variable py_repr : json -> string.
Variable config : Config.

(** [start] does all or nothing.  Either it returns, and then the status
    is ["pending"], the outcome has a poll URL and no votes, the datastore
    has the three identifiers and the record was persisted once; or it
    raises, and then its only effect is the request it sent.  It returns
    exactly when the response has a success status and a body that is a
    JSON object whose ["errors"] is absent or false.  A success response
    whose body is not JSON raises the decoding error, one whose body is
    JSON but not an object raises [AttributeError]. *)
Theorem start_all_or_nothing (remote : Request -> Response json)
    (parameters : Parameters) (w : World) :
  let call := start_call config parameters in
  let resp := remote call in
  let r := start py_repr config remote parameters w in
  ((fst r = Ok tt
    /\ status (snd r) = value PENDING
    /\ is_Some (poll_url (outcome (snd r)))
    /\ votes (outcome (snd r)) = None
    /\ is_Some (state (snd r) !! "post_id")
    /\ is_Some (state (snd r) !! "topic_id")
    /\ is_Some (state (snd r) !! "topic_slug")
    /\ writes (snd r) = S (writes w))
   \/ (exists e, fst r = Raise e /\ snd r = logged (HttpCall call) w))
  /\ (fst r = Ok tt <->
      ok resp = true
      /\ exists items, decoded resp = Some (JObj items)
                       /\ truthy (field "errors" items) = false)
  /\ (ok resp = true -> decoded resp = None -> fst r = Raise JSONDecodeError)
  /\ (forall j, ok resp = true -> decoded resp = Some j ->
        (forall items, j <> JObj items) -> fst r = Raise AttributeError).
Proof.
  intros call resp r. subst r. rewrite start_unfold. cbv zeta. fold call resp.
  destruct (ok resp) eqn:Hok; simpl.
  - destruct (decoded resp) as [j | ] eqn:Hbody.
    + destruct j as [ | b | n | s | l | items];
        try (split; [right; by eexists | ];
             split; [split; [done | by intros (_ & ? & [=] & _)] | ];
             split; [done | by intros ? _ [= <-] _]).
      fold (field "errors" items).
      destruct (truthy (field "errors" items)) eqn:Herr.
      * split; [right; by eexists | ].
        split; [split; [done | intros (_ & ? & [= <-] & ?); congruence] | ].
        split; [done | ]. intros ? _ [= <-] Hno. by destruct (Hno items).
      * split.
        { left. simpl. split_and!; try done.
          - rewrite !lookup_insert_ne by done. by rewrite lookup_insert_eq.
          - rewrite lookup_insert_ne by done. by rewrite lookup_insert_eq.
          - by rewrite lookup_insert_eq.
          - unfold writes. simpl. rewrite List.filter_app, length_app. simpl. lia. }
        split; [split; [by eauto | done] | ].
        split; [done | ]. intros ? _ [= <-] Hno. by destruct (Hno items).
    + split; [right; by eexists | ].
      split; [split; [done | by intros (_ & ? & [=] & _)] | done].
  - split; [right; by eexists | ].
    split; [split; [done | by intros [[=] _]] | done].
Qed.

Lemma update_effects (remote : Request -> Response TopicView) (w : World) :
  exists es,
    effects (snd (update py_repr config remote w))
    = (effects w ++ HttpCall (update_call py_repr config
                                (default JNull (state w !! "topic_id"))) :: es)%list.
Proof.
  rewrite update_unfold. cbv zeta.
  destruct (negb _); [by exists [] | ].
  destruct (decoded _) as [response | ]; [ | by exists []].
  destruct (posts _) as [ | topic_post ?]; [by exists [] | ].
  destruct (polls _) as [ | p ?]; [by exists [] | ].
  destruct (reconcile_effects p (logged (HttpCall (update_call py_repr config
              (default JNull (state w !! "topic_id")))) w)) as [es Hes].
  exists es. rewrite Hes. simpl. by rewrite <- app_assoc.
Qed.

Lemma close_effects (remote : Request -> Response Toggled) (w : World) :
  exists es,
    effects (snd (close config remote w))
    = (effects w ++ HttpCall (close_call config
                                (default JNull (state w !! "post_id"))) :: es)%list.
Proof.
  rewrite close_unfold. cbv zeta.
  destruct (negb _); [by exists [] | ].
  destruct (decoded _) as [toggled | ]; [ | by exists []].
  destruct (reconcile_effects (poll toggled) (logged (HttpCall (close_call config
              (default JNull (state w !! "post_id")))) w)) as [es Hes].
  exists es. rewrite Hes. simpl. by rewrite <- app_assoc.
Qed.

(** What [start] stores is what [update] and [close] use.  After a
    [start] that succeeded, the first thing [update] does is to request
    the topic whose id the remote assigned, at the server URL followed by
    [/t/<topic_id>.json], and the first thing [close] does is to send the
    toggle for the post whose id the remote assigned, with poll name
    ["poll"] and status ["closed"]. *)
Theorem start_then_update_close (remote : Request -> Response json)
    (parameters : Parameters) (w : World) (items : list (string * json)) :
  let resp := remote (start_call config parameters) in
  ok resp = true ->
  decoded resp = Some (JObj items) ->
  truthy (field "errors" items) = false ->
  let w1 := snd (start py_repr config remote parameters w) in
  (forall remote_u, exists call es,
      effects (snd (update py_repr config remote_u w1))
      = (effects w1 ++ HttpCall call :: es)%list
      /\ method call = "GET"
      /\ url call = server_url config ++ "/t/"
                    ++ py_str py_repr (field "topic_id" items) ++ ".json")
  /\ (forall remote_c, exists call es,
        effects (snd (close config remote_c w1))
        = (effects w1 ++ HttpCall call :: es)%list
        /\ method call = "PUT"
        /\ url call = server_url config ++ "/polls/toggle_status"
        /\ kw_data call
           = Some (<["status" := JStr "closed"]>
                     (<["poll_name" := JStr "poll"]>
                        (<["post_id" := field "id" items]> ∅)))).
Proof.
  intros resp Hok Hbody Herr w1.
  assert (Hstate : state w1 !! "topic_id" = Some (field "topic_id" items)
                   /\ state w1 !! "post_id" = Some (field "id" items)).
  { subst w1. rewrite start_unfold. cbv zeta. fold resp.
    rewrite Hok, Hbody. simpl. fold (field "errors" items). rewrite Herr. simpl.
    split.
    - rewrite lookup_insert_ne by done. by rewrite lookup_insert_eq.
    - rewrite !lookup_insert_ne by done. by rewrite lookup_insert_eq. }
  destruct Hstate as [Htopic Hpost].
  split.
  - intros remote_u. destruct (update_effects remote_u w1) as [es Hes].
    rewrite Htopic in Hes. by eexists _, es.
  - intros remote_c. destruct (close_effects remote_c w1) as [es Hes].
    rewrite Hpost in Hes. by eexists _, es.
Qed.

(** [update] and [close] on a process whose datastore has no identifier,
    as before [start]: [state.get] gives [None], so [update] still sends
    a request, for the topic ["None"], and [close] still sends the toggle,
    with [None] as the post id. *)
Theorem update_close_before_start (w : World) :
  (state w !! "topic_id" = None ->
   forall remote_u, exists call es,
     effects (snd (update py_repr config remote_u w))
     = (effects w ++ HttpCall call :: es)%list
     /\ url call = server_url config ++ "/t/None.json")
  /\ (state w !! "post_id" = None ->
      forall remote_c, exists call es,
        effects (snd (close config remote_c w))
        = (effects w ++ HttpCall call :: es)%list
        /\ kw_data call
           = Some (<["status" := JStr "closed"]>
                     (<["poll_name" := JStr "poll"]> (<["post_id" := JNull]> ∅)))).
Proof.
  split.
  - intros Hno remote_u. destruct (update_effects remote_u w) as [es Hes].
    rewrite Hno in Hes. by eexists _, es.
  - intros Hno remote_c. destruct (close_effects remote_c w) as [es Hes].
    rewrite Hno in Hes. by eexists _, es.
Qed.
End LifecycleMore.

(** ** More on the client: what the actions return and what they leave alone *)

Section ClientMore.
Import Discourse DiscourseActions Invariants.
Variable py_repr : json -> string.
Variable json_dumps : json -> string.
Variable config : Config.
Variable remote : Request -> Response json.

Lemma create_post_full (w : World) :
  let p0 := delete "initiator" (parameters w) in
  let username := default (JStr "system") (parameters w !! "initiator") in
  let call := api_call config "POST" "posts.json" username (Some p0) None in
  let resp := remote call in
  fst (create_post py_repr config remote w) =
  match (if negb (ok resp) then Raise (PluginErrorInternal (text resp))
         else if negb (String.eqb (content resp) "") then json_of resp
         else Ok JNull) with
  | Ok post => construct_post_response py_repr config post
  | Raise e => Raise e
  end.
Proof.
  cbv zeta. destruct w as [st o s p es]. simpl.
  unfold create_post, bind, pop_default, get_parameters, set_parameters, lift. simpl.
  destruct (p !! "initiator") as [u | ] eqn:Hu; simpl.
  - rewrite discourse_request_unfold. cbv zeta. simpl.
    by destruct (if negb _ then _ else _).
  - rewrite (delete_id p "initiator") by done.
    rewrite discourse_request_unfold. cbv zeta. simpl.
    by destruct (if negb _ then _ else _).
Qed.

(** What [create_post] returns.  When the remote answers with a success
    status and a post that has the four keys read, it returns the URL of
    the post with its topic id and, under ["post_id"], its id.  When the
    remote answers with a success status and an empty body, the post is
    [None] and reading it raises [TypeError], after the request was sent.
    When the remote answers with a non-success status it raises
    [PluginErrorInternal] with the text of the response.  [create_topic]
    is the same computation. *)
Theorem create_post_result (w : World) :
  let p0 := delete "initiator" (parameters w) in
  let username := default (JStr "system") (parameters w !! "initiator") in
  let call := api_call config "POST" "posts.json" username (Some p0) None in
  let resp := remote call in
  let r := create_post py_repr config remote w in
  (forall post, ok resp = true -> content resp <> "" ->
     decoded resp = Some (JObj post) ->
     has_keys response_keys post = true ->
     fst r = Ok (JObj [("url", JStr (server_url config ++ "/t/"
                                     ++ py_str py_repr (field "topic_slug" post) ++ "/"
                                     ++ py_str py_repr (field "topic_id" post) ++ "/"
                                     ++ py_str py_repr (field "post_number" post)));
                       ("topic_id", field "topic_id" post);
                       ("post_id", field "id" post)]))
  /\ (ok resp = true -> content resp = "" ->
      fst r = Raise TypeError
      /\ effects (snd r) = (effects w ++ [HttpCall call])%list)
  /\ (ok resp = false -> fst r = Raise (PluginErrorInternal (text resp)))
  /\ create_topic py_repr config remote w = r.
Proof.
  intros p0 username call resp r. subst r.
  pose proof (create_post_full w) as Hfst. cbv zeta in Hfst.
  fold p0 username call resp in Hfst. rewrite Hfst.
  split; [ | split; [ | split]].
  - intros post -> Hne Hbody Hk. apply String.eqb_neq in Hne. rewrite Hne. simpl.
    unfold json_of. rewrite Hbody.
    unfold response_keys in Hk.
    repeat (apply has_keys_cons in Hk as [[? ?] Hk]).
    unfold construct_post_response, construct_post_url.
    by erewrite !getitem_field by eassumption.
  - intros -> ->. simpl. split; [done | ].
    by rewrite create_post_unfold.
  - by intros ->.
  - done.
Qed.
Lemma acts_on_id_intro (method : string) (route : json -> string) (action : M json) :
  (forall w,
     action w =
     bind (parameter "id")
       (fun id =>
          bind (discourse_request config remote method (route id) (JStr "system") None None)
            (fun _ => ret (JObj []))) w) ->
  acts_on_id config remote method route action.
Proof.
  intros Hact w. rewrite Hact.
  destruct (parameters w !! "id") as [id | ] eqn:Hid.
  - unfold bind at 1. unfold parameter. rewrite Hid.
    unfold bind. rewrite discourse_request_unfold. cbv zeta. unfold ret.
    destruct (negb (ok _)); [done | ].
    destruct (negb (String.eqb _ _)); [ | done].
    unfold json_of. by destruct (decoded _).
  - unfold bind, parameter. by rewrite Hid.
Qed.

(** The four actions on a post or topic given by its id.  [delete_post]
    sends DELETE to [posts/<id>], [delete_topic] DELETE to [t/<id>.json],
    [recover_post] PUT to [posts/<id>/recover] and [recover_topic] PUT to
    [t/<id>/recover]; each does so as user ["system"], without payload,
    and only when the caller's dictionary has an ["id"]: without one it
    raises [KeyError] and sends nothing.  None of them changes the
    caller's dictionary or anything else, and each returns the empty dict
    whenever the remote call returns, whatever the remote answered. *)
Theorem id_actions_behaviour :
  acts_on_id config remote "DELETE" (fun id => "posts/" ++ py_str py_repr id)
    (delete_post py_repr config remote)
  /\ acts_on_id config remote "DELETE" (fun id => "t/" ++ py_str py_repr id ++ ".json")
       (delete_topic py_repr config remote)
  /\ acts_on_id config remote "PUT" (fun id => "posts/" ++ py_str py_repr id ++ "/recover")
       (recover_post py_repr config remote)
  /\ acts_on_id config remote "PUT" (fun id => "t/" ++ py_str py_repr id ++ "/recover")
       (recover_topic py_repr config remote).
Proof. repeat split; by apply acts_on_id_intro. Qed.

(** [lock_post] reads ["id"] and then ["locked"] in the caller's
    dictionary and raises [KeyError], sending nothing, when either is
    missing.  Otherwise it sends one PUT to [posts/<id>/locked] whose form
    data is the single field ["locked"], the JSON text of the value
    (["true"] or ["false"] for a boolean), leaves the caller's dictionary
    as it was, and returns what the remote call returns: the parsed
    answer, or [None] for an empty body. *)
Theorem lock_post_behaviour (w : World) :
  let action := lock_post py_repr json_dumps config remote in
  (parameters w !! "id" = None -> action w = (Raise KeyError, w))
  /\ (parameters w !! "locked" = None -> action w = (Raise KeyError, w))
  /\ (forall id locked,
        parameters w !! "id" = Some id ->
        parameters w !! "locked" = Some locked ->
        let data : gmap string json := <["locked" := JStr (dumps json_dumps locked)]> ∅ in
        let call := api_call config "PUT" ("posts/" ++ py_str py_repr id ++ "/locked")
                      (JStr "system") None (Some data) in
        let resp := remote call in
        snd (action w) = logged (HttpCall call) w
        /\ (ok resp = false -> fst (action w) = Raise (PluginErrorInternal (text resp)))
        /\ (ok resp = true -> content resp = "" -> fst (action w) = Ok JNull)
        /\ (forall parsed, ok resp = true -> content resp <> "" ->
              decoded resp = Some parsed -> fst (action w) = Ok parsed)
        /\ (forall b, locked = JBool b ->
              data = <["locked" := JStr (if b then "true" else "false")]> ∅)).
Proof.
  intros action. subst action. unfold lock_post.
  split; [ | split].
  - intros Hid. unfold bind, parameter. by rewrite Hid.
  - intros Hl. unfold bind, parameter.
    destruct (parameters w !! "id"); [ | done]. by rewrite Hl.
  - intros id locked Hid Hl. cbv zeta.
    assert (Hrun : bind (parameter "id")
                     (fun post_id =>
                        bind (parameter "locked")
                          (fun locked =>
                             discourse_request config remote "PUT"
                               ("posts/" ++ py_str py_repr post_id ++ "/locked")
                               (JStr "system") None
                               (Some (<["locked" := JStr (dumps json_dumps locked)]> ∅)))) w
                   = discourse_request config remote "PUT"
                       ("posts/" ++ py_str py_repr id ++ "/locked")
                       (JStr "system") None
                       (Some (<["locked" := JStr (dumps json_dumps locked)]> ∅)) w).
    { unfold bind, parameter. rewrite Hid. cbv beta iota. by rewrite Hl. }
    rewrite Hrun, discourse_request_unfold. cbv zeta. simpl.
    split; [done | ]. split; [by intros -> | ]. split; [by intros -> -> | ].
    split.
    + intros parsed -> Hne Hp. simpl. apply String.eqb_neq in Hne. rewrite Hne.
      simpl. unfold json_of. by rewrite Hp.
    + intros b ->. by destruct b.
Qed.

(** [initialize] never looks at the status of the response.  Whatever
    the status, when the body of [about.json] is a JSON object whose
    ["about"] is an object, [initialize] stores its ["title"] ([None]
    when there is none) under ["community_name"] in the datastore and
    returns; that is its only change.  When ["about"] is absent or not
    an object, or the body is JSON but not an object, it raises
    [AttributeError]; when the body is not JSON it raises the decoding
    error; in both cases nothing is stored. *)
Theorem initialize_result (w : World) :
  let call := about_call config in
  let resp := remote call in
  let r := initialize config remote w in
  (forall items about,
     decoded resp = Some (JObj items) ->
     assoc "about" items = Some (JObj about) ->
     fst r = Ok tt
     /\ state (snd r) = <["community_name" := field "title" about]> (state w)
     /\ effects (snd r)
        = (effects w ++ [HttpCall call; StateSet "community_name" (field "title" about)])%list
     /\ status (snd r) = status w /\ outcome (snd r) = outcome w
     /\ parameters (snd r) = parameters w)
  /\ (forall items,
        decoded resp = Some (JObj items) ->
        (forall about, assoc "about" items <> Some (JObj about)) ->
        r = (Raise AttributeError, logged (HttpCall call) w))
  /\ (forall j, decoded resp = Some j -> (forall items, j <> JObj items) ->
        r = (Raise AttributeError, logged (HttpCall call) w))
  /\ (decoded resp = None -> r = (Raise JSONDecodeError, logged (HttpCall call) w)).
Proof.
  intros call resp r. subst r.
  unfold initialize, bind, request, emit, lift, json_of, state_set, emit. simpl.
  fold call resp.
  split; [ | split; [ | split]].
  - intros items about -> Ha. simpl. rewrite Ha. simpl.
    repeat split; try done. by rewrite <- app_assoc.
  - intros items -> Hno. simpl.
    destruct (assoc "about" items) as [[ | | | | | about] | ]; try done.
    by destruct (Hno about).
  - intros j -> Hno. destruct j; try done. by destruct (Hno items).
  - by intros ->.
Qed.
End ClientMore.

(** ** The further properties at sample inputs *)

(** A poll created as topic 7, post 19, for [start_then_update_close]:
    [update] then asks for [/t/7.json] and [close] toggles post 19. *)
Lemma start_then_update_close_witness :
  let w1 := snd (DiscoursePoll.start Samples.repr_unused Samples.forum Samples.created
                   Samples.pick_a_color Samples.fresh) in
  (exists call es,
      effects (snd (DiscoursePoll.update Samples.repr_unused Samples.forum
                      Samples.failing w1))
      = (effects w1 ++ HttpCall call :: es)%list
      /\ url call = "https://forum.example/t/7.json")
  /\ (exists call es,
        effects (snd (DiscoursePoll.close Samples.forum Samples.failing w1))
        = (effects w1 ++ HttpCall call :: es)%list
        /\ kw_data call
           = Some (<["status" := JStr "closed"]>
                     (<["poll_name" := JStr "poll"]> (<["post_id" := JInt 19]> ∅)))).
Proof.
  destruct (start_then_update_close Samples.repr_unused Samples.forum Samples.created
              Samples.pick_a_color Samples.fresh
              [("id", JInt 19); ("topic_id", JInt 7); ("topic_slug", JStr "pick-a-color")]
              eq_refl eq_refl eq_refl) as [Hupdate Hclose].
  split.
  - destruct (Hupdate Samples.failing) as (call & es & He & _ & Hurl).
    exists call, es. split; [exact He | exact Hurl].
  - destruct (Hclose Samples.failing) as (call & es & He & _ & _ & Hdata).
    exists call, es. split; [exact He | exact Hdata].
Defined.

(** A process that was never started, for [update_close_before_start]. *)
Lemma update_close_before_start_witness :
  state Samples.fresh !! "topic_id" = None
  /\ exists call es,
       effects (snd (DiscoursePoll.update Samples.repr_unused Samples.forum
                       Samples.failing Samples.fresh))
       = (effects Samples.fresh ++ HttpCall call :: es)%list
       /\ url call = "https://forum.example/t/None.json".
Proof.
  split; [reflexivity | ].
  destruct (update_close_before_start Samples.repr_unused Samples.forum Samples.fresh)
    as [Hupdate _].
  exact (Hupdate eq_refl Samples.failing).
Defined.

(** A reply that the remote creates as post 19, for [create_post_result]. *)
Lemma create_post_result_witness :
  fst (Discourse.create_post Samples.repr_unused Samples.forum Samples.posted
         MoreSamples.reply_by_alice)
  = Ok (JObj [("url", JStr "https://forum.example/t/hello/7/1");
              ("topic_id", JInt 7); ("post_id", JInt 19)]).
Proof.
  destruct (create_post_result Samples.repr_unused Samples.forum Samples.posted
              MoreSamples.reply_by_alice) as [Hcreated _].
  refine (Hcreated [("id", JInt 19); ("topic_id", JInt 7);
                    ("topic_slug", JStr "hello"); ("post_number", JInt 1)]
            eq_refl _ eq_refl eq_refl).
  discriminate.
Defined.

(** Locking post 19 at a remote that answers with an empty body, for
    [lock_post_behaviour]. *)
Lemma lock_post_behaviour_witness :
  let action := DiscourseActions.lock_post Samples.repr_unused MoreSamples.dumps_unused
                  Samples.forum MoreSamples.silent in
  let call := Discourse.api_call Samples.forum "PUT" "posts/19/locked" (JStr "system")
                None (Some (<["locked" := JStr "true"]> ∅)) in
  parameters MoreSamples.about_post_19 !! "id" = Some (JInt 19)
  /\ parameters MoreSamples.about_post_19 !! "locked" = Some (JBool true)
  /\ snd (action MoreSamples.about_post_19) = logged (HttpCall call) MoreSamples.about_post_19
  /\ fst (action MoreSamples.about_post_19) = Ok JNull.
Proof.
  cbv zeta.
  destruct (lock_post_behaviour Samples.repr_unused MoreSamples.dumps_unused
              Samples.forum MoreSamples.silent MoreSamples.about_post_19)
    as (_ & _ & Hlock).
  destruct (Hlock (JInt 19) (JBool true) eq_refl eq_refl) as (Hsnd & _ & Hfst & _).
  split; [reflexivity | ]. split; [reflexivity | ].
  split; [exact Hsnd | exact (Hfst eq_refl eq_refl)].
Defined.

(** A forum that answers [about.json] with a 500 whose body is the
    description, for [initialize_result]: the name is stored all the same. *)
Lemma initialize_result_witness :
  let r := DiscourseActions.initialize Samples.forum MoreSamples.degraded Samples.fresh in
  ok (MoreSamples.degraded (DiscourseActions.about_call Samples.forum)) = false
  /\ fst r = Ok tt
  /\ state (snd r) = <["community_name" := JStr "Example Forum"]> ∅.
Proof.
  cbv zeta. split; [reflexivity | ].
  destruct (initialize_result Samples.forum MoreSamples.degraded Samples.fresh)
    as [Hstored _].
  destruct (Hstored [("about", JObj [("title", JStr "Example Forum")])]
              [("title", JStr "Example Forum")] eq_refl eq_refl) as (Hfst & Hstate & _).
  split; [exact Hfst | exact Hstate].
Defined.

(** ** [update], [close] and the reconciliation on a response of any shape *)

Section WireReconciliation.

Implicit Types (d : Wire.Dict) (opts : list json) (w : Wire.World).

Lemma wire_with_votes_same d w :
  Wire.votes (Wire.outcome w) = Some d -> Wire.with_votes d w = w.
Proof. destruct w as [s [u v] st es]. simpl. by intros ->. Qed.

(** The loop, with the dict of the outcome written in place: when
    [votes] is the outcome's own dict, the outcome holds after the loop
    what the loop reached, whether it ended or raised. *)
Lemma wire_merge_options_run (aliased : bool) opts (acc : Wire.Dict * bool) w :
  (aliased = true -> Wire.votes (Wire.outcome w) = Some (fst acc)) ->
  Wire.merge_options aliased opts acc w
  = (match snd (Wire.turns opts acc) with
     | None => Ok (fst (Wire.turns opts acc))
     | Some e => Raise e
     end,
     if aliased then Wire.with_votes (fst (fst (Wire.turns opts acc))) w else w).
Proof.
  revert acc w. induction opts as [ | opt opts IH]; intros acc w Hw.
  - simpl. unfold Wire.ret. destruct aliased; [ | done].
    by rewrite wire_with_votes_same by auto.
  - simpl. unfold Wire.bind at 1. unfold Wire.merge_option, Wire.turn.
    unfold Wire.bind at 1. unfold Wire.lift at 1.
    destruct (getitem opt "html") as [key | e]; simpl.
    2:{ destruct aliased; [ | done]. by rewrite wire_with_votes_same by auto. }
    unfold Wire.bind at 1. unfold Wire.lift at 1.
    destruct (getitem opt "votes") as [val | e]; simpl.
    2:{ destruct aliased; [ | done]. by rewrite wire_with_votes_same by auto. }
    unfold Wire.bind at 1. unfold Wire.lift at 1.
    destruct (Wire.get (fst acc) key) as [stored | e]; simpl.
    2:{ destruct aliased; [ | done]. by rewrite wire_with_votes_same by auto. }
    destruct (negb (Wire.py_eq stored val)); simpl.
    + unfold Wire.bind at 1. destruct aliased; simpl.
      * unfold Wire.ret. rewrite IH by done. by destruct w as [s [u v] st es].
      * unfold Wire.ret. by rewrite IH.
    + unfold Wire.ret. by rewrite IH.
Qed.

Lemma wire_turns_flag_stays opts d :
  snd (fst (Wire.turns opts (d, true))) = true.
Proof.
  revert d. induction opts as [ | opt opts IH]; intros d; [done | ].
  simpl. unfold Wire.turn. simpl.
  destruct (getitem opt "html") as [key | e]; [ | done].
  destruct (getitem opt "votes") as [val | e]; [ | done].
  destruct (Wire.get d key) as [stored | e]; [ | done].
  destruct (negb _); apply IH.
Qed.

(** A loop that raises no flag has changed nothing. *)
Lemma wire_turns_clean opts d :
  snd (fst (Wire.turns opts (d, false))) = false ->
  fst (fst (Wire.turns opts (d, false))) = d.
Proof.
  revert d. induction opts as [ | opt opts IH]; intros d; [done | ].
  simpl. unfold Wire.turn. simpl.
  destruct (getitem opt "html") as [key | e]; [ | done].
  destruct (getitem opt "votes") as [val | e]; [ | done].
  destruct (Wire.get d key) as [stored | e]; [ | done].
  destruct (negb _); [ | apply IH].
  by rewrite wire_turns_flag_stays.
Qed.

(** What one reconciliation does, in one equation. *)
Lemma wire_reconcile_unfold (poll : json) w :
  Wire.update_outcome_from_discourse_poll poll w =
  match getitem poll "options" with
  | Raise e => (Raise e, w)
  | Ok options =>
      match Wire.iter options with
      | Raise e => (Raise e, w)
      | Ok opts =>
          let reached := Wire.turns opts (default [] (Wire.votes (Wire.outcome w)), false) in
          let w1 := match Wire.votes (Wire.outcome w) with
                    | Some _ => Wire.with_votes (fst (fst reached)) w
                    | None => w
                    end in
          match snd reached with
          | Some e => (Raise e, w1)
          | None =>
              match getitem poll "status" with
              | Raise e => (Raise e, w1)
              | Ok status =>
                  let closed := Wire.py_eq status (JStr "closed") in
                  if snd (fst reached) || closed then
                    let status' := if closed then value COMPLETED else Wire.status w in
                    let outcome' := {| Wire.poll_url := Wire.poll_url (Wire.outcome w);
                                       Wire.votes := Some (fst (fst reached)) |} in
                    (Ok tt, {| Wire.status := status'; Wire.outcome := outcome';
                               Wire.state := Wire.state w;
                               Wire.effects := Wire.effects w ++ [Wire.Saved status' outcome'] |})
                  else (Ok tt, w)
              end
          end
      end
  end.
Proof.
  unfold Wire.update_outcome_from_discourse_poll.
  unfold Wire.bind at 1. unfold Wire.get_outcome.
  unfold Wire.bind at 1. unfold Wire.lift at 1.
  destruct (getitem poll "options") as [options | e]; [ | done].
  unfold Wire.bind at 1. unfold Wire.lift at 1.
  destruct (Wire.iter options) as [opts | e]; [ | done].
  unfold Wire.bind at 1.
  rewrite wire_merge_options_run
    by (simpl; by destruct (Wire.votes (Wire.outcome w))).
  cbv zeta.
  set (reached := Wire.turns opts (default [] (Wire.votes (Wire.outcome w)), false)).
  assert (Hw1 : (if match Wire.votes (Wire.outcome w) with Some _ => true | None => false end
                 then Wire.with_votes (fst (fst reached)) w else w)
                = match Wire.votes (Wire.outcome w) with
                  | Some _ => Wire.with_votes (fst (fst reached)) w
                  | None => w
                  end) by (by destruct (Wire.votes (Wire.outcome w))).
  rewrite Hw1. clear Hw1.
  destruct (snd reached) as [e | ]; [done | ].
  unfold Wire.bind at 1. unfold Wire.lift at 1.
  destruct (getitem poll "status") as [status | e]; [ | done].
  destruct (snd (fst reached)) eqn:Hflag; simpl.
  - destruct (Wire.py_eq status (JStr "closed")); simpl;
      unfold Wire.bind, Wire.set_status, Wire.set_votes, Wire.save, Wire.emit, Wire.ret;
      simpl; by destruct (Wire.votes (Wire.outcome w)).
  - apply wire_turns_clean in Hflag.
    change (fst (fst reached) = default [] (Wire.votes (Wire.outcome w))) in Hflag.
    rewrite Hflag.
    assert (Hw : match Wire.votes (Wire.outcome w) with
                 | Some _ => Wire.with_votes (default [] (Wire.votes (Wire.outcome w))) w
                 | None => w
                 end = w).
    { destruct (Wire.votes (Wire.outcome w)) eqn:Hv; [ | done].
      by apply wire_with_votes_same. }
    rewrite Hw.
    destruct (Wire.py_eq status (JStr "closed")); simpl; [ | done].
    unfold Wire.bind, Wire.set_status, Wire.set_votes, Wire.save, Wire.emit, Wire.ret.
    simpl. by destruct (Wire.votes (Wire.outcome w)).
Qed.
End WireReconciliation.

Section WireLifecycle.
Variable py_repr : json -> string.
Variable config : Config.

Implicit Types (w : Wire.World) (remote : Request -> Response json).

Lemma wire_update_unfold remote w :
  let call := DiscoursePoll.update_call py_repr config
                (default JNull (Wire.state w !! "topic_id")) in
  let resp := remote call in
  Wire.update py_repr config remote w =
  if negb (ok resp) then (Raise (PluginErrorInternal (text resp)), Wire.logged call w)
  else match decoded resp with
       | None => (Raise JSONDecodeError, Wire.logged call w)
       | Some response =>
           match Wire.topic_poll response with
           | Raise e => (Raise e, Wire.logged call w)
           | Ok poll => Wire.update_outcome_from_discourse_poll poll (Wire.logged call w)
           end
       end.
Proof.
  cbv zeta. unfold Wire.update, Wire.topic_poll.
  unfold Wire.bind at 1. unfold Wire.state_get.
  unfold Wire.bind at 1. unfold Wire.request, Wire.emit. simpl.
  fold (Wire.logged (DiscoursePoll.update_call py_repr config
                       (default JNull (Wire.state w !! "topic_id"))) w).
  destruct (negb (ok _)); [done | ].
  unfold Wire.bind at 1. unfold Wire.lift at 1. unfold json_of.
  destruct (decoded _) as [response | ]; [ | done].
  unfold Wire.bind at 1. unfold Wire.lift at 1.
  destruct (getitem response "post_stream") as [post_stream | e]; [ | done].
  unfold Wire.bind at 1. unfold Wire.lift at 1.
  destruct (getitem post_stream "posts") as [posts | e]; [ | done].
  unfold Wire.bind at 1. unfold Wire.lift at 1.
  destruct (Wire.getitem0 posts) as [topic_post | e]; [ | done].
  unfold Wire.bind at 1. unfold Wire.lift at 1.
  destruct (getitem topic_post "polls") as [polls | e]; [ | done].
  unfold Wire.bind at 1. unfold Wire.lift at 1.
  by destruct (Wire.getitem0 polls) as [poll | e].
Qed.

Lemma wire_close_unfold remote w :
  let call := DiscoursePoll.close_call config (default JNull (Wire.state w !! "post_id")) in
  let resp := remote call in
  Wire.close config remote w =
  if negb (ok resp) then (Raise (PluginErrorInternal (text resp)), Wire.logged call w)
  else match decoded resp with
       | None => (Raise JSONDecodeError, Wire.logged call w)
       | Some body =>
           match getitem body "poll" with
           | Raise e => (Raise e, Wire.logged call w)
           | Ok poll => Wire.update_outcome_from_discourse_poll poll (Wire.logged call w)
           end
       end.
Proof.
  cbv zeta. unfold Wire.close.
  unfold Wire.bind at 1. unfold Wire.state_get.
  unfold Wire.bind at 1. unfold Wire.request, Wire.emit. simpl.
  fold (Wire.logged (DiscoursePoll.close_call config
                       (default JNull (Wire.state w !! "post_id"))) w).
  destruct (negb (ok _)); [done | ].
  unfold Wire.bind at 1. unfold Wire.lift at 1. unfold json_of.
  destruct (decoded _) as [body | ]; [ | done].
  unfold Wire.bind at 1. unfold Wire.lift at 1.
  by destruct (getitem body "poll") as [poll | e].
Qed.

Lemma wire_writes_snoc (es : list Wire.Effect) (e : Wire.Effect) :
  length (List.filter Wire.is_saved (es ++ [e]))
  = (length (List.filter Wire.is_saved es) + (if Wire.is_saved e then 1 else 0))%nat.
Proof. rewrite List.filter_app, length_app. simpl. by destruct (Wire.is_saved e). Qed.

Lemma wire_last_saved_snoc (es : list Wire.Effect) (e : Wire.Effect) :
  Wire.last_saved (es ++ [e])
  = match e with Wire.Saved s o => Some (s, o) | _ => Wire.last_saved es end.
Proof. unfold Wire.last_saved. by rewrite fold_left_app. Qed.

(** What a reconciliation leaves alone, whether it returns or raises. *)
Lemma wire_reconcile_frame (poll : json) w :
  let r := Wire.update_outcome_from_discourse_poll poll w in
  Wire.state (snd r) = Wire.state w
  /\ Wire.poll_url (Wire.outcome (snd r)) = Wire.poll_url (Wire.outcome w)
  /\ (Wire.status (snd r) = Wire.status w \/ Wire.status (snd r) = value COMPLETED)
  /\ (fst r = Ok tt ->
      snd r = w
      \/ Wire.effects (snd r)
         = (Wire.effects w
            ++ [Wire.Saved (Wire.status (snd r)) (Wire.outcome (snd r))])%list)
  /\ (forall e, fst r = Raise e ->
        Wire.status (snd r) = Wire.status w
        /\ Wire.effects (snd r) = Wire.effects w
        /\ (Wire.votes (Wire.outcome w) = None -> snd r = w)).
Proof.
  cbv zeta. rewrite wire_reconcile_unfold.
  destruct (getitem poll "options") as [options | e0];
    [ | by repeat split; auto].
  destruct (Wire.iter options) as [opts | e0]; [ | by repeat split; auto].
  cbv zeta.
  set (reached := Wire.turns opts (default [] (Wire.votes (Wire.outcome w)), false)).
  set (w1 := match Wire.votes (Wire.outcome w) with
             | Some _ => Wire.with_votes (fst (fst reached)) w
             | None => w
             end).
  assert (Hw1 : Wire.state w1 = Wire.state w
                /\ Wire.poll_url (Wire.outcome w1) = Wire.poll_url (Wire.outcome w)
                /\ Wire.status w1 = Wire.status w
                /\ Wire.effects w1 = Wire.effects w
                /\ (Wire.votes (Wire.outcome w) = None -> w1 = w)).
  { unfold w1. by destruct (Wire.votes (Wire.outcome w)). }
  destruct Hw1 as (H1 & H2 & H3 & H4 & H5).
  destruct (snd reached) as [e0 | ].
  { simpl. split; [done | ]. split; [done | ]. split; [by left | ].
    split; [done | ]. by intros e _. }
  destruct (getitem poll "status") as [status | e0].
  2:{ simpl. split; [done | ]. split; [done | ]. split; [by left | ].
      split; [done | ]. by intros e _. }
  destruct (snd (fst reached) || Wire.py_eq status (JStr "closed")); simpl.
  - split; [done | ]. split; [done | ].
    split; [destruct (Wire.py_eq _ _); [by right | by left] | ].
    split; [by right | done].
  - split; [done | ]. split; [done | ]. split; [by left | ].
    split; [by left | done].
Qed.

(** A reconciliation keeps the record in sync when it returns, and when it
    raises it has saved nothing. *)
Lemma wire_reconcile_kept (poll : json) w :
  Wire.in_sync w ->
  let r := Wire.update_outcome_from_discourse_poll poll w in
  (fst r = Ok tt -> Wire.in_sync (snd r))
  /\ (Wire.votes (Wire.outcome w) = None -> Wire.in_sync (snd r))
  /\ (forall e, fst r = Raise e ->
        Wire.status (snd r) = Wire.status w
        /\ Wire.writes (snd r) = Wire.writes w
        /\ (Wire.in_sync (snd r) <-> Wire.outcome (snd r) = Wire.outcome w)).
Proof.
  intros Hw r.
  destruct (wire_reconcile_frame poll w) as (_ & _ & _ & Hok & Hraise). fold r in Hok, Hraise.
  assert (Hret : fst r = Ok tt -> Wire.in_sync (snd r)).
  { intros Hr. destruct (Hok Hr) as [-> | Hes]; [done | ].
    unfold Wire.in_sync. by rewrite Hes, wire_last_saved_snoc. }
  split; [done | ]. split.
  - intros Hnone. destruct (fst r) as [[] | e] eqn:Hr; [by apply Hret | ].
    destruct (Hraise e eq_refl) as (_ & _ & Hsame). by rewrite Hsame.
  - intros e Hr. destruct (Hraise e Hr) as (Hs & Hes & _).
    split; [done | ]. split; [unfold Wire.writes; by rewrite Hes | ].
    unfold Wire.in_sync in *. rewrite Hes, Hs, Hw.
    split; [by intros [= ->] | by intros ->].
Qed.

Lemma wire_in_sync_logged (call : Request) w :
  Wire.in_sync w -> Wire.in_sync (Wire.logged call w).
Proof. unfold Wire.in_sync, Wire.logged. simpl. by rewrite wire_last_saved_snoc. Qed.

Lemma wire_writes_logged (call : Request) w :
  Wire.writes (Wire.logged call w) = Wire.writes w.
Proof. unfold Wire.writes, Wire.logged. simpl. rewrite wire_writes_snoc. simpl. lia. Qed.

(** No method of the poll that returns leaves an unsaved change, and one
    that raises has saved nothing; but a reconciliation that raises can
    leave a count it has already overwritten.

    [start]: if the record is persisted as the instance holds it, it still
    is after [start], whether [start] returns or raises; and after a
    [start] that returns it is, whatever was persisted before.

    [update_outcome_from_discourse_poll], [update] and [close], on a
    response of any shape, from a record that is persisted as held: if
    the call returns, the record is persisted as held; if the outcome had
    no ["votes"] yet, it is as well; if the call raises, the status is as
    before and nothing was saved, so that the record is still persisted as
    held exactly when the outcome is what it was.

    It need not be.  With a stored ["votes"] dict, an option whose count
    differs from the stored one, followed by an option that cannot be
    read (no ["html"], no ["votes"], not an object), the reconciliation
    raises with the first count written into the outcome and not
    saved. *)
Theorem methods_keep_record_in_sync :
  (forall (remote : Request -> Response json) (parameters : DiscoursePoll.Parameters)
          (w : World),
     Invariants.in_sync w
     \/ fst (DiscoursePoll.start py_repr config remote parameters w) = Ok tt ->
     Invariants.in_sync (snd (DiscoursePoll.start py_repr config remote parameters w)))
  /\ (forall (w : Wire.World) (r : Result unit * Wire.World),
        Wire.in_sync w ->
        (exists poll, r = Wire.update_outcome_from_discourse_poll poll w)
        \/ (exists remote, r = Wire.update py_repr config remote w)
        \/ (exists remote, r = Wire.close config remote w) ->
        (fst r = Ok tt -> Wire.in_sync (snd r))
        /\ (Wire.votes (Wire.outcome w) = None -> Wire.in_sync (snd r))
        /\ (forall e, fst r = Raise e ->
              Wire.status (snd r) = Wire.status w
              /\ Wire.writes (snd r) = Wire.writes w
              /\ (Wire.in_sync (snd r) <-> Wire.outcome (snd r) = Wire.outcome w)))
  /\ (forall (w : Wire.World) (d : Wire.Dict) (poll good bad : json) (rest : list json)
             (key val stored : json) (e : exn),
        Wire.votes (Wire.outcome w) = Some d ->
        getitem poll "options" = Ok (JList (good :: bad :: rest)) ->
        getitem good "html" = Ok key ->
        getitem good "votes" = Ok val ->
        Wire.get d key = Ok stored ->
        Wire.py_eq stored val = false ->
        (getitem bad "html" = Raise e
         \/ exists label, getitem bad "html" = Ok label /\ getitem bad "votes" = Raise e) ->
        Wire.update_outcome_from_discourse_poll poll w
        = (Raise e, Wire.with_votes (Wire.setitem d key val) w)).
Proof.
  split; [ | split].
  - intros remote parameters w. rewrite start_unfold. cbv zeta.
    destruct (ok _); simpl.
    + destruct (decoded _) as [[ | | | | | items] | ]; simpl;
        try (intros [H | H]; [by apply in_sync_logged_call | done]).
      destruct (truthy _); simpl;
        [intros [H | H]; [by apply in_sync_logged_call | done] | ].
      intros _. unfold Invariants.in_sync. simpl.
      change (effects w ++ [?a; ?b; ?c; ?d; ?e])%list
        with (effects w ++ [a; b; c; d] ++ [e])%list.
      by rewrite app_assoc, last_saved_snoc.
    + intros [H | H]; [by apply in_sync_logged_call | done].
  - intros w r Hw. revert r.
    assert (Hlogged : forall r call poll,
              r = Wire.update_outcome_from_discourse_poll poll (Wire.logged call w) ->
              (fst r = Ok tt -> Wire.in_sync (snd r))
              /\ (Wire.votes (Wire.outcome w) = None -> Wire.in_sync (snd r))
              /\ (forall e, fst r = Raise e ->
                    Wire.status (snd r) = Wire.status w
                    /\ Wire.writes (snd r) = Wire.writes w
                    /\ (Wire.in_sync (snd r) <-> Wire.outcome (snd r) = Wire.outcome w))).
    { intros r call poll ->.
      pose proof (wire_reconcile_kept poll (Wire.logged call w)
                    (wire_in_sync_logged call w Hw)) as Hk.
      cbv zeta in Hk. by rewrite wire_writes_logged in Hk. }
    assert (Hfailed : forall (r : Result unit * Wire.World) call e,
              r = (Raise e, Wire.logged call w) ->
              (fst r = Ok tt -> Wire.in_sync (snd r))
              /\ (Wire.votes (Wire.outcome w) = None -> Wire.in_sync (snd r))
              /\ (forall e, fst r = Raise e ->
                    Wire.status (snd r) = Wire.status w
                    /\ Wire.writes (snd r) = Wire.writes w
                    /\ (Wire.in_sync (snd r) <-> Wire.outcome (snd r) = Wire.outcome w))).
    { intros r call e ->. simpl.
      pose proof (wire_in_sync_logged call w Hw) as Hl.
      split; [done | ]. split; [done | ]. intros e' _.
      split; [done | ]. split; [apply wire_writes_logged | done]. }
    intros r [[poll ->] | [[remote ->] | [remote ->]]].
    + by apply wire_reconcile_kept.
    + rewrite wire_update_unfold. cbv zeta.
      destruct (negb (ok _)); [by eapply Hfailed | ].
      destruct (decoded _) as [response | ]; [ | by eapply Hfailed].
      destruct (Wire.topic_poll response) as [poll | e]; [ | by eapply Hfailed].
      by eapply Hlogged.
    + rewrite wire_close_unfold. cbv zeta.
      destruct (negb (ok _)); [by eapply Hfailed | ].
      destruct (decoded _) as [body | ]; [ | by eapply Hfailed].
      destruct (getitem body "poll") as [poll | e]; [ | by eapply Hfailed].
      by eapply Hlogged.
  - intros w d poll good bad rest key val stored e Hd Hopts Hkey Hval Hget Hne Hbad.
    assert (Hreached : Wire.turns (good :: bad :: rest)
                         (default [] (Wire.votes (Wire.outcome w)), false)
                       = (Wire.setitem d key val, true, Some e)).
    { rewrite Hd. cbn [Wire.turns]. unfold Wire.turn at 1. simpl.
      rewrite Hkey, Hval, Hget, Hne. simpl.
      unfold Wire.turn. by destruct Hbad as [-> | (label & -> & ->)]. }
    rewrite wire_reconcile_unfold, Hopts. unfold Wire.iter. cbv zeta.
    by rewrite Hreached, Hd.
Qed.

(** [update] and [close] on a response of any shape.  The datastore and
    the poll URL are untouched; the status afterwards is what it was or
    ["completed"]; the record is persisted at most once; and a call that
    raises has left the status as it was and saved nothing: the request
    is all that left the process.  A call raises
    [PluginErrorInternal] with the text of a non-success response and the
    decoding error for a body that is not JSON, and then the request is
    all that happened; the same holds when the poll cannot be reached in
    the body, and the exception is the one of the subscript that fails:
    [TypeError] for a body that is not an object, [KeyError] for an
    object without ["post_stream"] (for [close]: without ["poll"]) and for
    a first post without ["polls"], [IndexError] for an empty list of
    posts or of polls.  Otherwise the call is the reconciliation with the
    poll that was reached. *)
Theorem update_close_frame (w : Wire.World) :
  (forall remote,
     let call := DiscoursePoll.update_call py_repr config
                   (default JNull (Wire.state w !! "topic_id")) in
     let resp := remote call in
     let r := Wire.update py_repr config remote w in
     Wire.state (snd r) = Wire.state w
     /\ Wire.poll_url (Wire.outcome (snd r)) = Wire.poll_url (Wire.outcome w)
     /\ (Wire.status (snd r) = Wire.status w \/ Wire.status (snd r) = value COMPLETED)
     /\ (Wire.writes w <= Wire.writes (snd r) <= S (Wire.writes w))%nat
     /\ (forall e, fst r = Raise e ->
           Wire.status (snd r) = Wire.status w
           /\ Wire.effects (snd r) = (Wire.effects w ++ [Wire.HttpCall call])%list)
     /\ (ok resp = false ->
         r = (Raise (PluginErrorInternal (text resp)), Wire.logged call w))
     /\ (ok resp = true -> decoded resp = None ->
         r = (Raise JSONDecodeError, Wire.logged call w))
     /\ (forall response e, ok resp = true -> decoded resp = Some response ->
           Wire.topic_poll response = Raise e ->
           r = (Raise e, Wire.logged call w))
     /\ (forall response poll, ok resp = true -> decoded resp = Some response ->
           Wire.topic_poll response = Ok poll ->
           r = Wire.update_outcome_from_discourse_poll poll (Wire.logged call w)))
  /\ (forall remote,
        let call := DiscoursePoll.close_call config
                      (default JNull (Wire.state w !! "post_id")) in
        let resp := remote call in
        let r := Wire.close config remote w in
        Wire.state (snd r) = Wire.state w
        /\ Wire.poll_url (Wire.outcome (snd r)) = Wire.poll_url (Wire.outcome w)
        /\ (Wire.status (snd r) = Wire.status w \/ Wire.status (snd r) = value COMPLETED)
        /\ (Wire.writes w <= Wire.writes (snd r) <= S (Wire.writes w))%nat
        /\ (forall e, fst r = Raise e ->
              Wire.status (snd r) = Wire.status w
              /\ Wire.effects (snd r) = (Wire.effects w ++ [Wire.HttpCall call])%list)
        /\ (ok resp = false ->
            r = (Raise (PluginErrorInternal (text resp)), Wire.logged call w))
        /\ (ok resp = true -> decoded resp = None ->
            r = (Raise JSONDecodeError, Wire.logged call w))
        /\ (forall body e, ok resp = true -> decoded resp = Some body ->
              getitem body "poll" = Raise e ->
              r = (Raise e, Wire.logged call w))
        /\ (forall body poll, ok resp = true -> decoded resp = Some body ->
              getitem body "poll" = Ok poll ->
              r = Wire.update_outcome_from_discourse_poll poll (Wire.logged call w)))
  /\ ((forall body, (forall items, body <> JObj items) ->
         Wire.topic_poll body = Raise TypeError /\ getitem body "poll" = Raise TypeError)
      /\ (forall items, assoc "post_stream" items = None ->
            Wire.topic_poll (JObj items) = Raise KeyError)
      /\ (forall items, assoc "poll" items = None ->
            getitem (JObj items) "poll" = Raise KeyError)
      /\ (forall items stream posts,
            assoc "post_stream" items = Some (JObj stream) ->
            assoc "posts" stream = Some (JList posts) ->
            match posts with
            | [] => Wire.topic_poll (JObj items) = Raise IndexError
            | JObj post :: _ =>
                match assoc "polls" post with
                | None => Wire.topic_poll (JObj items) = Raise KeyError
                | Some (JList []) => Wire.topic_poll (JObj items) = Raise IndexError
                | Some (JList (poll :: _)) => Wire.topic_poll (JObj items) = Ok poll
                | Some _ => True
                end
            | _ :: _ => Wire.topic_poll (JObj items) = Raise TypeError
            end)).
Proof.
  assert (Hrec : forall poll call,
    let r := Wire.update_outcome_from_discourse_poll poll (Wire.logged call w) in
    Wire.state (snd r) = Wire.state w
    /\ Wire.poll_url (Wire.outcome (snd r)) = Wire.poll_url (Wire.outcome w)
    /\ (Wire.status (snd r) = Wire.status w \/ Wire.status (snd r) = value COMPLETED)
    /\ (Wire.writes w <= Wire.writes (snd r) <= S (Wire.writes w))%nat
    /\ (forall e, fst r = Raise e ->
          Wire.status (snd r) = Wire.status w
          /\ Wire.effects (snd r) = (Wire.effects w ++ [Wire.HttpCall call])%list)).
  { intros poll call r.
    destruct (wire_reconcile_frame poll (Wire.logged call w))
      as (Hst & Hu & Hs & Hok & Hraise). fold r in Hst, Hu, Hs, Hok, Hraise.
    split; [done | ]. split; [done | ]. split; [done | ].
    split.
    - destruct (fst r) as [[] | e] eqn:Hr.
      + destruct (Hok eq_refl) as [-> | Hes].
        * rewrite wire_writes_logged. lia.
        * unfold Wire.writes at 2 3. rewrite Hes, wire_writes_snoc.
          fold (Wire.writes (Wire.logged call w)). rewrite wire_writes_logged.
          simpl. lia.
      + destruct (Hraise e eq_refl) as (_ & Hes & _).
        unfold Wire.writes at 2 3. rewrite Hes.
        fold (Wire.writes (Wire.logged call w)). rewrite wire_writes_logged. lia.
    - intros e Hr. destruct (Hraise e Hr) as (Hs' & Hes & _). by split. }
  assert (Hlog : forall call (e0 : exn),
    let r : Result unit * Wire.World := (Raise e0, Wire.logged call w) in
    Wire.state (snd r) = Wire.state w
    /\ Wire.poll_url (Wire.outcome (snd r)) = Wire.poll_url (Wire.outcome w)
    /\ (Wire.status (snd r) = Wire.status w \/ Wire.status (snd r) = value COMPLETED)
    /\ (Wire.writes w <= Wire.writes (snd r) <= S (Wire.writes w))%nat
    /\ (forall e, fst r = Raise e ->
          Wire.status (snd r) = Wire.status w
          /\ Wire.effects (snd r) = (Wire.effects w ++ [Wire.HttpCall call])%list)).
  { intros call e0 r. subst r. simpl. rewrite wire_writes_logged.
    split; [done | ]. split; [done | ]. split; [by left | ]. split; [lia | done]. }
  split; [ | split].
  - intros remote call resp r. subst r. rewrite wire_update_unfold. cbv zeta.
    fold call resp.
    destruct (ok resp) eqn:Hok; simpl.
    + destruct (decoded resp) as [response | ] eqn:Hbody.
      * destruct (Wire.topic_poll response) as [poll | e0] eqn:Hp.
        -- destruct (Hrec poll call) as (? & ? & ? & ? & ?).
           split_and!; try done; try lia.
           ++ intros response' e' _ [= <-]. congruence.
           ++ intros response' poll' _ [= <-]. congruence.
        -- destruct (Hlog call e0) as (? & ? & ? & ? & ?).
           split_and!; try done; try lia.
           ++ intros response' e' _ [= <-]. congruence.
           ++ intros response' poll' _ [= <-]. congruence.
      * destruct (Hlog call JSONDecodeError) as (? & ? & ? & ? & ?).
        simpl in *. split_and!; first [done | lia].
    + destruct (Hlog call (PluginErrorInternal (text resp))) as (? & ? & ? & ? & ?).
      simpl in *. split_and!; first [done | lia].
  - intros remote call resp r. subst r. rewrite wire_close_unfold. cbv zeta.
    fold call resp.
    destruct (ok resp) eqn:Hok; simpl.
    + destruct (decoded resp) as [body | ] eqn:Hbody.
      * destruct (getitem body "poll") as [poll | e0] eqn:Hp.
        -- destruct (Hrec poll call) as (? & ? & ? & ? & ?).
           split_and!; try done; try lia.
           ++ intros body' e' _ [= <-]. congruence.
           ++ intros body' poll' _ [= <-]. congruence.
        -- destruct (Hlog call e0) as (? & ? & ? & ? & ?).
           split_and!; try done; try lia.
           ++ intros body' e' _ [= <-]. congruence.
           ++ intros body' poll' _ [= <-]. congruence.
      * destruct (Hlog call JSONDecodeError) as (? & ? & ? & ? & ?).
        simpl in *. split_and!; first [done | lia].
    + destruct (Hlog call (PluginErrorInternal (text resp))) as (? & ? & ? & ? & ?).
      simpl in *. split_and!; first [done | lia].
  - split; [ | split; [ | split]].
    + intros body Hno. destruct body as [ | | | | | items]; try done.
      by destruct (Hno items).
    + intros items Hn. unfold Wire.topic_poll. simpl. by rewrite Hn.
    + intros items Hn. simpl. by rewrite Hn.
    + intros items stream posts Hs Hp. unfold Wire.topic_poll. simpl.
      rewrite Hs. simpl. rewrite Hp.
      destruct posts as [ | [ | | | | | post] ?]; simpl; try done.
      destruct (assoc "polls" post) as [[ | | | | [ | poll ?] | ] | ]; done.
Qed.
End WireLifecycle.

(** A saved record with red at 3 and a poll that reports red at 4 and
    then an option without its count, for [methods_keep_record_in_sync]:
    the reconciliation raises [KeyError] with red at 4 in the outcome and
    nothing saved. *)
Lemma methods_keep_record_in_sync_witness :
  let r := Wire.update_outcome_from_discourse_poll MoreSamples.red4_then_no_count
             MoreSamples.tracked_on_wire in
  Wire.in_sync MoreSamples.tracked_on_wire
  /\ fst r = Raise KeyError
  /\ Wire.votes (Wire.outcome (snd r)) = Some [(JStr "red", JInt 4)]
  /\ Wire.writes (snd r) = Wire.writes MoreSamples.tracked_on_wire
  /\ ~ Wire.in_sync (snd r).
Proof.
  cbv zeta.
  assert (Hw : Wire.in_sync MoreSamples.tracked_on_wire) by reflexivity.
  destruct (methods_keep_record_in_sync Samples.repr_unused Samples.forum)
    as (_ & Hkept & Hleak).
  pose proof (Hleak MoreSamples.tracked_on_wire [(JStr "red", JInt 3)]
                MoreSamples.red4_then_no_count
                (JObj [("html", JStr "red"); ("votes", JInt 4)])
                (JObj [("html", JStr "blue")]) []
                (JStr "red") (JInt 4) (JInt 3) KeyError
                eq_refl eq_refl eq_refl eq_refl eq_refl eq_refl
                (or_intror (ex_intro _ (JStr "blue") (conj eq_refl eq_refl)))) as Hr.
  destruct (Hkept MoreSamples.tracked_on_wire _ Hw
              (or_introl (ex_intro _ MoreSamples.red4_then_no_count eq_refl)))
    as (_ & _ & Hraise).
  rewrite Hr in Hraise |- *.
  destruct (Hraise KeyError eq_refl) as (_ & Hwrites & Hsync).
  split; [exact Hw | ]. split; [reflexivity | ]. split; [reflexivity | ].
  split; [exact Hwrites | ].
  intros Hs. apply Hsync in Hs. discriminate Hs.
Defined.

(** A topic whose first post has no ["polls"], for [update_close_frame]:
    [update] raises [KeyError] and the request is all that happened. *)
Lemma update_close_frame_witness :
  let remote := MoreSamples.replying MoreSamples.topic_without_polls in
  let call := DiscoursePoll.update_call Samples.repr_unused Samples.forum (JInt 7) in
  Wire.update Samples.repr_unused Samples.forum remote MoreSamples.tracked_on_wire
  = (Raise KeyError, Wire.logged call MoreSamples.tracked_on_wire).
Proof.
  cbv zeta.
  destruct (update_close_frame Samples.repr_unused Samples.forum
              MoreSamples.tracked_on_wire) as (Hupdate & _ & _).
  destruct (Hupdate (MoreSamples.replying MoreSamples.topic_without_polls))
    as (_ & _ & _ & _ & _ & _ & _ & Hnav & _).
  exact (Hnav MoreSamples.topic_without_polls KeyError eq_refl eq_refl eq_refl).
Defined.

(** ** The methods of [DiscoursePoll] are those on the wire, on responses
       of the shape Discourse gives them *)

Section WireAgreement.
Import DiscoursePoll.
Variable py_repr : json -> string.
Variable config : Config.

Lemma wire_py_eq_label (key : json) (label : string) :
  Wire.py_eq key (JStr label) = true <-> key = JStr label.
Proof.
  destruct key as [ | b | n | s | l | items]; simpl; try (split; [done | by intros [=]]).
  rewrite String.eqb_eq. split; [by intros -> | by intros [= ->]].
Qed.

Lemma wire_find_setitem (d : Wire.Dict) (label label' : string) (val : json) :
  Wire.find (Wire.setitem d (JStr label) val) (JStr label')
  = if String.eqb label label' then Some val else Wire.find d (JStr label').
Proof.
  induction d as [ | [k v] d IH]; simpl.
  - by destruct (String.eqb label label').
  - destruct (Wire.py_eq k (JStr label)) eqn:Hk; simpl.
    + apply wire_py_eq_label in Hk as ->. simpl.
      by destruct (String.eqb label label').
    + rewrite IH. destruct (String.eqb label label') eqn:Hl; [ | done].
      apply String.eqb_eq in Hl as <-. by rewrite Hk.
Qed.

(** One turn of the loop on an option with its label and its count. *)
Lemma wire_turn_agrees (d : Wire.Dict) (m : gmap string Z) (dirty : bool)
    (opt : PollOption) :
  Wire.holds d m ->
  exists d', Wire.turn (d, dirty) (Wire.option_json opt)
             = Ok (d', snd (merge_option (m, dirty) opt))
             /\ Wire.holds d' (fst (merge_option (m, dirty) opt)).
Proof.
  intros Hd. unfold Wire.turn, merge_option, Wire.get. simpl.
  rewrite (Hd (opt_html opt)).
  destruct (m !! opt_html opt) as [c | ] eqn:Hc; simpl.
  - destruct (Z.eqb_spec c (opt_votes opt)) as [-> | Hne]; simpl.
    + rewrite bool_decide_eq_true_2 by done. by exists d.
    + rewrite bool_decide_eq_false_2 by congruence. simpl.
      eexists. split; [done | ]. intros label.
      rewrite wire_find_setitem, lookup_insert.
      case_decide as Hl; [subst; by rewrite String.eqb_refl | ].
      apply String.eqb_neq in Hl. rewrite Hl. apply Hd.
  - eexists. split; [done | ]. intros label.
    rewrite wire_find_setitem, lookup_insert.
    case_decide as Hl; [subst; by rewrite String.eqb_refl | ].
    apply String.eqb_neq in Hl. rewrite Hl. apply Hd.
Qed.

Lemma wire_turns_agree (opts : list PollOption) (d : Wire.Dict) (m : gmap string Z)
    (dirty : bool) :
  Wire.holds d m ->
  exists d', Wire.turns (map Wire.option_json opts) (d, dirty)
             = (d', snd (merge_options opts (m, dirty)), None)
             /\ Wire.holds d' (fst (merge_options opts (m, dirty))).
Proof.
  revert d m dirty. induction opts as [ | opt opts IH]; intros d m dirty Hd.
  - by exists d.
  - destruct (wire_turn_agrees d m dirty opt Hd) as (d1 & Hturn & Hd1).
    cbn [Wire.turns map]. rewrite Hturn.
    destruct (IH d1 _ (snd (merge_option (m, dirty) opt)) Hd1) as (d2 & Hturns & Hd2).
    exists d2. unfold merge_options in *. cbn [fold_left].
    by rewrite (surjective_pairing (merge_option (m, dirty) opt)).
Qed.

Lemma wire_holds_empty : Wire.holds [] ∅.
Proof. intros label. by rewrite lookup_empty. Qed.

(** On a poll with its options and its status, the reconciliation on
    the wire returns and does what the one on polls does. *)
Lemma wire_reconcile_agrees (p : Poll) (w : Wire.World) (t : World) :
  Wire.shows w t ->
  fst (Wire.update_outcome_from_discourse_poll (Wire.poll_json p) w) = Ok tt
  /\ Wire.shows (snd (Wire.update_outcome_from_discourse_poll (Wire.poll_json p) w))
       (snd (update_outcome_from_discourse_poll p t)).
Proof.
  intros (Hs & Hu & Hv & Hst & Hwr).
  assert (Hopts : getitem (Wire.poll_json p) "options"
                  = Ok (JList (map Wire.option_json (poll_options p)))) by done.
  assert (Hstatus : getitem (Wire.poll_json p) "status" = Ok (JStr (poll_status p)))
    by done.
  rewrite wire_reconcile_unfold, reconcile_unfold, Hopts, Hstatus.
  unfold Wire.iter. cbv zeta.
  assert (Hd : Wire.holds (default [] (Wire.votes (Wire.outcome w)))
                 (default ∅ (votes (outcome t)))).
  { destruct (Wire.votes (Wire.outcome w)), (votes (outcome t));
      first [done | apply wire_holds_empty]. }
  destruct (wire_turns_agree (poll_options p) _ _ false Hd) as (d' & Hturns & Hd').
  rewrite Hturns.
  change (Wire.py_eq (JStr (poll_status p)) (JStr "closed"))
    with (String.eqb (poll_status p) "closed").
  cbn [fst snd].
  destruct (snd (merge_options _ _) || String.eqb (poll_status p) "closed"); simpl.
  - split; [done | ]. unfold Wire.shows. simpl.
    split; [by rewrite Hs | ]. split; [done | ]. split; [done | ]. split; [done | ].
    unfold Wire.writes, writes. simpl.
    rewrite !List.filter_app, !length_app. simpl.
    unfold Wire.writes, writes in Hwr. by rewrite Hwr.
  - done.
Qed.

Lemma wire_shows_logged (call : Request) (w : Wire.World) (t : World) :
  Wire.shows w t -> Wire.shows (Wire.logged call w) (logged (HttpCall call) t).
Proof.
  intros (Hs & Hu & Hv & Hst & Hwr). unfold Wire.shows. simpl.
  split; [done | ]. split; [done | ]. split; [done | ]. split; [done | ].
  unfold Wire.writes, writes in *. simpl.
  rewrite !List.filter_app, !length_app. simpl. by rewrite Hwr.
Qed.

(** [update] and [close] of [DiscoursePoll] are [update] and [close] on the
    wire when the body, if it is JSON, has the shape Discourse gives it:
    the same result, and worlds that show the same. *)
Lemma wire_update_close_agree (w : Wire.World) (t : World) :
  Wire.shows w t ->
  (forall remote : Request -> Response TopicView,
     let r := Wire.update py_repr config
                (fun call => Wire.as_json Wire.topic_json (remote call)) w in
     fst r = fst (update py_repr config remote t)
     /\ Wire.shows (snd r) (snd (update py_repr config remote t)))
  /\ (forall remote : Request -> Response Toggled,
        let r := Wire.close config
                   (fun call => Wire.as_json Wire.toggled_json (remote call)) w in
        fst r = fst (close config remote t)
        /\ Wire.shows (snd r) (snd (close config remote t))).
Proof.
  intros Hw. pose proof Hw as (_ & _ & _ & Hst & _).
  split.
  - intros remote r. subst r.
    rewrite wire_update_unfold, update_unfold. cbv zeta. rewrite Hst.
    set (call := update_call py_repr config (default JNull (state t !! "topic_id"))).
    change (ok (Wire.as_json Wire.topic_json (remote call))) with (ok (remote call)).
    destruct (negb (ok (remote call))); [by split; [ | apply wire_shows_logged] | ].
    simpl. destruct (decoded (remote call)) as [[[posts]] | ]; simpl;
      [ | by split; [ | apply wire_shows_logged]].
    unfold Wire.topic_poll. simpl.
    destruct posts as [ | [polls] posts]; simpl;
      [by split; [ | apply wire_shows_logged] | ].
    destruct polls as [ | p polls]; simpl;
      [by split; [ | apply wire_shows_logged] | ].
    destruct (wire_reconcile_agrees p _ _ (wire_shows_logged call w t Hw)) as [Hr Hshows].
    split; [ | done]. rewrite Hr.
    by destruct (reconcile_frame p (logged (HttpCall call) t)) as (-> & _).
  - intros remote r. subst r.
    rewrite wire_close_unfold, close_unfold. cbv zeta. rewrite Hst.
    set (call := close_call config (default JNull (state t !! "post_id"))).
    change (ok (Wire.as_json Wire.toggled_json (remote call))) with (ok (remote call)).
    destruct (negb (ok (remote call))); [by split; [ | apply wire_shows_logged] | ].
    simpl. destruct (decoded (remote call)) as [[p] | ]; simpl;
      [ | by split; [ | apply wire_shows_logged]].
    destruct (wire_reconcile_agrees p _ _ (wire_shows_logged call w t Hw)) as [Hr Hshows].
    split; [ | done]. rewrite Hr.
    by destruct (reconcile_frame p (logged (HttpCall call) t)) as (-> & _).
Qed.
End WireAgreement.
